(** * telegram-bot-kakao-vision: the callback dispatcher, the file-reference
      store, the command registry and the annotation renderer of [main.go],
      embedded in Rocq.

    [main.go] holds two revisions of the program, one after the other; the
    embedding is of the first, the current one (the command table with
    tokens such as [detect_faces], the file-reference store [fileIDs]).
    The payload of the older one is embedded aside, in the module [Legacy].

    Conventions of the embedding.
    - Go strings are byte strings: [string] of the Standard Library.
    - [float64] is the kernel's binary64 [float]; [int] is [Z].
    - Package-level variables ([fileIDs]), the pixel buffers behind
      [image.Image] values and the calls made on the Telegram and Kakao
      clients live in an explicit [World]; a Go function with effects is a
      computation in the monad [M], where [None] stands for a run-time panic.
    - The Telegram client, the Kakao client, the codecs and the three drawing
      libraries are other repositories: they appear as records of functions
      ([Bot], [KakaoClient], [Codec], [Graphics]) over which every theorem
      is quantified. *)

From Stdlib Require Import ZArith String Ascii List Permutation Lia.
From Stdlib Require Import Floats.
From stdpp Require Import gmap strings list pretty.

Local Open Scope string_scope.

(** ** Strings: the functions of package [strings] and slicing that [main.go] uses *)

Module Strings.

(** [s[:n]]: the first [n] bytes; Go panics when [n > len(s)]. *)
Definition slice_to (s : string) (n : nat) : option string :=
  if (String.length s <? n)%nat then None else Some (String.substring 0 n s).

(** [strings.Split(s, "/")] for the one-byte separator the dispatcher uses. *)
Fixpoint Split (sep : ascii) (s : string) : list string :=
  match s with
  | EmptyString => [EmptyString]
  | String c rest =>
      if Ascii.eqb c sep then EmptyString :: Split sep rest
      else match Split sep rest with
           | h :: t => String c h :: t
           | [] => [String c EmptyString]
           end
  end.

(** [strings.Contains(s, sub)]. *)
Fixpoint Contains (s sub : string) : bool :=
  String.prefix sub s ||
  match s with
  | EmptyString => false
  | String _ rest => Contains rest sub
  end.

(** [strings.Join(elems, sep)]. *)
Fixpoint Join (elems : list string) (sep : string) : string :=
  match elems with
  | [] => ""
  | [e] => e
  | e :: rest => e ++ sep ++ Join rest sep
  end.

(** [s] has no byte equal to [c]. *)
Fixpoint lacks (c : ascii) (s : string) : bool :=
  match s with
  | EmptyString => true
  | String d rest => negb (Ascii.eqb d c) && lacks c rest
  end.

End Strings.

(** ** The command registry *)

(** [type VisionCommand string] *)
Definition VisionCommand := string.

Definition DetectFaces : VisionCommand := "Detect Faces".
Definition DetectProducts : VisionCommand := "Detect Products".
Definition DetectNSFW : VisionCommand := "Detect NSFW ".
Definition Tag : VisionCommand := "Tag This Image".
Definition AnalyzePoses : VisionCommand := "Analyze Poses".
Definition ExtractTexts : VisionCommand := "Extract Texts".
Definition MaskFaces : VisionCommand := "Mask Faces".
(** The source's constant [None]; renamed, [None] being the option constructor. *)
Definition CmdNone : VisionCommand := "".

(** [var allCmds = map[VisionCommand]string{...}], in the order of the literal.
    Go ranges over a map in an unspecified order: every function that ranges
    over the table takes the order as an argument, and the theorems quantify
    over the permutations of [allCmds]. *)
Definition allCmds : list (VisionCommand * string) :=
  [ (DetectFaces, "detect_faces");
    (DetectProducts, "detect_products");
    (DetectNSFW, "detect_nsfw");
    (Tag, "tag");
    (AnalyzePoses, "analyze_poses");
    (ExtractTexts, "extract_texts");
    (MaskFaces, "mask_faces") ].

(** [visionCommandForCommand], ranging over the table in the order [table]:
    the first entry whose token is [cmd], [None] ([CmdNone]) when there is none. *)
Definition visionCommandForCommandIn
    (table : list (VisionCommand * string)) (cmd : string) : VisionCommand :=
  match List.find (fun kv => String.eqb (snd kv) cmd) table with
  | Some kv => fst kv
  | None => CmdNone
  end.

Definition visionCommandForCommand (cmd : string) : VisionCommand :=
  visionCommandForCommandIn allCmds cmd.

(** [allCmds[c]]: the token of a command, when it is in the table. *)
Definition tokenOf (table : list (VisionCommand * string)) (c : VisionCommand)
  : option string :=
  snd <$> List.find (fun kv => String.eqb (fst kv) c) table.

Definition messageActionImage := "Choose action for this image:".
Definition messageUnprocessable := "Unprocessable message.".
Definition messageFailedToGetFile := "Failed to get file from the server.".
Definition messageCanceled := "Canceled.".
Definition commandCancel := "cancel".

(** ** Data of the collaborating packages, as [main.go] reads it *)

Definition bytes := list Byte.byte.

(** [image.Point], [image.Rectangle] *)
Record Point := Pt { PX : Z; PY : Z }.
Record Rectangle := { Min : Point; Max : Point }.

(** [image.Rect(x0, y0, x1, y1)]: the corners are put in order. *)
Definition image_Rect (x0 y0 x1 y1 : Z) : Rectangle :=
  {| Min := Pt (Z.min x0 x1) (Z.min y0 y1); Max := Pt (Z.max x0 x1) (Z.max y0 y1) |}.
Definition Dx (r : Rectangle) : Z := (PX (Max r) - PX (Min r))%Z.
Definition Dy (r : Rectangle) : Z := (PY (Max r) - PY (Min r))%Z.
Definition image_ZP : Point := Pt 0 0.

(** [color.RGBA] *)
Record RGBA := { cR : Z; cG : Z; cB : Z; cA : Z }.

(** A picture in memory: bounds and the pixel buffer ([image.RGBA]'s [Rect],
    [Stride] and [Pix]; a decoded image of another concrete type is read
    through the same two notions). *)
Record Image := { Rect : Rectangle; Stride : Z; Pix : bytes }.

(** [image.NewRGBA(r)]: a zeroed buffer of 4 bytes per pixel. *)
Definition image_NewRGBA (r : Rectangle) : Image :=
  {| Rect := r; Stride := (4 * Dx r)%Z;
     Pix := List.repeat Byte.x00 (Z.to_nat (4 * Dx r * Dy r)) |}.

(** Addresses of pixel buffers (Go pointers to images). *)
Definition loc := positive.

(** kakaoapi: detected faces *)
Record FacialPoint := { fpX : float; fpY : float }.
Record FacialPoints :=
  { Nose : list FacialPoint; RightEye : list FacialPoint;
    LeftEye : list FacialPoint; Lip : list FacialPoint }.
Record Face :=
  { faceX : float; faceY : float; faceW : float; faceH : float;
    faceFacialPoints : FacialPoints }.
Record ResponseDetectedFace :=
  { faceWidth : Z; faceHeight : Z; Faces : list Face }.

(** kakaoapi: detected products *)
Record Product :=
  { X1 : float; Y1 : float; X2 : float; Y2 : float; Class : string }.
Record ResponseDetectedProduct :=
  { productWidth : Z; productHeight : Z; Objects : list Product }.

(** kakaoapi: NSFW scores, tags, poses, texts *)
Record ResponseDetectedNSFW := { Normal : float; Soft : float; Adult : float }.
Record ResponseGeneratedTags := { Labels : list string; LabelsKorean : list string }.

Inductive KeyPointIndex :=
| KeyPointIndexNose | KeyPointIndexLeftEye | KeyPointIndexRightEye
| KeyPointIndexLeftEar | KeyPointIndexRightEar
| KeyPointIndexLeftShoulder | KeyPointIndexRightShoulder
| KeyPointIndexLeftElbow | KeyPointIndexRightElbow
| KeyPointIndexLeftWrist | KeyPointIndexRightWrist
| KeyPointIndexLeftHip | KeyPointIndexRightHip
| KeyPointIndexLeftKnee | KeyPointIndexRightKnee
| KeyPointIndexLeftAnkle | KeyPointIndexRightAnkle.

(** A pose is read only through its method [KeyPointFor], which gives
    [x], [y] and a score. *)
Record AnalyzedPose := { KeyPointFor : KeyPointIndex -> float * float * float }.
Definition ResponseAnalyzedPose := list AnalyzedPose.

Record DetectedText := { RecognizedWords : list string }.
Definition ResponseDetectedText := list DetectedText.

(** Go's [(value, error)]: [inl] carries the error's text. *)
Definition Err (A : Type) : Type := string + A.

(** telegram-bot-go: an API response is [Ok] with a result ([inr]) or not
    [Ok] with a description ([inl]). *)
Definition APIResponse (A : Type) : Type := string + A.
Definition Ok {A} (r : APIResponse A) : bool :=
  match r with inl _ => false | inr _ => true end.

Record InlineKeyboardButton := { Text : string; CallbackData : option string }.
Definition InlineKeyboard := list (list InlineKeyboardButton).

Record User := { Username : option string; FirstName : string }.
Record Message := { ChatID : Z; MessageID : Z; MessageText : option string }.
Record CallbackQuery :=
  { ID : string; From : User; QueryMessage : Message; Data : option string }.

(** ** Calls on the drawing libraries *)

(** draw2dimg's graphic context: the calls [main.go] makes on it. *)
Inductive GcCall :=
| SetLineWidth (w : float)
| SetFillColor (c : RGBA)
| SetStrokeColor (c : RGBA)
| MoveTo (x y : float)
| LineTo (x y : float)
| ArcTo (cx cy rx ry startAngle angle : float)
| Close
| FillStroke
| Save.

(** A graphic context draws on the image it was made for and keeps what was
    called on it (the latest call first). *)
Record GraphicContext := { gcImage : loc; gcCalls : list GcCall }.

(** freetype's context, as set up before [DrawString]. *)
Record FreetypeContext :=
  { fcDPI : float; fcClip : Rectangle; fcDst : loc; fcFontSize : float; fcSrc : RGBA }.

(** ** What a run does to the outside: the trace *)

Inductive KakaoCall :=
| DetectFaceFromBytes (b : bytes) (threshold : float)
| DetectProductFromBytes (b : bytes) (threshold : float)
| DetectNSFWFromBytes (b : bytes)
| GenerateTagsFromBytes (b : bytes)
| AnalyzePoseFromBytes (b : bytes)
| DetectTextFromBytes (b : bytes).

Inductive Event :=
| EvGetFile (fileID : string)
| EvAnswerCallbackQuery (id : string)
| EvEditMessageText (text : string) (chatID messageID : Z)
| EvSendMessage (chatID : Z) (text : string) (replyTo : option Z)
                (markup : option InlineKeyboard)
| EvSendPhoto (chatID : Z) (photo : bytes) (caption : string)
| EvSendChatAction (chatID : Z) (action : string)
| EvDeleteMessage (chatID messageID : Z)
| EvHTTPGet (url : string)
| EvKakao (call : KakaoCall)
| EvLogError (message : string)
| EvLogRequest (username fileURL : string) (command : VisionCommand)
| EvGc (dst : loc) (call : GcCall)
| EvDrawString (fc : FreetypeContext) (s : string) (x y : Z)
| EvPixelate (dst : loc) (size : Z) (region : Rectangle) (at_ : Point).

(** A goroutine started with [go processImage(...)]. *)
Record Task :=
  { taskChatID : Z; taskMessageID : Z; taskFileURL : string;
    taskCommand : VisionCommand }.

(** ** The world and the monad of effects *)

Record World :=
  { fileIDs : gmap string string;     (* [var fileIDs = map[string]string{}] *)
    heap : gmap loc Image;            (* pixel buffers *)
    trace : list Event;               (* in the order of the calls *)
    pending : list Task }.            (* goroutines started, not yet run *)

Definition initialWorld : World :=
  {| fileIDs := ∅; heap := ∅; trace := []; pending := [] |}.

(** [None] is a run-time panic. *)
Definition M (A : Type) : Type := World -> option (A * World).

Definition ret {A} (a : A) : M A := fun w => Some (a, w).
Definition bind {A B} (m : M A) (k : A -> M B) : M B :=
  fun w => match m w with
           | Some (a, w') => k a w'
           | None => None
           end.
Definition panic {A} : M A := fun _ => None.

Notation "'let*' x ':=' m 'in' k" := (bind m (fun x => k))
  (at level 10, x name, m at level 100, k at level 200).
Notation "'do' m 'in' k" := (bind m (fun _ => k))
  (at level 10, m at level 100, k at level 200).

(** Dereferencing a pointer that may be nil, indexing that may be out of range. *)
Definition deref {A} (p : option A) : M A :=
  match p with Some a => ret a | None => panic end.

Definition emit (e : Event) : M unit :=
  fun w => Some (tt, {| fileIDs := fileIDs w; heap := heap w;
                        trace := trace w ++ [e]; pending := pending w |}).

Definition logError (message : string) : M unit := emit (EvLogError message).

Definition go (t : Task) : M unit :=
  fun w => Some (tt, {| fileIDs := fileIDs w; heap := heap w;
                        trace := trace w; pending := pending w ++ [t] |}).

Definition storeFileID (key fileID : string) : M unit :=
  fun w => Some (tt, {| fileIDs := <[key := fileID]> (fileIDs w); heap := heap w;
                        trace := trace w; pending := pending w |}).

Definition lookupFileID (key : string) : M (option string) :=
  fun w => Some (fileIDs w !! key, w).

(** A new pixel buffer, at an address not in use. *)
Definition alloc (im : Image) : M loc :=
  fun w => let l := fresh (dom (heap w)) in
           Some (l, {| fileIDs := fileIDs w; heap := <[l := im]> (heap w);
                       trace := trace w; pending := pending w |}).

Definition load (l : loc) : M Image := fun w => deref (heap w !! l) w.

(** Overwrite the pixels of the buffer at [l]; its bounds and stride stay. *)
Definition paint (l : loc) (f : Image -> bytes) : M unit :=
  fun w => match heap w !! l with
           | Some im =>
               Some (tt, {| fileIDs := fileIDs w;
                            heap := <[l := {| Rect := Rect im; Stride := Stride im;
                                              Pix := f im |}]> (heap w);
                            trace := trace w; pending := pending w |})
           | None => None
           end.

(** ** The collaborators *)

(** [*bot.Bot]: what the Telegram API answers to each call. *)
Record Bot :=
  { botGetFile : string -> APIResponse string;
    botGetFileURL : string -> string;
    botAnswerCallbackQuery : string -> APIResponse unit;
    botEditMessageText : string -> Z -> Z -> APIResponse unit;
    botSendMessage : Z -> string -> option Z -> option InlineKeyboard -> APIResponse unit;
    botSendPhoto : Z -> bytes -> string -> APIResponse unit }.

(** [*kakaoapi.Client]: what the vision service answers. *)
Record KakaoClient :=
  { kakaoDetectFace : bytes -> float -> Err ResponseDetectedFace;
    kakaoDetectProduct : bytes -> float -> Err ResponseDetectedProduct;
    kakaoDetectNSFW : bytes -> Err ResponseDetectedNSFW;
    kakaoGenerateTags : bytes -> Err ResponseGeneratedTags;
    kakaoAnalyzePose : bytes -> Err ResponseAnalyzedPose;
    kakaoDetectText : bytes -> Err ResponseDetectedText }.

(** The drawing libraries, by what they do to a pixel buffer. *)
Record Graphics :=
  { (* image/draw: [draw.Draw(dst, r, src, sp, draw.Src)], the new pixels of [dst] *)
    drawDraw : Image -> Rectangle -> Image -> Point -> bytes;
    (* draw2dimg: what [FillStroke] paints, given every call made on the context *)
    gcPaint : list GcCall -> Image -> bytes;
    (* freetype: [DrawString], the new pixels and the error if any *)
    fcDrawString : FreetypeContext -> string -> Z -> Z -> Image -> bytes * option string;
    (* freetype: [PointToFixed] of a context with the given DPI *)
    fcPointToFixed : float -> float -> Z;
    (* gift: [gift.New(gift.Pixelate(size)).DrawAt(dst, dst.SubImage(region), pt, CopyOperator)] *)
    giftPixelate : Z -> Rectangle -> Point -> Image -> bytes }.

(** The rest of the environment: HTTP, codecs, the vision client, [fmt]. *)
Record Env :=
  { httpGet : string -> Err bytes;
    imageDecode : bytes -> Err Image;
    jpegEncode : Image -> Err bytes;
    kakaoClient : KakaoClient;
    graphics : Graphics;
    fmt2f : float -> string;             (* the verb [%.2f] *)
    fmtQuery : CallbackQuery -> string } (* the verb [%+v] on a callback query *).

Section Calls.

Variable b : Bot.

Definition GetFile (fileID : string) : M (APIResponse string) :=
  do emit (EvGetFile fileID) in ret (botGetFile b fileID).

Definition AnswerCallbackQuery (id : string) : M (APIResponse unit) :=
  do emit (EvAnswerCallbackQuery id) in ret (botAnswerCallbackQuery b id).

Definition EditMessageText (text : string) (chatID messageID : Z)
  : M (APIResponse unit) :=
  do emit (EvEditMessageText text chatID messageID) in
  ret (botEditMessageText b text chatID messageID).

Definition SendMessage (chatID : Z) (text : string) (replyTo : option Z)
    (markup : option InlineKeyboard) : M (APIResponse unit) :=
  do emit (EvSendMessage chatID text replyTo markup) in
  ret (botSendMessage b chatID text replyTo markup).

Definition SendPhoto (chatID : Z) (photo : bytes) (caption : string)
  : M (APIResponse unit) :=
  do emit (EvSendPhoto chatID photo caption) in
  ret (botSendPhoto b chatID photo caption).

Definition SendChatAction (chatID : Z) (action : string) : M unit :=
  emit (EvSendChatAction chatID action).

Definition DeleteMessage (chatID messageID : Z) : M unit :=
  emit (EvDeleteMessage chatID messageID).

End Calls.

Definition ChatActionTyping := "typing".
Definition ChatActionUploadPhoto := "upload_photo".

(** ** The file-reference store and the inline keyboard *)

(** telegram-bot-go's [NewInlineKeyboardButtonsAsRowsWithCallbackData]: one
    row of one button for each entry (text, callback data). *)
Definition NewInlineKeyboardButtonsAsRowsWithCallbackData
    (data : list (string * string)) : InlineKeyboard :=
  List.map (fun kv => [ {| Text := fst kv; CallbackData := Some (snd kv) |} ]) data.

(** [strings.Title(commandCancel)] *)
Definition titleCancel := "Cancel".

(** [genImageInlineKeyboards], ranging over [allCmds] in the order [order]. *)
Definition genImageInlineKeyboards (order : list (VisionCommand * string))
    (fileID : string) : M InlineKeyboard :=
  let* shortenedFileID := deref (Strings.slice_to fileID 32) in
  do storeFileID shortenedFileID fileID in
  let data :=
    List.map (fun kv => (fst kv, snd kv ++ "/" ++ shortenedFileID)) order in
  ret (NewInlineKeyboardButtonsAsRowsWithCallbackData data
         ++ [ [ {| Text := titleCancel; CallbackData := Some commandCancel |} ] ])%list.

(** An incoming message, as [processUpdate] reads it. *)
Record Document := { DocumentFileID : string; MimeType : option string }.
Record Incoming :=
  { InChatID : Z; InMessageID : Z;
    LargestPhoto : option string;       (* its FileID, when [HasPhoto()] *)
    InDocument : option Document }.

Definition messageHelp :=
  "Send any image to this bot, then select one of the following actions:

- Detect Faces
- Detect Products
- Detect NSFW
- Tag This Image
- Analyze Poses
- Extract Texts
- Mask Faces

then it will send the result message and/or image back to you.

* Github: https://github.com/meinside/telegram-bot-kakao-vision
".

(** [processUpdate] *)
Definition processUpdate (order : list (VisionCommand * string)) (b : Bot)
    (m : Incoming) : M bool :=
  let* choice :=
    match LargestPhoto m with
    | Some fileID =>
        let* kb := genImageInlineKeyboards order fileID in
        ret (Some kb, messageActionImage)
    | None =>
        match InDocument m with
        | Some d =>
            let* mime := deref (MimeType d) in
            if String.prefix "image/" mime then
              let* kb := genImageInlineKeyboards order (DocumentFileID d) in
              ret (Some kb, messageActionImage)
            else ret (None, messageHelp)
        | None => ret (None, messageHelp)
        end
    end in
  let* sent := SendMessage b (InChatID m) (snd choice) (Some (InMessageID m)) (fst choice) in
  match sent with
  | inr _ => ret true
  | inl description =>
      do logError ("Failed to send message: " ++ description) in ret false
  end.

(** ** The callback dispatcher *)

(** [parsedCommand := strings.Split(data, "/")], accepted when it has two
    parts or more: [parsedCommand[0]] and [parsedCommand[1]]. *)
Definition parseCallbackData (data : string) : option (string * string) :=
  match Strings.Split "/"%char data with
  | command :: shortenedFileID :: _ => Some (command, shortenedFileID)
  | _ => None
  end.

Section Dispatcher.

Variable order : list (VisionCommand * string).
Variable b : Bot.
Variable env : Env.

(** The first half of [processCallbackQuery]: the text to put in place of
    the menu, having started the work when there is some. *)
Definition callbackMessage (query : CallbackQuery) : M string :=
  let* data := deref (Data query) in
  if String.eqb data commandCancel then ret messageCanceled
  else
    match parseCallbackData data with
    | Some (command, shortenedFileID) =>
        let* found := lookupFileID shortenedFileID in
        match found with
        | Some fileID =>
            let* fileResult := GetFile b fileID in
            match fileResult with
            | inr file =>
                let fileURL := botGetFileURL b file in
                let* text := deref (MessageText (QueryMessage query)) in
                if Strings.Contains text "image" then
                  let visionCommand := visionCommandForCommandIn order command in
                  do go {| taskChatID := ChatID (QueryMessage query);
                           taskMessageID := MessageID (QueryMessage query);
                           taskFileURL := fileURL;
                           taskCommand := visionCommand |} in
                  let username :=
                    match Username (From query) with
                    | None => FirstName (From query)
                    | Some u => u
                    end in
                  do emit (EvLogRequest username fileURL visionCommand) in
                  ret ("Processing '" ++ visionCommand ++ "' on received image...")
                else ret messageUnprocessable
            | inl description =>
                do logError ("Failed to get file from url: " ++ description) in
                ret messageFailedToGetFile
            end
        | None =>
            do logError ("Failed to get file id from shortened file id: `"
                         ++ shortenedFileID ++ "`, maybe bot was restarted?") in
            ret messageFailedToGetFile
        end
    | None =>
        do logError ("Failed to parse command: " ++ data) in
        ret messageUnprocessable
    end.

(** [processCallbackQuery] *)
Definition processCallbackQuery (query : CallbackQuery) : M bool :=
  let* message := callbackMessage query in
  let* answered := AnswerCallbackQuery b (ID query) in
  match answered with
  | inr _ =>
      let* edited :=
        EditMessageText b message (ChatID (QueryMessage query))
                        (MessageID (QueryMessage query)) in
      match edited with
      | inr _ => ret true
      | inl description =>
          do logError ("Failed to edit message text: " ++ description) in
          ret false
      end
  | inl _ =>
      do logError ("Failed to answer callback query: " ++ fmtQuery env query) in
      ret false
  end.

End Dispatcher.

(** ** Numbers *)

Local Open Scope float_scope.

(** [float64(n)] for an [int] [n] (64 bits, two's complement). *)
Definition float64_of_int (n : Z) : float :=
  if (n =? - 2 ^ 63)%Z then Z.ldexp (-1) 63
  else if (n <? 0)%Z then - PrimFloat.of_uint63 (Uint63.of_Z (- n))
  else PrimFloat.of_uint63 (Uint63.of_Z n).

(** [int(f)]: the fraction is dropped. Go leaves the result open when the
    value does not fit; amd64 gives the least [int], as here. *)
Definition int_of_float64 (f : float) : Z :=
  match Prim2SF f with
  | S754_zero _ => 0%Z
  | S754_finite s m e =>
      let v := if (0 <=? e)%Z then (Z.pos m * 2 ^ e)%Z else (Z.pos m / 2 ^ (- e))%Z in
      let v := if s then (- v)%Z else v in
      if ((- 2 ^ 63 <=? v) && (v <? 2 ^ 63))%Z then v else (- 2 ^ 63)%Z
  | _ => (- 2 ^ 63)%Z
  end.

(** Constants for drawing. *)
Definition CircleRadius : float := 0.5.
Definition StrokeWidth : float := 1.5.
Definition PosePointRadius : float := 2.
Definition PoseStrokeWidth : float := 1.5.
(** [-math.Pi*2] *)
Definition fullTurn : float := - 0x1.921fb54442d18p+2.
(** The detection threshold [0.7]. *)
Definition threshold07 : float := 0x1.6666666666666p-1.

Definition colors : list RGBA :=
  [ {| cR := 255; cG := 255; cB := 0; cA := 255 |};   (* yellow *)
    {| cR := 0; cG := 255; cB := 255; cA := 255 |};   (* cyan *)
    {| cR := 255; cG := 0; cB := 255; cA := 255 |};   (* purple *)
    {| cR := 0; cG := 255; cB := 0; cA := 255 |};     (* green *)
    {| cR := 0; cG := 0; cB := 255; cA := 255 |};     (* blue *)
    {| cR := 255; cG := 0; cB := 0; cA := 255 |} ].   (* red *)

(** [color.Transparent] *)
Definition Transparent : RGBA := {| cR := 0; cG := 0; cB := 0; cA := 0 |}.

(** [colorForIndex]: [colors[i%length]], with Go's remainder; an index below
    zero panics. *)
Definition colorForIndex (i : Z) : option RGBA :=
  let length := Z.of_nat (List.length colors) in
  let j := Z.rem i length in
  if (j <? 0)%Z then None else List.nth_error colors (Z.to_nat j).

(** ** The annotation renderer *)

(** [for i, x := range l { body }], threading the state [s]. *)
Fixpoint forRange {A St : Type} (body : nat -> A -> St -> M St) (l : list A)
    (i : nat) (s : St) : M St :=
  match l with
  | [] => ret s
  | x :: rest => let* s' := body i x s in forRange body rest (S i) s'
  end.

Section Renderer.

Variable g : Graphics.

Definition NewGraphicContext (img : loc) : GraphicContext :=
  {| gcImage := img; gcCalls := [] |}.

(** A call on the graphic context; [FillStroke] is the one that paints. *)
Definition gcCall (c : GcCall) (gc : GraphicContext) : M GraphicContext :=
  do emit (EvGc (gcImage gc) c) in
  let gc' := {| gcImage := gcImage gc; gcCalls := c :: gcCalls gc |} in
  match c with
  | FillStroke => do paint (gcImage gc) (gcPaint g (gcCalls gc')) in ret gc'
  | _ => ret gc'
  end.

(** [draw.Draw(dst, dst.Bounds(), src, sp, draw.Src)] *)
Definition draw_Draw (dst src : loc) (sp : Point) : M unit :=
  let* s := load src in
  paint dst (fun d => drawDraw g d (Rect d) s sp).

(** [fc.DrawString(s, freetype.Pt(x, y))] *)
Definition DrawString (fc : FreetypeContext) (s : string) (x y : Z)
  : M (option string) :=
  do emit (EvDrawString fc s x y) in
  let* d := load (fcDst fc) in
  do paint (fcDst fc) (fun d => fst (fcDrawString g fc s x y d)) in
  ret (snd (fcDrawString g fc s x y d)).

(** [gift.New(gift.Pixelate(size)).DrawAt(dst, dst.SubImage(region), pt,
    gift.CopyOperator)] *)
Definition PixelateAt (dst : loc) (size : Z) (region : Rectangle) (pt : Point)
  : M unit :=
  do emit (EvPixelate dst size region pt) in
  paint dst (giftPixelate g size region pt).

(** The copy with which every renderer starts. *)
Definition copyToNewImage (img : loc) : M loc :=
  let* src := load img in
  let* newImg := alloc (image_NewRGBA (image_Rect 0 0 (Dx (Rect src)) (Dy (Rect src)))) in
  do draw_Draw newImg img image_ZP in
  ret newImg.

(** The freetype context prepared for a label on [newImg]. *)
Definition labelContext (newImg : loc) (color : RGBA) : M FreetypeContext :=
  let* cur := load newImg in
  ret {| fcDPI := 72; fcClip := Rect cur; fcDst := newImg;
         fcFontSize := float64_of_int (Dy (Rect cur)) / 24; fcSrc := color |}.

Definition reportDrawError (err : option string) : M unit :=
  match err with
  | Some e => logError ("Failed to draw string: " ++ e)
  | None => ret tt
  end.

(** One landmark: a small circle. *)
Definition markPoint (width height : float) (p : FacialPoint)
    (gc : GraphicContext) : M GraphicContext :=
  let* gc := gcCall (MoveTo (width * fpX p) (height * fpY p)) gc in
  let* gc := gcCall (ArcTo (width * fpX p) (height * fpY p)
                           CircleRadius CircleRadius 0 fullTurn) gc in
  let* gc := gcCall Close gc in
  gcCall FillStroke gc.

Definition markPoints (width height : float) (ps : list FacialPoint)
    (gc : GraphicContext) : M GraphicContext :=
  forRange (fun _ p gc => markPoint width height p gc) ps 0 gc.

(** The body of the loop over faces in [processImageForFaces]. *)
Definition drawFace (newImg : loc) (width height : float)
    (command : VisionCommand) (i : nat) (f : Face) (gc : GraphicContext)
  : M GraphicContext :=
  if String.eqb command DetectFaces then
    let* color := deref (colorForIndex (Z.of_nat i)) in
    let* fc := labelContext newImg color in
    let* gc := gcCall (SetStrokeColor color) gc in
    let* gc := gcCall (MoveTo (width * faceX f) (height * faceY f)) gc in
    let* gc := gcCall (LineTo (width * (faceX f + faceW f)) (height * faceY f)) gc in
    let* gc := gcCall (LineTo (width * (faceX f + faceW f))
                              (height * (faceY f + faceH f))) gc in
    let* gc := gcCall (LineTo (width * faceX f) (height * (faceY f + faceH f))) gc in
    let* gc := gcCall (LineTo (width * faceX f) (height * faceY f)) gc in
    let* gc := gcCall Close gc in
    let* gc := gcCall FillStroke gc in
    let* err :=
      DrawString fc ("Face #" ++ pretty (Z.of_nat i + 1)%Z)
        (int_of_float64 (width * faceX f + 5))
        (Z.shiftr (fcPointToFixed g (fcDPI fc)
                     (height * (faceY f + faceH f) - 5)) 6) in
    do reportDrawError err in
    let* gc := markPoints width height (Nose (faceFacialPoints f)) gc in
    let* gc := markPoints width height (RightEye (faceFacialPoints f)) gc in
    let* gc := markPoints width height (LeftEye (faceFacialPoints f)) gc in
    markPoints width height (Lip (faceFacialPoints f)) gc
  else if String.eqb command MaskFaces then
    do PixelateAt newImg
         (int_of_float64 (width * faceW f / 8))
         (image_Rect (int_of_float64 (width * faceX f))
                     (int_of_float64 (height * faceY f))
                     (int_of_float64 (width * (faceX f + faceW f)))
                     (int_of_float64 (height * (faceY f + faceH f))))
         (Pt (int_of_float64 (width * faceX f))
             (int_of_float64 (height * faceY f))) in
    ret gc
  else ret gc.

(** [processImageForFaces] *)
Definition processImageForFaces (img : loc) (detected : ResponseDetectedFace)
    (command : VisionCommand) : M loc :=
  let width := float64_of_int (faceWidth detected) in
  let height := float64_of_int (faceHeight detected) in
  let* newImg := copyToNewImage img in
  let* gc := gcCall (SetLineWidth StrokeWidth) (NewGraphicContext newImg) in
  let* gc := gcCall (SetFillColor Transparent) gc in
  let* gc := forRange (drawFace newImg width height command)
                      (Faces detected) 0 gc in
  let* gc := gcCall Save gc in
  ret newImg.

(** The body of the loop over objects in [processImageForProducts]. *)
Definition drawProduct (newImg : loc) (width height : float) (i : nat)
    (o : Product) (st : GraphicContext * list string)
  : M (GraphicContext * list string) :=
  let classes := List.app (snd st) [Class o] in
  let* color := deref (colorForIndex (Z.of_nat i)) in
  let* fc := labelContext newImg color in
  let* gc := gcCall (SetStrokeColor color) (fst st) in
  let* gc := gcCall (MoveTo (width * X1 o) (height * Y1 o)) gc in
  let* gc := gcCall (LineTo (width * X1 o) (height * Y2 o)) gc in
  let* gc := gcCall (LineTo (width * X2 o) (height * Y2 o)) gc in
  let* gc := gcCall (LineTo (width * X2 o) (height * Y1 o)) gc in
  let* gc := gcCall (LineTo (width * X1 o) (height * Y1 o)) gc in
  let* gc := gcCall Close gc in
  let* gc := gcCall FillStroke gc in
  let* err :=
    DrawString fc ("#" ++ pretty (Z.of_nat i + 1)%Z ++ ": " ++ Class o)
      (int_of_float64 (width * X1 o + 5))
      (Z.shiftr (fcPointToFixed g (fcDPI fc) (height * Y2 o - 5)) 6) in
  do reportDrawError err in
  ret (gc, classes).

(** [processImageForProducts] *)
Definition processImageForProducts (img : loc)
    (detected : ResponseDetectedProduct) : M (loc * list string) :=
  let width := float64_of_int (productWidth detected) in
  let height := float64_of_int (productHeight detected) in
  let* newImg := copyToNewImage img in
  let* gc := gcCall (SetLineWidth StrokeWidth) (NewGraphicContext newImg) in
  let* gc := gcCall (SetFillColor Transparent) gc in
  let* st := forRange (drawProduct newImg width height)
                      (Objects detected) 0 (gc, []) in
  let* gc := gcCall Save (fst st) in
  ret (newImg, snd st).

(** A key point of a pose: a filled circle. *)
Definition posePoint (xy : float * float * float) (gc : GraphicContext)
  : M GraphicContext :=
  let x := fst (fst xy) in
  let y := snd (fst xy) in
  let* gc := gcCall (MoveTo x y) gc in
  let* gc := gcCall (ArcTo x y PosePointRadius PosePointRadius 0 fullTurn) gc in
  let* gc := gcCall Close gc in
  gcCall FillStroke gc.

(** A stroke between two key points. *)
Definition poseLine (from to : float * float * float) (gc : GraphicContext)
  : M GraphicContext :=
  let* gc := gcCall (MoveTo (fst (fst from)) (snd (fst from))) gc in
  let* gc := gcCall (LineTo (fst (fst to)) (snd (fst to))) gc in
  let* gc := gcCall Close gc in
  gcCall FillStroke gc.

(** The body of the loop over poses in [processImageForPoses]. *)
Definition drawPose (i : nat) (pose : AnalyzedPose) (gc : GraphicContext)
  : M GraphicContext :=
  let* color := deref (colorForIndex (Z.of_nat i)) in
  let* gc := gcCall (SetStrokeColor color) gc in
  let nose := KeyPointFor pose KeyPointIndexNose in
  let* gc := posePoint nose gc in
  let leftEye := KeyPointFor pose KeyPointIndexLeftEye in
  let* gc := posePoint leftEye gc in
  let rightEye := KeyPointFor pose KeyPointIndexRightEye in
  let* gc := posePoint rightEye gc in
  let leftEar := KeyPointFor pose KeyPointIndexLeftEar in
  let* gc := posePoint leftEar gc in
  let rightEar := KeyPointFor pose KeyPointIndexRightEar in
  let* gc := posePoint rightEar gc in
  let leftShoulder := KeyPointFor pose KeyPointIndexLeftShoulder in
  let* gc := posePoint leftShoulder gc in
  let rightShoulder := KeyPointFor pose KeyPointIndexRightShoulder in
  let* gc := posePoint rightShoulder gc in
  let* gc := poseLine leftShoulder rightShoulder gc in
  let leftElbow := KeyPointFor pose KeyPointIndexLeftElbow in
  let* gc := posePoint leftElbow gc in
  let* gc := poseLine leftShoulder leftElbow gc in
  let rightElbow := KeyPointFor pose KeyPointIndexRightElbow in
  let* gc := posePoint rightElbow gc in
  let* gc := poseLine rightShoulder rightElbow gc in
  let leftWrist := KeyPointFor pose KeyPointIndexLeftWrist in
  let* gc := posePoint leftWrist gc in
  let* gc := poseLine leftElbow leftWrist gc in
  let rightWrist := KeyPointFor pose KeyPointIndexRightWrist in
  let* gc := posePoint rightWrist gc in
  let* gc := poseLine rightElbow rightWrist gc in
  let leftHip := KeyPointFor pose KeyPointIndexLeftHip in
  let* gc := posePoint leftHip gc in
  let rightHip := KeyPointFor pose KeyPointIndexRightHip in
  let* gc := posePoint rightHip gc in
  let* gc := poseLine leftHip rightHip gc in
  let* gc := poseLine leftShoulder rightHip gc in
  let* gc := poseLine rightShoulder leftHip gc in
  let leftKnee := KeyPointFor pose KeyPointIndexLeftKnee in
  let* gc := posePoint leftKnee gc in
  let* gc := poseLine leftHip leftKnee gc in
  let rightKnee := KeyPointFor pose KeyPointIndexRightKnee in
  let* gc := posePoint rightKnee gc in
  let* gc := poseLine rightHip rightKnee gc in
  let leftAnkle := KeyPointFor pose KeyPointIndexLeftAnkle in
  let* gc := posePoint leftAnkle gc in
  let* gc := poseLine leftKnee leftAnkle gc in
  let rightAnkle := KeyPointFor pose KeyPointIndexRightAnkle in
  let* gc := posePoint rightAnkle gc in
  poseLine rightKnee rightAnkle gc.

(** [processImageForPoses] *)
Definition processImageForPoses (img : loc) (analyzed : ResponseAnalyzedPose)
  : M loc :=
  let* newImg := copyToNewImage img in
  let* gc := gcCall (SetLineWidth StrokeWidth) (NewGraphicContext newImg) in
  let* gc := gcCall (SetFillColor Transparent) gc in
  let* gc := forRange drawPose analyzed 0 gc in
  let* gc := gcCall Save gc in
  ret newImg.

End Renderer.

(** ** The worker: [processImage] *)

Definition newline : string := String (ascii_of_nat 10) EmptyString.

Section Worker.

Variable b : Bot.
Variable env : Env.

(** [readBytes] *)
Definition readBytes (url : string) : M (Err bytes) :=
  do emit (EvHTTPGet url) in ret (httpGet env url).

Definition kakao {A} (call : KakaoCall) (answer : Err A) : M (Err A) :=
  do emit (EvKakao call) in ret answer.

(** [image.Decode]: the decoded picture is a new value in memory. *)
Definition image_Decode (imgBytes : bytes) : M (Err loc) :=
  match imageDecode env imgBytes with
  | inr im => let* img := alloc im in ret (inr img)
  | inl err => ret (inl err)
  end.

(** The tail shared by the three branches that answer with a picture:
    announce the upload, encode [newImg] as JPEG, send it. The result is
    the error message, empty when all went well. *)
Definition sendRendered (chatID : Z) (newImg : loc) (caption : string)
  : M string :=
  do SendChatAction chatID ChatActionUploadPhoto in
  let* im := load newImg in
  match jpegEncode env im with
  | inr buf =>
      let* sent := SendPhoto b chatID buf caption in
      match sent with
      | inr _ => ret ""
      | inl description => ret ("Failed to send image: " ++ description)
      end
  | inl err => ret ("Failed to encode image: " ++ err)
  end.

(** The lines ["label (korean)"] of the tag answer; indexing
    [LabelsKorean] out of range panics. *)
Definition tagLines (generated : ResponseGeneratedTags) : M (list string) :=
  forRange (fun i label tags =>
              let* korean := deref (List.nth_error (LabelsKorean generated) i) in
              ret (List.app tags [label ++ " (" ++ korean ++ ")"]))
           (Labels generated) 0 [].

(** The [switch command] of [processImage]; the result is [errorMessage]. *)
Definition processCommand (chatID : Z) (imgBytes : bytes)
    (command : VisionCommand) : M string :=
  if String.eqb command DetectFaces || String.eqb command MaskFaces then
    let* detected := kakao (DetectFaceFromBytes imgBytes threshold07)
                           (kakaoDetectFace (kakaoClient env) imgBytes threshold07) in
    match detected with
    | inr detected =>
        if (0 <? List.length (Faces detected))%nat then
          let* decoded := image_Decode imgBytes in
          match decoded with
          | inr img =>
              let* newImg := processImageForFaces (graphics env) img detected command in
              sendRendered chatID newImg ("Process result of '" ++ command ++ "'")
          | inl err => ret ("Failed to decode image: " ++ err)
          end
        else ret "No face detected on this image."
    | inl err => ret ("Failed to detect faces: " ++ err)
    end
  else if String.eqb command DetectProducts then
    let* detected := kakao (DetectProductFromBytes imgBytes threshold07)
                           (kakaoDetectProduct (kakaoClient env) imgBytes threshold07) in
    match detected with
    | inr detected =>
        if (0 <? List.length (Objects detected))%nat then
          let* decoded := image_Decode imgBytes in
          match decoded with
          | inr img =>
              let* rendered := processImageForProducts (graphics env) img detected in
              sendRendered chatID (fst rendered)
                ("Process result of '" ++ command ++ "':" ++ newline ++ newline
                 ++ Strings.Join (snd rendered) newline)
          | inl err => ret ("Failed to decode image: " ++ err)
          end
        else ret "No product detected on this image."
    | inl _ => ret ""
    end
  else if String.eqb command DetectNSFW then
    let* detected := kakao (DetectNSFWFromBytes imgBytes)
                           (kakaoDetectNSFW (kakaoClient env) imgBytes) in
    match detected with
    | inr detected =>
        let message :=
          "Process result of '" ++ command ++ "':" ++ newline ++ newline
          ++ "Normal: " ++ fmt2f env (100 * Normal detected) ++ "%" ++ newline
          ++ "Soft: " ++ fmt2f env (100 * Soft detected) ++ "%" ++ newline
          ++ "Adult: " ++ fmt2f env (100 * Adult detected) ++ "%" in
        let* sent := SendMessage b chatID message None None in
        match sent with
        | inr _ => ret ""
        | inl description => ret ("Failed to send nsfw factors: " ++ description)
        end
    | inl err => ret ("Failed to detect NSFW factors from image: " ++ err)
    end
  else if String.eqb command Tag then
    let* generated := kakao (GenerateTagsFromBytes imgBytes)
                            (kakaoGenerateTags (kakaoClient env) imgBytes) in
    match generated with
    | inr generated =>
        if (0 <? List.length (Labels generated))%nat then
          let* tags := tagLines generated in
          let message :=
            "Process result of '" ++ command ++ "':" ++ newline ++ newline
            ++ Strings.Join tags newline in
          let* sent := SendMessage b chatID message None None in
          match sent with
          | inr _ => ret ""
          | inl description => ret ("Failed to send tags: " ++ description)
          end
        else ret "Could not tag given image."
    | inl err => ret ("Failed to tag image: " ++ err)
    end
  else if String.eqb command AnalyzePoses then
    let* analyzed := kakao (AnalyzePoseFromBytes imgBytes)
                           (kakaoAnalyzePose (kakaoClient env) imgBytes) in
    match analyzed with
    | inr analyzed =>
        let* decoded := image_Decode imgBytes in
        match decoded with
        | inr img =>
            let* newImg := processImageForPoses (graphics env) img analyzed in
            sendRendered chatID newImg ("Process result of '" ++ command ++ "'")
        | inl err => ret ("Failed to decode image: " ++ err)
        end
    | inl err => ret ("Failed to detect faces: " ++ err)
    end
  else if String.eqb command ExtractTexts then
    let* detected := kakao (DetectTextFromBytes imgBytes)
                           (kakaoDetectText (kakaoClient env) imgBytes) in
    match detected with
    | inr detected =>
        let strs := List.concat (List.map RecognizedWords detected) in
        let message :=
          "Process result of '" ++ command ++ "':" ++ newline ++ newline
          ++ Strings.Join strs ", " in
        let* sent := SendMessage b chatID message None None in
        match sent with
        | inr _ => ret ""
        | inl description => ret ("Failed to send extracted texts: " ++ description)
        end
    | inl err => ret ("Failed to detect texts: " ++ err)
    end
  else ret ("Command not supported: " ++ command).

(** [processImage] *)
Definition processImage (chatID messageIDToDelete : Z) (fileURL : string)
    (command : VisionCommand) : M unit :=
  do SendChatAction chatID ChatActionTyping in
  let* read := readBytes fileURL in
  let* errorMessage :=
    match read with
    | inr imgBytes => processCommand chatID imgBytes command
    | inl err => ret ("Failed to read file from " ++ fileURL ++ ": " ++ err)
    end in
  do DeleteMessage chatID messageIDToDelete in
  if String.eqb errorMessage "" then ret tt
  else
    let* _ := SendMessage b chatID errorMessage None None in
    logError errorMessage.

(** Running the goroutines that were started, one after the other. *)
Definition takePending : M (list Task) :=
  fun w => Some (pending w, {| fileIDs := fileIDs w; heap := heap w;
                               trace := trace w; pending := [] |}).

Fixpoint runTasks (ts : list Task) : M unit :=
  match ts with
  | [] => ret tt
  | t :: rest =>
      do processImage (taskChatID t) (taskMessageID t) (taskFileURL t)
                      (taskCommand t) in
      runTasks rest
  end.

(** A callback query served to the end: the dispatcher, then the work it
    started. *)
Definition serveCallbackQuery (order : list (VisionCommand * string))
    (query : CallbackQuery) : M bool :=
  let* result := processCallbackQuery order b env query in
  let* ts := takePending in
  do runTasks ts in
  ret result.

End Worker.

(** ** Start-up *)

Definition configFilename := "config.json".
Definition fontFilepath := "fonts/RobotoCondensed-Regular.ttf".

Record Config :=
  { TelegramAPIToken : string; TelegramMonitorIntervalSeconds : Z;
    KakaoAPIKey : string; LogglyToken : string; IsVerbose : bool }.

Record Font := { fontData : bytes }.

(** The file system and the two parsers that [init] calls. *)
Record OS :=
  { osPwd : string;
    pathJoin : string -> string -> string;
    ReadFile : string -> Err bytes;
    jsonUnmarshal : bytes -> Err Config;
    truetypeParse : bytes -> Err Font }.

(** The package-level variables once the program has started. *)
Record Globals :=
  { gAllCmds : list (VisionCommand * string);
    gFileIDs : gmap string string;
    gConf : Config;
    gFont : Font }.

(** [init]: [None] is a panic. *)
Definition init (os : OS) : option (Config * Font) :=
  match ReadFile os (pathJoin os (osPwd os) configFilename) with
  | inl _ => None
  | inr file =>
      match jsonUnmarshal os file with
      | inl _ => None
      | inr conf =>
          let conf :=
            if (TelegramMonitorIntervalSeconds conf <=? 0)%Z then
              {| TelegramAPIToken := TelegramAPIToken conf;
                 TelegramMonitorIntervalSeconds := 1;
                 KakaoAPIKey := KakaoAPIKey conf;
                 LogglyToken := LogglyToken conf;
                 IsVerbose := IsVerbose conf |}
            else conf in
          match ReadFile os (pathJoin os (osPwd os) fontFilepath) with
          | inl _ => None
          | inr data =>
              match truetypeParse os data with
              | inr f => Some (conf, f)
              | inl _ => None
              end
          end
      end
  end.

(** Package initialisation with the literal [table] for [allCmds]: the
    package-level variables take their values, then [init] runs. *)
Definition startup (table : list (VisionCommand * string)) (os : OS)
  : option Globals :=
  match init os with
  | Some cf => Some {| gAllCmds := table; gFileIDs := ∅;
                       gConf := fst cf; gFont := snd cf |}
  | None => None
  end.

(** ** What is read off a trace *)

Definition editedTexts (t : list Event) : list string :=
  List.flat_map (fun e => match e with EvEditMessageText s _ _ => [s] | _ => [] end) t.

Definition sentTexts (t : list Event) : list string :=
  List.flat_map (fun e => match e with EvSendMessage _ s _ _ => [s] | _ => [] end) t.

Definition sentPhotos (t : list Event) : list (bytes * string) :=
  List.flat_map (fun e => match e with EvSendPhoto _ p c => [(p, c)] | _ => [] end) t.

Definition kakaoCalls (t : list Event) : list KakaoCall :=
  List.flat_map (fun e => match e with EvKakao c => [c] | _ => [] end) t.

Definition fileRequests (t : list Event) : list string :=
  List.flat_map (fun e => match e with
                          | EvGetFile f => [f]
                          | EvHTTPGet u => [u]
                          | _ => []
                          end) t.

(** The calls that change pixels after the copy. *)
Definition overlays (t : list Event) : list Event :=
  List.filter (fun e => match e with
                        | EvGc _ FillStroke | EvDrawString _ _ _ _
                        | EvPixelate _ _ _ _ => true
                        | _ => false
                        end) t.

(** The coordinates given to the graphic context. *)
Definition pathPoints (t : list Event) : list (float * float) :=
  List.flat_map (fun e => match e with
                          | EvGc _ (MoveTo x y) | EvGc _ (LineTo x y)
                          | EvGc _ (ArcTo x y _ _ _ _) => [(x, y)]
                          | _ => []
                          end) t.

(** Where the labels are anchored. *)
Definition labelAnchors (t : list Event) : list (Z * Z) :=
  List.flat_map (fun e => match e with EvDrawString _ _ x y => [(x, y)] | _ => [] end) t.

(** The regions that are pixelated, each with its block size. *)
Definition pixelatedRegions (t : list Event) : list (Z * Rectangle * Point) :=
  List.flat_map (fun e => match e with EvPixelate _ n r p => [(n, r, p)] | _ => [] end) t.

(** The normalized points of a face record, in the order they are drawn:
    the outline of its rectangle, then each landmark (the centre of its
    circle is given twice, to [MoveTo] and to [ArcTo]). *)
Definition faceOutline (f : Face) : list (float * float) :=
  [ (faceX f, faceY f);
    (faceX f + faceW f, faceY f);
    (faceX f + faceW f, faceY f + faceH f);
    (faceX f, faceY f + faceH f);
    (faceX f, faceY f) ].

Definition faceLandmarks (f : Face) : list (float * float) :=
  List.flat_map (fun p => [(fpX p, fpY p); (fpX p, fpY p)])
    (Nose (faceFacialPoints f) ++ RightEye (faceFacialPoints f)
     ++ LeftEye (faceFacialPoints f) ++ Lip (faceFacialPoints f))%list.

(** Normalized to pixel space: multiplication by the axis length. *)
Definition toPixels (width height : float) (p : float * float) : float * float :=
  (width * fst p, height * snd p).

(** The copy of [im] with which every renderer starts: a new buffer of the
    size of [im], filled by [draw.Draw]. *)
Definition copyOf (g : Graphics) (im : Image) : Image :=
  let blank := image_NewRGBA (image_Rect 0 0 (Dx (Rect im)) (Dy (Rect im))) in
  {| Rect := Rect blank; Stride := Stride blank;
     Pix := drawDraw g blank (Rect blank) im image_ZP |}.

(** Where the label of a face is anchored. *)
Definition faceAnchor (g : Graphics) (width height : float) (f : Face) : Z * Z :=
  (int_of_float64 (width * faceX f + 5),
   Z.shiftr (fcPointToFixed g 72 (height * (faceY f + faceH f) - 5)) 6).

(** The block size, the region and the place of the mask of a face. *)
Definition faceMask (width height : float) (f : Face) : Z * Rectangle * Point :=
  (int_of_float64 (width * faceW f / 8),
   image_Rect (int_of_float64 (width * faceX f))
              (int_of_float64 (height * faceY f))
              (int_of_float64 (width * (faceX f + faceW f)))
              (int_of_float64 (height * (faceY f + faceH f))),
   Pt (int_of_float64 (width * faceX f)) (int_of_float64 (height * faceY f))).

(** What is drawn for a face record under a command: the coordinates given
    to the graphic context, the anchor of the label, the mask. *)
Definition facePoints (command : VisionCommand) (width height : float) (f : Face)
  : list (float * float) :=
  if String.eqb command DetectFaces
  then List.map (toPixels width height) (List.app (faceOutline f) (faceLandmarks f))
  else [].

Definition faceAnchors (g : Graphics) (command : VisionCommand)
    (width height : float) (f : Face) : list (Z * Z) :=
  if String.eqb command DetectFaces then [faceAnchor g width height f] else [].

Definition faceMasks (command : VisionCommand) (width height : float) (f : Face)
  : list (Z * Rectangle * Point) :=
  if String.eqb command DetectFaces then []
  else if String.eqb command MaskFaces then [faceMask width height f] else [].

(** The events [evs] give these coordinates to the graphic context, anchor
    labels at these places and pixelate these regions. *)
Definition draws (evs : list Event) (points : list (float * float))
    (anchors : list (Z * Z)) (masks : list (Z * Rectangle * Point)) : Prop :=
  pathPoints evs = points /\ labelAnchors evs = anchors
  /\ pixelatedRegions evs = masks.

(** ** State of the world between two points of a run *)

(** From [w] to [w'] nothing but the trace and the buffer at [new] changed:
    the buffer is still there, every other buffer is as it was, and so are
    the file-reference store and the goroutines. *)
Record frame (new : loc) (w w' : World) : Prop :=
  { frame_new : is_Some (heap w' !! new);
    frame_others : forall l, l <> new -> heap w' !! l = heap w !! l;
    frame_fileIDs : fileIDs w' = fileIDs w;
    frame_pending : pending w' = pending w }.

(** [m] runs to the end from every world that has the buffer [new], adds the
    events [evs] to the trace, stays within [frame], and its result and
    events satisfy [Q]. *)
Definition spec {A} (new : loc) (m : M A) (Q : A -> list Event -> Prop) : Prop :=
  forall w, is_Some (heap w !! new) ->
    exists a evs w',
      m w = Some (a, w') /\ trace w' = (trace w ++ evs)%list
      /\ frame new w w' /\ Q a evs.

(** The events of a loop: those of each turn, one after the other. *)
Inductive loopEvents {A} (R : nat -> A -> list Event -> Prop)
  : list A -> nat -> list Event -> Prop :=
| loopEvents_nil i : loopEvents R [] i []
| loopEvents_cons i x rest e1 e2 :
    R i x e1 -> loopEvents R rest (S i) e2 ->
    loopEvents R (x :: rest) i (e1 ++ e2)%list.


(** ** Sample collaborators and inputs *)

Definition sampleFileID : string :=
  "AgACAgUAAxkBAAIBQ2ZmZXhhbXBsZUZpbGVJZGVudGlmaWVy".

Definition sampleBot : Bot :=
  {| botGetFile := fun fileID => inr ("photos/" ++ fileID);
     botGetFileURL := fun path => "https://api.telegram.org/file/" ++ path;
     botAnswerCallbackQuery := fun _ => inr tt;
     botEditMessageText := fun _ _ _ => inr tt;
     botSendMessage := fun _ _ _ _ => inr tt;
     botSendPhoto := fun _ _ _ => inr tt |}.

(** A transport that cannot resolve file handles. *)
Definition failingBot : Bot :=
  {| botGetFile := fun _ => inl "Bad Request: invalid file_id";
     botGetFileURL := fun path => "https://api.telegram.org/file/" ++ path;
     botAnswerCallbackQuery := fun _ => inr tt;
     botEditMessageText := fun _ _ _ => inr tt;
     botSendMessage := fun _ _ _ _ => inr tt;
     botSendPhoto := fun _ _ _ => inr tt |}.

Definition sampleQuery (data : string) : CallbackQuery :=
  {| ID := "4382bfdwdsb323b2d9";
     From := {| Username := Some "alice"; FirstName := "Alice" |};
     QueryMessage := {| ChatID := 1111; MessageID := 42;
                        MessageText := Some messageActionImage |};
     Data := Some data |}.

(** A machine on which the configuration and the font are in place. *)
Definition sampleOS : OS :=
  {| osPwd := "/app";
     pathJoin := fun dir name => dir ++ "/" ++ name;
     ReadFile := fun _ => inr [];
     jsonUnmarshal := fun _ =>
       inr {| TelegramAPIToken := "0123456789:AaBbCc";
              TelegramMonitorIntervalSeconds := 1;
              KakaoAPIKey := "abcdef"; LogglyToken := ""; IsVerbose := false |};
     truetypeParse := fun data => inr {| fontData := data |} |}.

(** A command table in which two commands share a token. *)
Definition collidingTable : list (VisionCommand * string) :=
  [ (DetectFaces, "tag"); (Tag, "tag") ].

(** Drawing libraries that leave the pixels as they are. *)
Definition sampleGraphics : Graphics :=
  {| drawDraw := fun d _ _ _ => Pix d;
     gcPaint := fun _ d => Pix d;
     fcDrawString := fun _ _ _ _ d => (Pix d, None);
     fcPointToFixed := fun _ _ => 0%Z;
     giftPixelate := fun _ _ _ d => Pix d |}.

Definition offlineKakao : KakaoClient :=
  {| kakaoDetectFace := fun _ _ => inl "offline";
     kakaoDetectProduct := fun _ _ => inl "offline";
     kakaoDetectNSFW := fun _ => inl "offline";
     kakaoGenerateTags := fun _ => inl "offline";
     kakaoAnalyzePose := fun _ => inl "offline";
     kakaoDetectText := fun _ => inl "offline" |}.

(** An environment in which nothing can be reached. *)
Definition offlineEnv : Env :=
  {| httpGet := fun _ => inl "unreachable";
     imageDecode := fun _ => inl "unknown format";
     jpegEncode := fun _ => inl "no encoder";
     kakaoClient := offlineKakao;
     graphics := sampleGraphics;
     fmt2f := fun _ => "0.00";
     fmtQuery := fun q => ID q |}.

(** A picture of 4 by 2 pixels in memory, and a world that holds it. *)
Definition sampleImage : Image :=
  {| Rect := image_Rect 0 0 4 2; Stride := 16;
     Pix := List.repeat Byte.x2a 32 |}.

Definition worldWithImage : World :=
  {| fileIDs := ∅; heap := <[1%positive := sampleImage]> ∅;
     trace := []; pending := [] |}.

(** A response that declares 200 by 100 pixels and one face. *)
Definition sampleFace : Face :=
  {| faceX := 0.25; faceY := 0.25; faceW := 0.5; faceH := 0.5;
     faceFacialPoints :=
       {| Nose := [ {| fpX := 0.5; fpY := 0.5 |} ]; RightEye := [];
          LeftEye := []; Lip := [] |} |}.

Definition sampleDetectedFace : ResponseDetectedFace :=
  {| faceWidth := 200; faceHeight := 100; Faces := [sampleFace] |}.

Definition sampleDetectedProduct : ResponseDetectedProduct :=
  {| productWidth := 200; productHeight := 100;
     Objects := [ {| X1 := 0.25; Y1 := 0.25; X2 := 0.75; Y2 := 0.75;
                     Class := "shoes" |} ] |}.

Definition samplePose : AnalyzedPose :=
  {| KeyPointFor := fun _ => (10, 20, 0.5) |}.

(** A vision service that answers every call and finds nothing. *)
Definition emptyKakao : KakaoClient :=
  {| kakaoDetectFace := fun _ _ =>
       inr {| faceWidth := 4; faceHeight := 2; Faces := [] |};
     kakaoDetectProduct := fun _ _ =>
       inr {| productWidth := 4; productHeight := 2; Objects := [] |};
     kakaoDetectNSFW := fun _ => inr {| Normal := 1; Soft := 0; Adult := 0 |};
     kakaoGenerateTags := fun _ => inr {| Labels := []; LabelsKorean := [] |};
     kakaoAnalyzePose := fun _ => inr [];
     kakaoDetectText := fun _ => inr [] |}.

Definition emptyResultsEnv : Env :=
  {| httpGet := fun _ => inr [Byte.xff; Byte.xd8];
     imageDecode := fun _ => inr sampleImage;
     jpegEncode := fun im => inr (Pix im);
     kakaoClient := emptyKakao;
     graphics := sampleGraphics;
     fmt2f := fun _ => "0.00";
     fmtQuery := fun q => ID q |}.

(** The world [w] with the events [evs] added to its trace. *)
Definition withEvents (w : World) (evs : list Event) : World :=
  {| fileIDs := fileIDs w; heap := heap w;
     trace := List.app (trace w) evs; pending := pending w |}.

(** A world in which the sample file handle has been stored. *)
Definition storedWorld : World :=
  {| fileIDs := <[String.substring 0 32 sampleFileID := sampleFileID]> ∅;
     heap := ∅; trace := []; pending := [] |}.

(** ** The receive loop *)

(** An update of the transport, as the function given to
    [StartMonitoringUpdates] reads it: [HasMessage()] is asked first, then
    [HasCallbackQuery()]. *)
Record Update :=
  { UpdateMessage : option Incoming;
    UpdateCallbackQuery : option CallbackQuery }.

(** The function given to [StartMonitoringUpdates] in [main]; [err] is the
    text of the error, when there is one. *)
Definition handleUpdate (order : list (VisionCommand * string)) (b : Bot)
    (env : Env) (update : Update) (err : option string) : M unit :=
  match err with
  | None =>
      match UpdateMessage update with
      | Some m => let* _ := processUpdate order b m in ret tt
      | None =>
          match UpdateCallbackQuery update with
          | Some q => let* _ := processCallbackQuery order b env q in ret tt
          | None => logError "Update not processable"
          end
      end
  | Some e => logError ("Error while receiving update (" ++ e ++ ")")
  end.

(** The updates of a run, handled one after the other. *)
Fixpoint handleUpdates (order : list (VisionCommand * string)) (b : Bot)
    (env : Env) (updates : list (Update * option string)) : M unit :=
  match updates with
  | [] => ret tt
  | u :: rest =>
      let* _ := handleUpdate order b env (fst u) (snd u) in
      handleUpdates order b env rest
  end.

(** Every entry of the store is a handle of 32 bytes or more under its
    first 32 bytes. *)
Definition storeWellFormed (w : World) : Prop :=
  forall key h, fileIDs w !! key = Some h ->
    key = String.substring 0 32 h /\ 32 <= String.length h.

(** A message with a photo, one with a text only. *)
Definition samplePhotoMessage : Incoming :=
  {| InChatID := 1111; InMessageID := 41;
     LargestPhoto := Some sampleFileID; InDocument := None |}.

Definition sampleTextMessage : Incoming :=
  {| InChatID := 1111; InMessageID := 40;
     LargestPhoto := None; InDocument := None |}.

(** The callback queries that were answered. *)
Definition answeredCallbacks (t : list Event) : list string :=
  List.flat_map (fun e => match e with EvAnswerCallbackQuery id => [id] | _ => [] end) t.

(** A vision service that tags the picture, and an environment around it. *)
Definition taggingEnv : Env :=
  {| httpGet := fun _ => inr [Byte.xff; Byte.xd8];
     imageDecode := fun _ => inr sampleImage;
     jpegEncode := fun im => inr (Pix im);
     kakaoClient :=
       {| kakaoDetectFace := kakaoDetectFace emptyKakao;
          kakaoDetectProduct := kakaoDetectProduct emptyKakao;
          kakaoDetectNSFW := kakaoDetectNSFW emptyKakao;
          kakaoGenerateTags := fun _ =>
            inr {| Labels := ["cat"; "pet"]; LabelsKorean := ["goyangi"; "aewan"] |};
          kakaoAnalyzePose := kakaoAnalyzePose emptyKakao;
          kakaoDetectText := kakaoDetectText emptyKakao |};
     graphics := sampleGraphics;
     fmt2f := fun _ => "0.00";
     fmtQuery := fun q => ID q |}.

(** ** More that is read off a trace *)

(** The texts of the labels drawn. *)
Definition labelTexts (t : list Event) : list string :=
  List.flat_map (fun e => match e with EvDrawString _ s _ _ => [s] | _ => [] end) t.

(** The stroke colours set on the graphic context. *)
Definition strokeColors (t : list Event) : list RGBA :=
  List.flat_map (fun e => match e with EvGc _ (SetStrokeColor c) => [c] | _ => [] end) t.

(** The buffers painted by [FillStroke], one entry for each call. *)
Definition fillStrokes (t : list Event) : list loc :=
  List.flat_map (fun e => match e with EvGc l FillStroke => [l] | _ => [] end) t.

(** Every event is a call on a drawing library or a line of the log. *)
Definition drawingOnly (t : list Event) : Prop :=
  List.Forall (fun e => match e with
                        | EvGc _ _ | EvDrawString _ _ _ _ | EvPixelate _ _ _ _
                        | EvLogError _ => True
                        | _ => False
                        end) t.

(** [f i x] for each [x] of the list, [i] counting from [start]. *)
Fixpoint numbered {A B} (f : nat -> A -> B) (l : list A) (start : nat) : list B :=
  match l with
  | [] => []
  | x :: rest => f start x :: numbered f rest (S start)
  end.

(** The normalized corners of a product record, in the order they are
    given to the graphic context. *)
Definition productOutline (o : Product) : list (float * float) :=
  [ (X1 o, Y1 o); (X1 o, Y2 o); (X2 o, Y2 o); (X2 o, Y1 o); (X1 o, Y1 o) ].

(** Where the label of a product is anchored. *)
Definition productAnchor (g : Graphics) (width height : float) (o : Product)
  : Z * Z :=
  (int_of_float64 (width * X1 o + 5),
   Z.shiftr (fcPointToFixed g 72 (height * Y2 o - 5)) 6).

(** The landmarks of a face record, in the order they are marked. *)
Definition landmarksOf (f : Face) : list FacialPoint :=
  List.app (Nose (faceFacialPoints f))
    (List.app (RightEye (faceFacialPoints f))
       (List.app (LeftEye (faceFacialPoints f)) (Lip (faceFacialPoints f)))).

(** The coordinates of a key point of a pose, as [KeyPointFor] gives them. *)
Definition keyPointXY (pose : AnalyzedPose) (k : KeyPointIndex) : float * float :=
  (fst (fst (KeyPointFor pose k)), snd (fst (KeyPointFor pose k))).

(** A vision service that finds one face, one product and one pose, and an
    environment around it in which every step succeeds. *)
Definition detectingKakao : KakaoClient :=
  {| kakaoDetectFace := fun _ _ => inr sampleDetectedFace;
     kakaoDetectProduct := fun _ _ => inr sampleDetectedProduct;
     kakaoDetectNSFW := kakaoDetectNSFW emptyKakao;
     kakaoGenerateTags := kakaoGenerateTags emptyKakao;
     kakaoAnalyzePose := fun _ => inr [samplePose];
     kakaoDetectText := kakaoDetectText emptyKakao |}.

Definition detectingEnv : Env :=
  {| httpGet := fun _ => inr [Byte.xff; Byte.xd8];
     imageDecode := fun _ => inr sampleImage;
     jpegEncode := fun im => inr (Pix im);
     kakaoClient := detectingKakao;
     graphics := sampleGraphics;
     fmt2f := fun _ => "0.00";
     fmtQuery := fun q => ID q |}.

(** An environment in which the picture is downloaded and the vision
    service cannot be reached. *)
Definition serviceDownEnv : Env :=
  {| httpGet := fun _ => inr [Byte.xff; Byte.xd8];
     imageDecode := imageDecode offlineEnv;
     jpegEncode := jpegEncode offlineEnv;
     kakaoClient := offlineKakao;
     graphics := sampleGraphics;
     fmt2f := fmt2f offlineEnv;
     fmtQuery := fmtQuery offlineEnv |}.

(** ** The older revision: first letters as tokens

    The second revision held in [main.go] has no store of file handles: the
    payload of a button is the first letter of the command followed by the
    whole handle. *)

Module Legacy.

Definition Face : VisionCommand := "Face Detection".
Definition Product : VisionCommand := "Product Detection".
Definition NSFW : VisionCommand := "NSFW Detection".
Definition Tag : VisionCommand := "Tag This Image".
Definition MaskFaces : VisionCommand := "Mask Faces".

(** [var allCmds = []VisionCommand{...}]: a slice, ranged over in order. *)
Definition allCmds : list VisionCommand := [Face; Product; NSFW; Tag; MaskFaces].

(** [string(b)] for a byte [b]: Go converts an integer to the UTF-8
    encoding of the code point, two bytes from 128 on. *)
Definition string_of_byte (a : ascii) : string :=
  let n := nat_of_ascii a in
  if (n <? 128)%nat then String a EmptyString
  else String (ascii_of_nat (192 + n / 64))
              (String (ascii_of_nat (128 + n mod 64)) EmptyString).

(** The two package-level maps [shortCmdsMap] and [cmdsMap]. *)
Record Tables :=
  { shortCmdsMap : gmap string string; cmdsMap : gmap string VisionCommand }.

Definition noTables : Tables := {| shortCmdsMap := ∅; cmdsMap := ∅ |}.

(** The loop of [init] over the commands; [string(c)[0]] panics on an empty
    command. *)
Fixpoint registerCommands (cmds : list VisionCommand) (t : Tables)
  : option Tables :=
  match cmds with
  | [] => Some t
  | c :: rest =>
      match c with
      | EmptyString => None
      | String a _ =>
          registerCommands rest
            {| shortCmdsMap := <[c := string_of_byte a]> (shortCmdsMap t);
               cmdsMap := <[string_of_byte a := c]> (cmdsMap t) |}
      end
  end.

(** The map [data] of [genImageInlineKeyboards]; a command missing from
    [shortCmdsMap] reads as the empty string. *)
Definition keyboardData (t : Tables) (fileID : string) : gmap string string :=
  List.fold_left
    (fun data cmd => <[cmd := default "" (shortCmdsMap t !! cmd) ++ fileID]> data)
    allCmds ∅.

(** [genImageInlineKeyboards]; [toList] is the order in which the library
    ranges over the map it is given. *)
Definition genImageInlineKeyboards (t : Tables)
    (toList : gmap string string -> list (string * string)) (fileID : string)
  : InlineKeyboard :=
  List.app
    (NewInlineKeyboardButtonsAsRowsWithCallbackData (toList (keyboardData t fileID)))
    [ [ {| Text := titleCancel; CallbackData := Some commandCancel |} ] ].

(** The first half of [processCallbackQuery]: [data[0]] panics on an empty
    payload; a letter missing from [cmdsMap] reads as the empty command. *)
Definition callbackMessage (t : Tables) (b : Bot) (query : CallbackQuery)
  : M string :=
  let* data := deref (Data query) in
  if String.eqb data commandCancel then ret messageCanceled
  else
    match data with
    | EmptyString => panic
    | String a fileID =>
        let command := default "" (cmdsMap t !! string_of_byte a) in
        let* fileResult := GetFile b fileID in
        match fileResult with
        | inr file =>
            let fileURL := botGetFileURL b file in
            let* text := deref (MessageText (QueryMessage query)) in
            if Strings.Contains text "image" then
              do go {| taskChatID := ChatID (QueryMessage query);
                       taskMessageID := MessageID (QueryMessage query);
                       taskFileURL := fileURL;
                       taskCommand := command |} in
              let username :=
                match Username (From query) with
                | None => FirstName (From query)
                | Some u => u
                end in
              do emit (EvLogRequest username fileURL command) in
              ret ("Processing '" ++ command ++ "' on received image...")
            else ret messageUnprocessable
        | inl description =>
            do logError ("Failed to get file from url: " ++ description) in
            ret messageFailedToGetFile
        end
    end.

(** [processCallbackQuery] *)
Definition processCallbackQuery (t : Tables) (b : Bot) (env : Env)
    (query : CallbackQuery) : M bool :=
  let* message := callbackMessage t b query in
  let* answered := AnswerCallbackQuery b (ID query) in
  match answered with
  | inr _ =>
      let* edited :=
        EditMessageText b message (ChatID (QueryMessage query))
                        (MessageID (QueryMessage query)) in
      match edited with
      | inr _ => ret true
      | inl description =>
          do logError ("Failed to edit message text: " ++ description) in
          ret false
      end
  | inl _ =>
      do logError ("Failed to answer callback query: " ++ fmtQuery env query) in
      ret false
  end.

(** The two maps once [init] has run. *)
Definition registered : Tables :=
  {| shortCmdsMap :=
       <[MaskFaces := "M"]>
         (<[Tag := "T"]> (<[NSFW := "N"]> (<[Product := "P"]> (<[Face := "F"]> ∅))));
     cmdsMap :=
       <["M" := MaskFaces]>
         (<["T" := Tag]> (<["N" := NSFW]> (<["P" := Product]> (<["F" := Face]> ∅)))) |}.

End Legacy.

Local Close Scope float_scope.

(** * Properties *)

(** ** The definitions at work on small inputs *)

Example Split_payload :
  Strings.Split "/" "detect_faces/AgACAgUAAxkB" = ["detect_faces"; "AgACAgUAAxkB"].
Proof. reflexivity. Qed.

Example Split_without_separator : Strings.Split "/" "cancel" = ["cancel"].
Proof. reflexivity. Qed.

Example parse_without_separator : parseCallbackData "Dabcdef" = None.
Proof. reflexivity. Qed.

Example Contains_image :
  Strings.Contains messageActionImage "image" = true
  /\ Strings.Contains messageHelp "photo" = false.
Proof. split; reflexivity. Qed.

Example slice_short : Strings.slice_to "AgACAgUAAxkB" 32 = None.
Proof. reflexivity. Qed.

Example decode_unknown_token : visionCommandForCommand "detect_cats" = CmdNone.
Proof. reflexivity. Qed.

Example colorForIndex_cycles :
  colorForIndex 7 = colorForIndex 1 /\ colorForIndex (-1) = None.
Proof. split; reflexivity. Qed.

Example toPixels_half :
  toPixels (float64_of_int 200) (float64_of_int 100) (0.5%float, 0.5%float)
  = (100%float, 50%float).
Proof. vm_compute. reflexivity. Qed.

Example int_of_float64_truncates :
  int_of_float64 (-3.75)%float = (-3)%Z /\ int_of_float64 3.75%float = 3%Z.
Proof. split; vm_compute; reflexivity. Qed.

(** A menu selection served to the end when the picture cannot be fetched:
    the menu is edited, the worker reports the failure. *)
Example served_callback_trace :
  (snd <$> serveCallbackQuery sampleBot offlineEnv allCmds
             (sampleQuery "tag/AgACAgUAAxkBAAIBQ2ZmZXhhbXBsZUZp") storedWorld)
  ≫= (fun w => Some (editedTexts (trace w), sentTexts (trace w),
                     kakaoCalls (trace w)))
  = Some (["Processing 'Tag This Image' on received image..."],
          ["Failed to read file from https://api.telegram.org/file/photos/AgACAgUAAxkBAAIBQ2ZmZXhhbXBsZUZpbGVJZGVudGlmaWVy: unreachable"],
          []).
Proof. vm_compute. reflexivity. Qed.

(** ** Strings *)

Lemma Split_nonempty sep s : Strings.Split sep s <> [].
Proof.
  destruct s as [|c s]; simpl; [discriminate|].
  destruct (Ascii.eqb c sep); [discriminate|].
  destruct (Strings.Split sep s); discriminate.
Qed.

Lemma Split_lacks sep s :
  Strings.lacks sep s = true -> Strings.Split sep s = [s].
Proof.
  induction s as [|c s IH]; simpl; [reflexivity|].
  destruct (Ascii.eqb c sep); simpl; [discriminate|].
  intros H. rewrite (IH H). reflexivity.
Qed.

(** Splitting [tok ++ sep ++ rest] when [tok] has no separator: the first
    part is [tok], the others are the parts of [rest]. *)
Lemma Split_app sep tok rest :
  Strings.lacks sep tok = true ->
  Strings.Split sep (tok ++ String sep rest) = tok :: Strings.Split sep rest.
Proof.
  induction tok as [|c tok IH]; simpl.
  - intros _. rewrite Ascii.eqb_refl. reflexivity.
  - destruct (Ascii.eqb c sep); simpl; [discriminate|].
    intros H. rewrite (IH H). reflexivity.
Qed.

(** ** The command registry *)

Lemma allCmds_tokens_NoDup : List.NoDup (List.map snd allCmds).
Proof. apply NoDup_ListNoDup, (bool_decide_unpack _). vm_compute. exact I. Qed.

Lemma allCmds_commands_NoDup : List.NoDup (List.map fst allCmds).
Proof. apply NoDup_ListNoDup, (bool_decide_unpack _). vm_compute. exact I. Qed.

Lemma allCmds_tokens_lack_slash c tok :
  List.In (c, tok) allCmds -> Strings.lacks "/" tok = true.
Proof.
  unfold allCmds. simpl.
  intros H; repeat (destruct H as [H|H]; [injection H as <- <-; reflexivity|]).
  destruct H.
Qed.

Lemma allCmds_tokens_not_cancel c tok rest :
  List.In (c, tok) allCmds -> String.eqb (tok ++ String "/" rest) commandCancel = false.
Proof.
  unfold allCmds. simpl.
  intros H; repeat (destruct H as [H|H]; [injection H as <- <-; reflexivity|]).
  destruct H.
Qed.

(** In a table without repeated tokens, ranging in any order finds the
    command of a token. *)
Lemma find_by_token (table : list (VisionCommand * string)) c tok :
  List.NoDup (List.map snd table) -> List.In (c, tok) table ->
  visionCommandForCommandIn table tok = c.
Proof.
  unfold visionCommandForCommandIn.
  induction table as [|[k v] table IH]; simpl; [intros _ []|].
  intros ND [E|I].
  - injection E as -> ->. rewrite String.eqb_refl. reflexivity.
  - inversion ND as [|? ? NI ND']; subst.
    destruct (String.eqb v tok) eqn:E.
    + apply String.eqb_eq in E. subst v. exfalso. apply NI.
      change tok with (snd (c, tok)). apply List.in_map. exact I.
    + apply IH; assumption.
Qed.

Lemma find_by_command (table : list (VisionCommand * string)) c tok :
  List.NoDup (List.map fst table) -> List.In (c, tok) table ->
  tokenOf table c = Some tok.
Proof.
  unfold tokenOf.
  induction table as [|[k v] table IH]; simpl; [intros _ []|].
  intros ND [E|I].
  - injection E as -> ->. rewrite String.eqb_refl. reflexivity.
  - inversion ND as [|? ? NI ND']; subst.
    destruct (String.eqb k c) eqn:E.
    + apply String.eqb_eq in E. subst k. exfalso. apply NI.
      change c with (fst (c, tok)). apply List.in_map. exact I.
    + apply IH; assumption.
Qed.

(** The order in which Go ranges over [allCmds] does not matter to
    [visionCommandForCommand]. *)
Lemma visionCommandForCommand_any_order order c tok :
  Permutation order allCmds -> List.In (c, tok) allCmds ->
  visionCommandForCommandIn order tok = c /\ tokenOf order c = Some tok.
Proof.
  intros P I. split.
  - apply find_by_token.
    + eapply Permutation_NoDup;
        [apply Permutation_map, Permutation_sym, P | apply allCmds_tokens_NoDup].
    + eapply Permutation_in; [apply Permutation_sym, P | exact I].
  - apply find_by_command.
    + eapply Permutation_NoDup;
        [apply Permutation_map, Permutation_sym, P | apply allCmds_commands_NoDup].
    + eapply Permutation_in; [apply Permutation_sym, P | exact I].
Qed.

Lemma startup_ignores_table table os :
  startup table os = None <-> init os = None.
Proof. unfold startup. destruct (init os); split; congruence. Qed.

(** ** The file-reference store and the keyboard *)

Lemma substring_length n s :
  n <= String.length s -> String.length (String.substring 0 n s) = n.
Proof.
  revert s. induction n as [|n IH]; intros [|c s]; simpl; intros H;
    try reflexivity; try lia.
  rewrite IH; [reflexivity | lia].
Qed.

Lemma substring_prefix n s :
  String.prefix (String.substring 0 n s) s = true.
Proof.
  revert s. induction n as [|n IH]; intros [|c s]; simpl; try reflexivity.
  rewrite IH. destruct (ascii_dec c c); [reflexivity | contradiction].
Qed.

Lemma genImageInlineKeyboards_unfold order fileID w :
  genImageInlineKeyboards order fileID w =
  if (String.length fileID <? 32)%nat then None
  else Some
         (List.app
            (NewInlineKeyboardButtonsAsRowsWithCallbackData
               (List.map (fun kv => (fst kv, snd kv ++ "/" ++ String.substring 0 32 fileID))
                         order))
            [ [ {| Text := titleCancel; CallbackData := Some commandCancel |} ] ],
          {| fileIDs := <[String.substring 0 32 fileID := fileID]> (fileIDs w);
             heap := heap w; trace := trace w; pending := pending w |}).
Proof.
  unfold genImageInlineKeyboards, bind, deref, Strings.slice_to.
  destruct (String.length fileID <? 32)%nat; reflexivity.
Qed.

(** Rows of the keyboard: one per command of the table, then the cancel row. *)
Lemma keyboard_rows order key row :
  List.In row
    (List.app
       (NewInlineKeyboardButtonsAsRowsWithCallbackData
          (List.map (fun kv => (fst kv, snd kv ++ "/" ++ key)) order))
       [ [ {| Text := titleCancel; CallbackData := Some commandCancel |} ] ])
  <-> (exists c tok, List.In (c, tok) order
         /\ row = [ {| Text := c; CallbackData := Some (tok ++ "/" ++ key) |} ])
      \/ row = [ {| Text := titleCancel; CallbackData := Some commandCancel |} ].
Proof.
  unfold NewInlineKeyboardButtonsAsRowsWithCallbackData.
  rewrite List.in_app_iff, List.map_map, List.in_map_iff. simpl. split.
  - intros [[[c tok] [E I]]|[E|[]]]; [left|right; auto].
    exists c, tok. split; [exact I | symmetry; exact E].
  - intros [[c [tok [I E]]]|E]; [left|right; left; auto].
    exists (c, tok). split; [symmetry; exact E | exact I].
Qed.

Lemma parse_token_key tok key :
  Strings.lacks "/" tok = true ->
  parseCallbackData (tok ++ "/" ++ key)
  = Some (tok, List.hd "" (Strings.Split "/" key)).
Proof.
  intros L. unfold parseCallbackData.
  change (tok ++ "/" ++ key) with (tok ++ String "/" key).
  rewrite Split_app by exact L.
  pose proof (Split_nonempty "/" key) as NE.
  destruct (Strings.Split "/" key); [contradiction | reflexivity].
Qed.

Lemma parse_token_key_lacks tok key :
  Strings.lacks "/" tok = true -> Strings.lacks "/" key = true ->
  parseCallbackData (tok ++ "/" ++ key) = Some (tok, key).
Proof.
  intros L K. rewrite parse_token_key by exact L.
  rewrite (Split_lacks _ _ K). reflexivity.
Qed.

(** C3, as amended. For every command [c] of the closed command set with
    token [tok], and in whatever order Go ranges over the table: the token
    of [c] is [tok] and [visionCommandForCommand] gives [c] back for [tok];
    the tokens of the table are pairwise distinct. Start-up makes no check
    of the table: it fails exactly when [init] fails, on the configuration
    and the font alone. *)
Theorem C3_registry_roundtrip order c tok :
  Permutation order allCmds -> List.In (c, tok) allCmds ->
  tokenOf order c = Some tok
  /\ visionCommandForCommandIn order tok = c
  /\ List.NoDup (List.map snd allCmds)
  /\ (forall table os, startup table os = None <-> init os = None).
Proof.
  intros P I.
  destruct (visionCommandForCommand_any_order order c tok P I) as [D T].
  split; [exact T|]. split; [exact D|]. split.
  - apply allCmds_tokens_NoDup.
  - intros table os. apply startup_ignores_table.
Qed.

Lemma C3_registry_roundtrip_witness :
  tokenOf allCmds Tag = Some "tag"
  /\ visionCommandForCommandIn allCmds "tag" = Tag
  /\ List.NoDup (List.map snd allCmds)
  /\ (forall table os, startup table os = None <-> init os = None).
Proof.
  apply (C3_registry_roundtrip allCmds Tag "tag").
  - apply Permutation_refl.
  - simpl. tauto.
Defined.

(** C3, as stated, fails: a table in which two commands share a token does
    not make start-up fail. *)
Lemma C3_colliding_table_starts :
  ~ (forall table os,
        (exists c1 c2 tok, c1 <> c2 /\ List.In (c1, tok) table
                           /\ List.In (c2, tok) table) ->
        startup table os = None).
Proof.
  intros H.
  assert (S : startup collidingTable sampleOS = None).
  { apply H. exists DetectFaces, Tag, "tag". simpl.
    split; [discriminate | split; auto]. }
  vm_compute in S. discriminate S.
Qed.

(** C9. [genImageInlineKeyboards] panics exactly when the file handle has
    fewer than 32 bytes; otherwise it stores the handle under its first 32
    bytes, a key of length 32 that is a prefix of the handle. *)
Theorem C9_store_needs_32_bytes order fileID w :
  (genImageInlineKeyboards order fileID w = None <-> String.length fileID < 32)
  /\ (32 <= String.length fileID ->
      exists kb w',
        genImageInlineKeyboards order fileID w = Some (kb, w')
        /\ fileIDs w' = <[String.substring 0 32 fileID := fileID]> (fileIDs w)
        /\ String.length (String.substring 0 32 fileID) = 32
        /\ String.prefix (String.substring 0 32 fileID) fileID = true).
Proof.
  rewrite genImageInlineKeyboards_unfold.
  destruct (Nat.ltb_spec (String.length fileID) 32) as [L|L]; split.
  - split; [intros _; exact L | reflexivity].
  - intros G. lia.
  - split; [discriminate | lia].
  - intros _. eexists _, _. split; [reflexivity|]. simpl.
    repeat split.
    + apply substring_length. exact L.
    + apply substring_prefix.
Qed.

Lemma C9_store_needs_32_bytes_witness :
  genImageInlineKeyboards allCmds "AgACAgUAAxkBAAIBQ2Zm" initialWorld = None
  /\ exists kb w',
       genImageInlineKeyboards allCmds sampleFileID initialWorld = Some (kb, w')
       /\ fileIDs w' = <[String.substring 0 32 sampleFileID := sampleFileID]> ∅
       /\ String.length (String.substring 0 32 sampleFileID) = 32
       /\ String.prefix (String.substring 0 32 sampleFileID) sampleFileID = true.
Proof.
  split.
  - apply (proj1 (C9_store_needs_32_bytes allCmds "AgACAgUAAxkBAAIBQ2Zm" initialWorld)).
    simpl. lia.
  - apply (proj2 (C9_store_needs_32_bytes allCmds sampleFileID initialWorld)).
    simpl. lia.
Defined.

(** C1, as amended. Every button of the keyboard generated for an image
    carries either the cancel token or, for a command [c] of the table with
    token [tok], the payload [tok/key], where [key] is the first 32 bytes of
    the file handle; every command has its button, and so has cancel. Such
    a payload is not the cancel token; splitting it at ['/'] gives back
    [tok], from which the command is found again, and the part of [key]
    before its first ['/'], which is [key] when [key] has none. *)
Theorem C1_payload_is_token_slash_key order fileID w kb w' :
  Permutation order allCmds ->
  genImageInlineKeyboards order fileID w = Some (kb, w') ->
  (forall row button, List.In row kb -> List.In button row ->
     CallbackData button = Some commandCancel
     \/ exists c tok, List.In (c, tok) allCmds /\ Text button = c
          /\ CallbackData button = Some (tok ++ "/" ++ String.substring 0 32 fileID))
  /\ List.In [ {| Text := titleCancel; CallbackData := Some commandCancel |} ] kb
  /\ (forall c tok, List.In (c, tok) allCmds ->
        List.In [ {| Text := c;
                     CallbackData := Some (tok ++ "/" ++ String.substring 0 32 fileID) |} ] kb
        /\ String.eqb (tok ++ "/" ++ String.substring 0 32 fileID) commandCancel = false
        /\ parseCallbackData (tok ++ "/" ++ String.substring 0 32 fileID)
           = Some (tok, List.hd "" (Strings.Split "/" (String.substring 0 32 fileID)))
        /\ visionCommandForCommandIn order tok = c
        /\ (Strings.lacks "/" (String.substring 0 32 fileID) = true ->
            parseCallbackData (tok ++ "/" ++ String.substring 0 32 fileID)
            = Some (tok, String.substring 0 32 fileID))).
Proof.
  intros P G. rewrite genImageInlineKeyboards_unfold in G.
  destruct (String.length fileID <? 32)%nat; [discriminate|].
  injection G as <- <-.
  split; [|split].
  - intros row button R B. apply keyboard_rows in R.
    destruct R as [[c [tok [I ->]]]| ->]; destruct B as [<-|[]]; simpl.
    + right. exists c, tok. split; [|split; reflexivity].
      exact (Permutation_in _ P I).
    + left. reflexivity.
  - apply keyboard_rows. right. reflexivity.
  - intros c tok I.
    pose proof (allCmds_tokens_lack_slash c tok I) as L.
    split; [|split; [|split; [|split]]].
    + apply keyboard_rows. left. exists c, tok. split; [|reflexivity].
      exact (Permutation_in _ (Permutation_sym P) I).
    + apply (allCmds_tokens_not_cancel c tok _ I).
    + apply parse_token_key. exact L.
    + apply (visionCommandForCommand_any_order order c tok P I).
    + intros K. apply parse_token_key_lacks; assumption.
Qed.

Lemma C1_payload_is_token_slash_key_witness :
  exists kb w',
    genImageInlineKeyboards allCmds sampleFileID initialWorld = Some (kb, w')
    /\ List.In [ {| Text := DetectFaces;
                    CallbackData := Some "detect_faces/AgACAgUAAxkBAAIBQ2ZmZXhhbXBsZUZp" |} ] kb
    /\ parseCallbackData "detect_faces/AgACAgUAAxkBAAIBQ2ZmZXhhbXBsZUZp"
       = Some ("detect_faces", "AgACAgUAAxkBAAIBQ2ZmZXhhbXBsZUZp")
    /\ visionCommandForCommandIn allCmds "detect_faces" = DetectFaces.
Proof.
  pose proof (genImageInlineKeyboards_unfold allCmds sampleFileID initialWorld) as G.
  change (String.length sampleFileID <? 32)%nat with false in G. cbv iota in G.
  eexists _, _. split; [exact G|].
  destruct (C1_payload_is_token_slash_key allCmds sampleFileID initialWorld _ _
              (Permutation_refl _) G) as [_ [_ H]].
  destruct (H DetectFaces "detect_faces") as [B [_ [_ [V K]]]]; [simpl; tauto|].
  split; [exact B|]. split; [|exact V].
  apply K. reflexivity.
Defined.

(** C1, as stated, fails: the payload of the "Detect Faces" button is not
    the token followed at once by the key. *)
Lemma C1_payload_has_a_delimiter :
  exists kb w',
    genImageInlineKeyboards allCmds sampleFileID initialWorld = Some (kb, w')
    /\ ~ (forall row button, List.In row kb -> List.In button row ->
            CallbackData button <> Some commandCancel ->
            exists c tok, List.In (c, tok) allCmds /\ Text button = c
              /\ CallbackData button
                 = Some (tok ++ String.substring 0 32 sampleFileID)).
Proof.
  pose proof (genImageInlineKeyboards_unfold allCmds sampleFileID initialWorld) as G.
  change (String.length sampleFileID <? 32)%nat with false in G. cbv iota in G.
  eexists _, _. split; [exact G|].
  intros H.
  destruct (H _ {| Text := DetectFaces;
                   CallbackData := Some "detect_faces/AgACAgUAAxkBAAIBQ2ZmZXhhbXBsZUZp" |}
              (or_introl eq_refl) (or_introl eq_refl))
    as [c [tok [I [T D]]]]; [discriminate|].
  simpl in T. subst c. unfold allCmds in I. simpl in I.
  repeat (destruct I as [I|I];
          [first [ discriminate I
                 | injection I as <-; vm_compute in D; discriminate D ]|]).
  destruct I.
Qed.

(** ** Traces *)

Lemma withEvents_nil w : withEvents w [] = w.
Proof. destruct w. unfold withEvents. simpl. rewrite List.app_nil_r. reflexivity. Qed.

Lemma withEvents_app w e1 e2 :
  withEvents (withEvents w e1) e2 = withEvents w (List.app e1 e2).
Proof. unfold withEvents. simpl. rewrite List.app_assoc. reflexivity. Qed.

Lemma emit_withEvents e w : emit e w = Some (tt, withEvents w [e]).
Proof. reflexivity. Qed.

(** ** The callback dispatcher *)

Section DispatcherFacts.

Variable order : list (VisionCommand * string).
Variable b : Bot.
Variable env : Env.


(** The key is not in the store: the text is [messageFailedToGetFile],
    one error is logged, nothing else happens. *)
Lemma callbackMessage_miss query data cmd key w :
  Data query = Some data -> String.eqb data commandCancel = false ->
  parseCallbackData data = Some (cmd, key) -> fileIDs w !! key = None ->
  callbackMessage order b query w
  = Some (messageFailedToGetFile,
          withEvents w [EvLogError ("Failed to get file id from shortened file id: `"
                                    ++ key ++ "`, maybe bot was restarted?")]).
Proof.
  intros D C P L. unfold callbackMessage, bind. rewrite D. simpl.
  rewrite C, P. unfold lookupFileID. rewrite L. reflexivity.
Qed.

(** The key is in the store and the transport cannot resolve the handle:
    the text is the same. *)
Lemma callbackMessage_fetch_failure query data cmd key fileID description w :
  Data query = Some data -> String.eqb data commandCancel = false ->
  parseCallbackData data = Some (cmd, key) -> fileIDs w !! key = Some fileID ->
  botGetFile b fileID = inl description ->
  callbackMessage order b query w
  = Some (messageFailedToGetFile,
          withEvents w [EvGetFile fileID;
                        EvLogError ("Failed to get file from url: " ++ description)]).
Proof.
  intros D C P L F. unfold callbackMessage, bind. rewrite D. simpl.
  rewrite C, P. unfold lookupFileID. rewrite L. simpl.
  unfold GetFile, bind. simpl. rewrite F. simpl.
  unfold withEvents. simpl. rewrite <- List.app_assoc. reflexivity.
Qed.

(** The second half of [processCallbackQuery]: the callback is answered,
    and when the answer is accepted the text is put in place of the menu. *)
Lemma processCallbackQuery_answers query message w w1 :
  callbackMessage order b query w = Some (message, w1) ->
  exists r evs,
    processCallbackQuery order b env query w = Some (r, withEvents w1 evs)
    /\ editedTexts evs
       = (if Ok (botAnswerCallbackQuery b (ID query)) then [message] else [])
    /\ kakaoCalls evs = [] /\ fileRequests evs = [] /\ sentTexts evs = []
    /\ sentPhotos evs = [].
Proof.
  intros C. unfold processCallbackQuery, bind. rewrite C.
  unfold AnswerCallbackQuery, bind. simpl.
  destruct (botAnswerCallbackQuery b (ID query)) as [d|[]]; simpl.
  - eexists _, [_; _]. split.
    { unfold withEvents. simpl. rewrite <- List.app_assoc. reflexivity. }
    repeat split; reflexivity.
  - unfold EditMessageText, bind. simpl.
    destruct (botEditMessageText b message _ _) as [d|[]]; simpl.
    + eexists _, [_; _; _]. split.
      { unfold withEvents. simpl. rewrite <- !List.app_assoc. reflexivity. }
      repeat split; reflexivity.
    + eexists _, [_; _]. split.
      { unfold withEvents. simpl. rewrite <- !List.app_assoc. reflexivity. }
      repeat split; reflexivity.
Qed.

(** When the dispatcher starts no goroutine and none was waiting, serving
    the callback to the end is the dispatcher alone. *)
Lemma serveCallbackQuery_idle query r w w' :
  processCallbackQuery order b env query w = Some (r, w') -> pending w' = [] ->
  serveCallbackQuery b env order query w = Some (r, w').
Proof.
  intros P E. unfold serveCallbackQuery, bind. rewrite P.
  unfold takePending. rewrite E. simpl. destruct w'; simpl in *.
  subst. reflexivity.
Qed.

End DispatcherFacts.




(** C2, as amended. When the key of a callback is not in the file-reference
    store, the dispatcher, served to the end, returns; the text it puts in
    place of the menu (when the transport accepts the answer to the
    callback) is "Failed to get file from the server."; no call is made to
    the vision service, no file is asked of the transport, no goroutine is
    started. The same text answers a key that is in the store when the
    transport cannot resolve its handle: the two cases differ by what is
    logged, not by what the user reads. *)
Theorem C2_missing_key order b env query data cmd key w :
  Data query = Some data -> String.eqb data commandCancel = false ->
  parseCallbackData data = Some (cmd, key) ->
  fileIDs w !! key = None -> pending w = [] ->
  (exists r w' evs,
     serveCallbackQuery b env order query w = Some (r, w')
     /\ trace w' = List.app (trace w) evs
     /\ editedTexts evs
        = (if Ok (botAnswerCallbackQuery b (ID query))
           then ["Failed to get file from the server."] else [])
     /\ kakaoCalls evs = [] /\ fileRequests evs = []
     /\ pending w' = [])
  /\ (forall w2 fileID description,
        fileIDs w2 !! key = Some fileID -> botGetFile b fileID = inl description ->
        exists w3 w4,
          callbackMessage order b query w = Some (messageFailedToGetFile, w3)
          /\ callbackMessage order b query w2 = Some (messageFailedToGetFile, w4)).
Proof.
  intros D C P L E.
  pose proof (callbackMessage_miss order b query data cmd key w D C P L) as M.
  split.
  - destruct (processCallbackQuery_answers order b env query _ _ _ M)
      as [r [evs [R [T [K [F _]]]]]].
    eexists r, _, _. split.
    { apply serveCallbackQuery_idle; [exact R | exact E]. }
    split; [|split; [|split; [|split]]].
    + simpl. rewrite <- List.app_assoc. reflexivity.
    + simpl. exact T.
    + simpl. exact K.
    + simpl. exact F.
    + exact E.
  - intros w2 fileID description S G.
    eexists _, _. split; [exact M|].
    apply (callbackMessage_fetch_failure order b query data cmd key fileID
             description w2 D C P S G).
Qed.

Lemma C2_missing_key_witness :
  (exists r w' evs,
     serveCallbackQuery sampleBot offlineEnv allCmds
       (sampleQuery "detect_faces/AgACAgUAAxkBAAIBQ2ZmZXhhbXBsZUZp") initialWorld
     = Some (r, w')
     /\ trace w' = List.app (trace initialWorld) evs
     /\ editedTexts evs = ["Failed to get file from the server."]
     /\ kakaoCalls evs = [] /\ fileRequests evs = []
     /\ pending w' = []).
Proof.
  apply (C2_missing_key allCmds sampleBot offlineEnv
           (sampleQuery "detect_faces/AgACAgUAAxkBAAIBQ2ZmZXhhbXBsZUZp")
           "detect_faces/AgACAgUAAxkBAAIBQ2ZmZXhhbXBsZUZp"
           "detect_faces" "AgACAgUAAxkBAAIBQ2ZmZXhhbXBsZUZp" initialWorld);
    reflexivity.
Defined.

(** C2, as stated, fails: the stale-reference text is not distinct from the
    transport-failure text. The same callback gets the same text from a
    store that does not have its key and from a store that has it while
    the transport cannot resolve the handle. *)
Lemma C2_stale_and_fetch_failure_same_text :
  exists m1 w1 m2 w2,
    fileIDs initialWorld !! "AgACAgUAAxkBAAIBQ2ZmZXhhbXBsZUZp" = None
    /\ callbackMessage allCmds failingBot
         (sampleQuery "detect_faces/AgACAgUAAxkBAAIBQ2ZmZXhhbXBsZUZp") initialWorld
       = Some (m1, w1)
    /\ fileIDs storedWorld !! "AgACAgUAAxkBAAIBQ2ZmZXhhbXBsZUZp" = Some sampleFileID
    /\ callbackMessage allCmds failingBot
         (sampleQuery "detect_faces/AgACAgUAAxkBAAIBQ2ZmZXhhbXBsZUZp") storedWorld
       = Some (m2, w2)
    /\ ~ m1 <> m2.
Proof.
  eexists _, _, _, _. split; [reflexivity|]. split.
  { apply (callbackMessage_miss allCmds failingBot _
             "detect_faces/AgACAgUAAxkBAAIBQ2ZmZXhhbXBsZUZp" "detect_faces"
             "AgACAgUAAxkBAAIBQ2ZmZXhhbXBsZUZp"); reflexivity. }
  assert (S : fileIDs storedWorld !! "AgACAgUAAxkBAAIBQ2ZmZXhhbXBsZUZp"
              = Some sampleFileID)
    by (apply (lookup_insert_eq (M := gmap string))).
  split; [exact S|]. split.
  { apply (callbackMessage_fetch_failure allCmds failingBot _
             "detect_faces/AgACAgUAAxkBAAIBQ2ZmZXhhbXBsZUZp" "detect_faces"
             "AgACAgUAAxkBAAIBQ2ZmZXhhbXBsZUZp" sampleFileID
             "Bad Request: invalid file_id"); reflexivity. }
  intros N. apply N. reflexivity.
Qed.



(** ** Rules for [spec] *)

Lemma frame_refl new w : is_Some (heap w !! new) -> frame new w w.
Proof. intros H. split; auto. Qed.

Lemma frame_trans new w1 w2 w3 :
  frame new w1 w2 -> frame new w2 w3 -> frame new w1 w3.
Proof.
  intros [_ O1 F1 P1] [N2 O2 F2 P2]. split.
  - exact N2.
  - intros l L. rewrite O2, O1 by exact L. reflexivity.
  - congruence.
  - congruence.
Qed.

Section SpecRules.

Context {A B : Type}.
Variable new : loc.

Lemma spec_ret (a : A) (Q : A -> list Event -> Prop) :
  Q a [] -> spec new (ret a) Q.
Proof.
  intros H w N. exists a, [], w. repeat split; auto.
  rewrite List.app_nil_r. reflexivity.
Qed.

Lemma spec_bind (m : M A) (k : A -> M B) Q1 (Q : B -> list Event -> Prop) :
  spec new m Q1 ->
  (forall a e1, Q1 a e1 -> spec new (k a) (fun b e2 => Q b (List.app e1 e2))) ->
  spec new (bind m k) Q.
Proof.
  intros Hm Hk w N.
  destruct (Hm w N) as [a [e1 [w1 [R1 [T1 [F1 Q1a]]]]]].
  destruct (Hk a e1 Q1a w1 (frame_new _ _ _ F1)) as [b' [e2 [w2 [R2 [T2 [F2 Qb]]]]]].
  exists b', (List.app e1 e2), w2. unfold bind. rewrite R1.
  split; [exact R2|]. split; [|split].
  - rewrite T2, T1, List.app_assoc. reflexivity.
  - eapply frame_trans; eassumption.
  - exact Qb.
Qed.

Lemma spec_weaken (m : M A) (Q1 Q2 : A -> list Event -> Prop) :
  spec new m Q1 -> (forall a e, Q1 a e -> Q2 a e) -> spec new m Q2.
Proof.
  intros Hm HQ w N. destruct (Hm w N) as [a [e [w' [R [T [F Qa]]]]]].
  exists a, e, w'. auto.
Qed.

Lemma spec_deref (a : A) (Q : A -> list Event -> Prop) :
  Q a [] -> spec new (deref (Some a)) Q.
Proof. apply spec_ret. Qed.

End SpecRules.

Lemma spec_emit new e : spec new (emit e) (fun _ evs => evs = [e]).
Proof.
  intros w N. exists tt, [e], (withEvents w [e]).
  split; [reflexivity|]. split; [reflexivity|]. split; [|reflexivity].
  split; auto.
Qed.

Lemma spec_paint new f : spec new (paint new f) (fun _ evs => evs = []).
Proof.
  intros w [im N]. unfold paint. rewrite N.
  eexists tt, [], _. split; [reflexivity|]. simpl.
  split; [rewrite List.app_nil_r; reflexivity|]. split; [|reflexivity].
  split; simpl; auto.
  - rewrite lookup_insert_eq. eauto.
  - intros l L. apply lookup_insert_ne. congruence.
Qed.

Lemma spec_load new : spec new (load new) (fun _ evs => evs = []).
Proof.
  intros w [im N]. unfold load. rewrite N.
  exists im, [], w. split; [reflexivity|].
  split; [rewrite List.app_nil_r; reflexivity|]. split; [|reflexivity].
  apply frame_refl. eauto.
Qed.

Lemma spec_forRange {A St} new (body : nat -> A -> St -> M St)
    (P : St -> Prop) (R : nat -> A -> list Event -> Prop) :
  (forall i x s, P s -> spec new (body i x s) (fun s' evs => P s' /\ R i x evs)) ->
  forall l i s, P s ->
    spec new (forRange body l i s) (fun s' evs => P s' /\ loopEvents R l i evs).
Proof.
  intros Hbody. induction l as [|x l IH]; intros i s Ps; simpl.
  - apply spec_ret. split; [exact Ps | constructor].
  - eapply spec_bind; [apply Hbody; exact Ps|].
    intros s' e1 [Ps' R1]. eapply spec_weaken; [apply IH; exact Ps'|].
    intros s'' e2 [Ps'' L]. split; [exact Ps''|]. constructor; assumption.
Qed.

(** What is read off the events of a loop, when each turn gives [F x]. *)
Lemma loopEvents_flat_map {A B} (obs : Event -> list B)
    (R : nat -> A -> list Event -> Prop) (F : A -> list B) :
  (forall i x e, R i x e -> List.flat_map obs e = F x) ->
  forall l i evs, loopEvents R l i evs ->
    List.flat_map obs evs = List.flat_map F l.
Proof.
  intros H l i evs L. induction L as [|i x rest e1 e2 R1 L IH]; [reflexivity|].
  rewrite List.flat_map_app. simpl. rewrite (H _ _ _ R1), IH. reflexivity.
Qed.

Lemma colorForIndex_total (i : nat) :
  exists c, colorForIndex (Z.of_nat i) = Some c.
Proof.
  unfold colorForIndex. simpl List.length.
  pose proof (Z.rem_bound_pos (Z.of_nat i) (Z.of_nat 6)) as Bd.
  destruct Bd as [Lo Hi]; [lia | lia |].
  destruct (Z.ltb_spec (Z.rem (Z.of_nat i) (Z.of_nat 6)) 0) as [N|_]; [lia|].
  assert (L : Z.to_nat (Z.rem (Z.of_nat i) (Z.of_nat 6)) < List.length colors)
    by (simpl; lia).
  apply List.nth_error_Some in L.
  destruct (List.nth_error colors _) as [c|]; [eauto | contradiction].
Qed.

(** ** The renderer *)

Lemma draws_loop {A} (Fp : A -> list (float * float)) (Fa : A -> list (Z * Z))
    (Fm : A -> list (Z * Rectangle * Point)) l i evs :
  loopEvents (fun _ x e => draws e (Fp x) (Fa x) (Fm x)) l i evs ->
  draws evs (List.flat_map Fp l) (List.flat_map Fa l) (List.flat_map Fm l).
Proof.
  intros L. unfold draws. split; [|split].
  - eapply loopEvents_flat_map; [|exact L]. intros ? ? ? H. apply H.
  - eapply loopEvents_flat_map; [|exact L]. intros ? ? ? H. apply H.
  - eapply loopEvents_flat_map; [|exact L]. intros ? ? ? H. apply H.
Qed.

Section RendererFacts.

Variable g : Graphics.
Variable new : loc.

Lemma spec_gcCall c gc :
  gcImage gc = new ->
  spec new (gcCall g c gc) (fun gc' evs => gcImage gc' = new /\ evs = [EvGc new c]).
Proof.
  intros <-. unfold gcCall.
  eapply spec_bind; [apply spec_emit|].
  intros _ e1 ->.
  destruct c; try (apply spec_ret; split; reflexivity).
  eapply spec_bind; [apply spec_paint|].
  intros _ e2 ->. apply spec_ret. split; reflexivity.
Qed.

Lemma spec_DrawString fc s x y :
  fcDst fc = new ->
  spec new (DrawString g fc s x y) (fun _ evs => evs = [EvDrawString fc s x y]).
Proof.
  intros D. unfold DrawString. rewrite D.
  eapply spec_bind; [apply spec_emit|].
  intros _ e1 ->.
  eapply spec_bind; [apply spec_load|].
  intros d e2 ->.
  eapply spec_bind; [apply spec_paint|].
  intros _ e3 ->. apply spec_ret. reflexivity.
Qed.

Lemma spec_PixelateAt size region pt :
  spec new (PixelateAt g new size region pt)
       (fun _ evs => evs = [EvPixelate new size region pt]).
Proof.
  unfold PixelateAt.
  eapply spec_bind; [apply spec_emit|].
  intros _ e1 ->.
  eapply spec_weaken; [apply spec_paint|].
  intros _ e2 ->. reflexivity.
Qed.

Lemma spec_labelContext color :
  spec new (labelContext new color)
       (fun fc evs => evs = [] /\ fcDst fc = new /\ fcDPI fc = 72%float).
Proof.
  unfold labelContext.
  eapply spec_bind; [apply spec_load|].
  intros cur e1 ->. apply spec_ret. repeat split.
Qed.

Lemma spec_reportDrawError err :
  spec new (reportDrawError err) (fun _ evs => draws evs [] [] []).
Proof.
  destruct err as [e|]; simpl.
  - eapply spec_weaken; [apply spec_emit|]. intros _ e1 ->. repeat split.
  - apply spec_ret. repeat split.
Qed.

Lemma spec_colorForIndex i :
  spec new (deref (colorForIndex (Z.of_nat i))) (fun _ evs => evs = []).
Proof.
  destruct (colorForIndex_total i) as [c ->]. apply spec_deref. reflexivity.
Qed.

End RendererFacts.

Ltac gc_step :=
  eapply spec_bind; [apply spec_gcCall; assumption | intros ? ? [? ->]].

Ltac gc_last :=
  eapply spec_weaken; [apply spec_gcCall; assumption | intros ? ? [? ->]].

Lemma map_flat_map {A B C} (f : B -> C) (h : A -> list B) (l : list A) :
  List.map f (List.flat_map h l) = List.flat_map (fun x => List.map f (h x)) l.
Proof.
  induction l as [|x l IH]; simpl; [reflexivity|].
  rewrite List.map_app, IH. reflexivity.
Qed.

Lemma flat_map_nothing {A B} (l : list A) :
  List.flat_map (fun _ => @nil B) l = [].
Proof. induction l; auto. Qed.

Section FaceFacts.

Variable g : Graphics.
Variable new : loc.
Variables width height : float.

Lemma spec_markPoint p gc :
  gcImage gc = new ->
  spec new (markPoint g width height p gc)
       (fun gc' evs =>
          gcImage gc' = new
          /\ draws evs [toPixels width height (fpX p, fpY p);
                        toPixels width height (fpX p, fpY p)] [] []).
Proof.
  intros G. unfold markPoint.
  do 3 gc_step. gc_last. split; [assumption|]. repeat split.
Qed.

Lemma spec_markPoints ps gc :
  gcImage gc = new ->
  spec new (markPoints g width height ps gc)
       (fun gc' evs =>
          gcImage gc' = new
          /\ draws evs
               (List.flat_map (fun p => [toPixels width height (fpX p, fpY p);
                                         toPixels width height (fpX p, fpY p)]) ps)
               [] []).
Proof.
  intros G. unfold markPoints.
  eapply spec_weaken.
  - apply (spec_forRange new _ (fun gc => gcImage gc = new)
             (fun _ p e => draws e [toPixels width height (fpX p, fpY p);
                                    toPixels width height (fpX p, fpY p)] [] [])).
    + intros i p gc0 G0. apply spec_markPoint. exact G0.
    + exact G.
  - intros gc' evs [G' L]. split; [exact G'|].
    apply (draws_loop _ (fun _ => []) (fun _ => [])) in L.
    rewrite !flat_map_nothing in L. exact L.
Qed.

Lemma facePoints_DetectFaces f :
  facePoints DetectFaces width height f
  = List.app
      (List.map (toPixels width height) (faceOutline f))
      (List.flat_map (fun p => [toPixels width height (fpX p, fpY p);
                                toPixels width height (fpX p, fpY p)])
         (List.app (Nose (faceFacialPoints f))
            (List.app (RightEye (faceFacialPoints f))
               (List.app (LeftEye (faceFacialPoints f))
                  (Lip (faceFacialPoints f)))))).
Proof.
  unfold facePoints, faceLandmarks. simpl String.eqb. cbv iota.
  rewrite List.map_app, map_flat_map. reflexivity.
Qed.

End FaceFacts.

Section FaceLoop.

Variable g : Graphics.
Variable new : loc.
Variables width height : float.
Variable command : VisionCommand.

Lemma spec_drawFace i f gc :
  gcImage gc = new ->
  spec new (drawFace g new width height command i f gc)
       (fun gc' evs =>
          gcImage gc' = new
          /\ draws evs (facePoints command width height f)
               (faceAnchors g command width height f)
               (faceMasks command width height f)).
Proof.
  intros G. unfold drawFace, faceAnchors, faceMasks.
  destruct (String.eqb command DetectFaces) eqn:E.
  - apply String.eqb_eq in E. subst command.
    rewrite facePoints_DetectFaces.
    eapply spec_bind; [apply spec_colorForIndex|]. intros color e0 ->.
    eapply spec_bind; [apply spec_labelContext|]. intros fc e1 [-> [D P]].
    do 8 gc_step.
    eapply spec_bind; [apply spec_DrawString; exact D|]. intros err e2 ->.
    eapply spec_bind; [apply spec_reportDrawError|]. intros ? e3 D3.
    eapply spec_bind; [apply spec_markPoints; assumption|]. intros gc1 m1 [G1 D1].
    eapply spec_bind; [apply spec_markPoints; assumption|]. intros gc2 m2 [G2 D2].
    eapply spec_bind; [apply spec_markPoints; assumption|]. intros gc3 m3 [G3 D4].
    eapply spec_weaken; [apply spec_markPoints; assumption|]. intros gc4 m4 [G4 D5].
    split; [exact G4|].
    rewrite P. simpl in D3. unfold draws in *.
    destruct D3 as [P3 [A3 M3]], D1 as [P1 [A1 M1]], D2 as [P2 [A2 M2]],
             D4 as [P4 [A4 M4]], D5 as [P5 [A5 M5]].
    unfold pathPoints, labelAnchors, pixelatedRegions in *.
    rewrite !List.flat_map_app.
    rewrite P1, P2, P3, P4, P5, A1, A2, A3, A4, A5, M1, M2, M3, M4, M5.
    repeat split.
  - destruct (String.eqb command MaskFaces) eqn:E2.
    + unfold facePoints. rewrite E.
      eapply spec_bind; [apply spec_PixelateAt|]. intros _ e1 ->.
      apply spec_ret. split; [exact G|]. repeat split.
    + unfold facePoints. rewrite E.
      apply spec_ret. split; [exact G|]. repeat split.
Qed.

(** The three calls around the loop and the loop itself, on the copy. *)
Lemma spec_drawFaces faces :
  spec new
    (let* gc := gcCall g (SetLineWidth StrokeWidth) (NewGraphicContext new) in
     let* gc := gcCall g (SetFillColor Transparent) gc in
     let* gc := forRange (drawFace g new width height command) faces 0 gc in
     let* gc := gcCall g Save gc in
     ret new)
    (fun r evs =>
       r = new
       /\ draws evs
            (List.flat_map (facePoints command width height) faces)
            (List.flat_map (faceAnchors g command width height) faces)
            (List.flat_map (faceMasks command width height) faces)).
Proof.
  eapply spec_bind; [apply spec_gcCall; reflexivity|]. intros gc0 e0 [G0 ->].
  gc_step.
  eapply spec_bind.
  { apply (spec_forRange new _ (fun gc => gcImage gc = new)
             (fun _ f e => draws e (facePoints command width height f)
                                 (faceAnchors g command width height f)
                                 (faceMasks command width height f))).
    - intros i f gc G. apply spec_drawFace. exact G.
    - assumption. }
  intros gc1 e1 [G1 L]. apply draws_loop in L.
  gc_step. apply spec_ret. split; [reflexivity|].
  unfold draws in *. destruct L as [LP [LA LM]].
  unfold pathPoints, labelAnchors, pixelatedRegions in *.
  rewrite !List.flat_map_app, LP, LA, LM. simpl.
  rewrite !List.app_nil_r. repeat split.
Qed.

End FaceLoop.

Section ProductAndPoseFacts.

Variable g : Graphics.
Variable new : loc.

Lemma spec_drawProduct width height i o st :
  gcImage (fst st) = new ->
  spec new (drawProduct g new width height i o st)
       (fun st' _ => gcImage (fst st') = new /\ True).
Proof.
  intros G. unfold drawProduct.
  eapply spec_bind; [apply spec_colorForIndex|]. intros color e0 ->.
  eapply spec_bind; [apply spec_labelContext|]. intros fc e1 [-> [D P]].
  do 8 gc_step.
  eapply spec_bind; [apply spec_DrawString; exact D|]. intros err e2 ->.
  eapply spec_bind; [apply spec_reportDrawError|]. intros ? e3 _.
  apply spec_ret. split; [assumption | exact I].
Qed.

Lemma spec_drawProducts width height objects :
  spec new
    (let* gc := gcCall g (SetLineWidth StrokeWidth) (NewGraphicContext new) in
     let* gc := gcCall g (SetFillColor Transparent) gc in
     let* st := forRange (drawProduct g new width height) objects 0 (gc, []) in
     let* gc := gcCall g Save (fst st) in
     ret (new, snd st))
    (fun r _ => fst r = new).
Proof.
  eapply spec_bind; [apply spec_gcCall; reflexivity|]. intros gc0 e0 [G0 ->].
  gc_step.
  eapply spec_bind.
  { apply (spec_forRange new _ (fun st => gcImage (fst st) = new)
             (fun _ _ _ => True)).
    - intros i o st G. apply spec_drawProduct. exact G.
    - assumption. }
  intros st e1 [G1 _].
  gc_step. apply spec_ret. reflexivity.
Qed.

Lemma spec_posePoint xy gc :
  gcImage gc = new ->
  spec new (posePoint g xy gc) (fun gc' _ => gcImage gc' = new).
Proof.
  intros G. unfold posePoint. do 3 gc_step. gc_last. assumption.
Qed.

Lemma spec_poseLine from to gc :
  gcImage gc = new ->
  spec new (poseLine g from to gc) (fun gc' _ => gcImage gc' = new).
Proof.
  intros G. unfold poseLine. do 3 gc_step. gc_last. assumption.
Qed.

Ltac pose_step :=
  eapply spec_bind;
  [ lazymatch goal with
    | |- spec _ (posePoint _ _ _) _ => apply spec_posePoint
    | |- spec _ (poseLine _ _ _ _) _ => apply spec_poseLine
    end; assumption
  | intros ? ? ? ].

Lemma spec_drawPose i pose gc :
  gcImage gc = new ->
  spec new (drawPose g i pose gc) (fun gc' _ => gcImage gc' = new /\ True).
Proof.
  intros G. unfold drawPose.
  eapply spec_bind; [apply spec_colorForIndex|]. intros color e0 ->.
  gc_step. cbv zeta.
  do 28 pose_step.
  eapply spec_weaken; [apply spec_poseLine; assumption|].
  intros ? ? ?. split; [assumption | exact I].
Qed.

Lemma spec_drawPoses analyzed :
  spec new
    (let* gc := gcCall g (SetLineWidth StrokeWidth) (NewGraphicContext new) in
     let* gc := gcCall g (SetFillColor Transparent) gc in
     let* gc := forRange (drawPose g) analyzed 0 gc in
     let* gc := gcCall g Save gc in
     ret new)
    (fun r _ => r = new).
Proof.
  eapply spec_bind; [apply spec_gcCall; reflexivity|]. intros gc0 e0 [G0 ->].
  gc_step.
  eapply spec_bind.
  { apply (spec_forRange new _ (fun gc => gcImage gc = new) (fun _ _ _ => True)).
    - intros i p gc G. apply spec_drawPose. exact G.
    - assumption. }
  intros gc1 e1 [G1 _].
  gc_step. apply spec_ret. reflexivity.
Qed.

End ProductAndPoseFacts.

(** The copy is a new buffer; the source and every other buffer stay. *)
Lemma copyToNewImage_run g img im w :
  heap w !! img = Some im ->
  (fresh (dom (heap w)) ∉ dom (heap w))
  /\ fresh (dom (heap w)) <> img
  /\ copyToNewImage g img w
     = Some (fresh (dom (heap w)),
             {| fileIDs := fileIDs w;
                heap := <[fresh (dom (heap w)) := copyOf g im]> (heap w);
                trace := trace w; pending := pending w |}).
Proof.
  intros H.
  pose proof (is_fresh (dom (heap w))) as F.
  assert (N : fresh (dom (heap w)) <> img).
  { intros E. apply F. rewrite E. apply elem_of_dom. eauto. }
  split; [exact F|]. split; [exact N|].
  unfold copyToNewImage, bind, load, alloc, draw_Draw, paint, bind, load.
  rewrite H. simpl.
  rewrite lookup_insert_ne by exact N. rewrite H. simpl.
  rewrite lookup_insert_eq. rewrite insert_insert_eq. reflexivity.
Qed.

(** A renderer is the copy followed by drawing on the copy. *)
Lemma render_from_copy {A} g img im (rest : loc -> M A)
    (Q : loc -> A -> list Event -> Prop) w :
  heap w !! img = Some im ->
  (forall new, spec new (rest new) (Q new)) ->
  exists a evs w',
    (let* newImg := copyToNewImage g img in rest newImg) w = Some (a, w')
    /\ trace w' = List.app (trace w) evs
    /\ Q (fresh (dom (heap w))) a evs
    /\ (fresh (dom (heap w)) ∉ dom (heap w))
    /\ is_Some (heap w' !! fresh (dom (heap w)))
    /\ heap w' !! img = Some im
    /\ (forall l, l <> fresh (dom (heap w)) -> heap w' !! l = heap w !! l)
    /\ fileIDs w' = fileIDs w /\ pending w' = pending w.
Proof.
  intros H S.
  destruct (copyToNewImage_run g img im w H) as [F [N C]].
  unfold bind. rewrite C.
  destruct (S (fresh (dom (heap w)))
              {| fileIDs := fileIDs w;
                 heap := <[fresh (dom (heap w)) := copyOf g im]> (heap w);
                 trace := trace w; pending := pending w |})
    as [a [evs [w' [R [T [[FN FO FF FP] Qa]]]]]].
  { simpl. rewrite lookup_insert_eq. eauto. }
  exists a, evs, w'. split; [exact R|]. split; [exact T|]. split; [exact Qa|].
  split; [exact F|]. split; [exact FN|].
  assert (O : forall l, l <> fresh (dom (heap w)) -> heap w' !! l = heap w !! l).
  { intros l L. rewrite FO by exact L. simpl. apply lookup_insert_ne. congruence. }
  split; [rewrite O by congruence; exact H|].
  split; [exact O|]. split; [exact FF | exact FP].
Qed.

(** C7. For every face record of a detection response, whatever the decoded
    image is: the coordinates that [processImageForFaces] gives to the
    graphic context are the normalized coordinates of the record (the
    outline of its rectangle, then its landmarks) multiplied by the width
    and the height that the response declares; the label is anchored, and
    the mask of "Mask Faces" is placed, at coordinates scaled the same way.
    The bounds of the decoded image enter none of them. *)
Theorem C7_faces_scaled_by_response g img im detected command w :
  heap w !! img = Some im ->
  exists newImg w' evs,
    processImageForFaces g img detected command w = Some (newImg, w')
    /\ trace w' = List.app (trace w) evs
    /\ pathPoints evs
       = List.flat_map
           (facePoints command (float64_of_int (faceWidth detected))
                       (float64_of_int (faceHeight detected)))
           (Faces detected)
    /\ labelAnchors evs
       = List.flat_map
           (faceAnchors g command (float64_of_int (faceWidth detected))
                        (float64_of_int (faceHeight detected)))
           (Faces detected)
    /\ pixelatedRegions evs
       = List.flat_map
           (faceMasks command (float64_of_int (faceWidth detected))
                      (float64_of_int (faceHeight detected)))
           (Faces detected).
Proof.
  intros H. unfold processImageForFaces. cbv zeta.
  destruct (render_from_copy g img im _ _ w H
              (fun new => spec_drawFaces g new
                            (float64_of_int (faceWidth detected))
                            (float64_of_int (faceHeight detected))
                            command (Faces detected)))
    as [a [evs [w' [R [T [[_ [P [A Mk]]] _]]]]]].
  exists a, w', evs. auto.
Qed.

Lemma C7_faces_scaled_by_response_witness :
  exists newImg w' evs,
    processImageForFaces sampleGraphics 1%positive sampleDetectedFace DetectFaces
      worldWithImage = Some (newImg, w')
    /\ trace w' = List.app (trace worldWithImage) evs
    /\ pathPoints evs
       = List.flat_map
           (facePoints DetectFaces (float64_of_int 200) (float64_of_int 100))
           [sampleFace]
    /\ labelAnchors evs
       = List.flat_map
           (faceAnchors sampleGraphics DetectFaces (float64_of_int 200)
                        (float64_of_int 100))
           [sampleFace]
    /\ pixelatedRegions evs
       = List.flat_map
           (faceMasks DetectFaces (float64_of_int 200) (float64_of_int 100))
           [sampleFace].
Proof.
  apply (C7_faces_scaled_by_response sampleGraphics 1%positive sampleImage
           sampleDetectedFace DetectFaces worldWithImage).
  apply (lookup_insert_eq (M := gmap loc)).
Defined.

(** C8. Each of the three renderers, for every input image, detection
    result and command, returns a buffer that was not allocated before the
    call, and leaves the input image (and every other buffer that existed)
    as it was; the file-reference store is not touched either. *)
Theorem C8_rendering_does_not_mutate g img im w :
  heap w !! img = Some im ->
  (forall detected command,
     exists newImg w',
       processImageForFaces g img detected command w = Some (newImg, w')
       /\ (newImg ∉ dom (heap w)) /\ is_Some (heap w' !! newImg)
       /\ heap w' !! img = Some im
       /\ (forall l, l <> newImg -> heap w' !! l = heap w !! l)
       /\ fileIDs w' = fileIDs w)
  /\ (forall detected,
       exists newImg classes w',
         processImageForProducts g img detected w = Some (newImg, classes, w')
         /\ (newImg ∉ dom (heap w)) /\ is_Some (heap w' !! newImg)
         /\ heap w' !! img = Some im
         /\ (forall l, l <> newImg -> heap w' !! l = heap w !! l)
         /\ fileIDs w' = fileIDs w)
  /\ (forall analyzed,
       exists newImg w',
         processImageForPoses g img analyzed w = Some (newImg, w')
         /\ (newImg ∉ dom (heap w)) /\ is_Some (heap w' !! newImg)
         /\ heap w' !! img = Some im
         /\ (forall l, l <> newImg -> heap w' !! l = heap w !! l)
         /\ fileIDs w' = fileIDs w).
Proof.
  intros H. split; [|split].
  - intros detected command. unfold processImageForFaces. cbv zeta.
    destruct (render_from_copy g img im _ _ w H
                (fun new => spec_drawFaces g new
                              (float64_of_int (faceWidth detected))
                              (float64_of_int (faceHeight detected))
                              command (Faces detected)))
      as [a [evs [w' [R [T [[-> _] [F [N [S [O [FI _]]]]]]]]]]].
    eexists _, w'. split; [exact R|]. auto.
  - intros detected. unfold processImageForProducts. cbv zeta.
    destruct (render_from_copy g img im _ _ w H
                (fun new => spec_drawProducts g new
                              (float64_of_int (productWidth detected))
                              (float64_of_int (productHeight detected))
                              (Objects detected)))
      as [[a cl] [evs [w' [R [T [E [F [N [S [O [FI _]]]]]]]]]]].
    simpl in E. subst a.
    eexists _, cl, w'. split; [exact R|]. auto.
  - intros analyzed. unfold processImageForPoses.
    destruct (render_from_copy g img im _ _ w H
                (fun new => spec_drawPoses g new analyzed))
      as [a [evs [w' [R [T [-> [F [N [S [O [FI _]]]]]]]]]]].
    eexists _, w'. split; [exact R|]. auto.
Qed.

Lemma C8_rendering_does_not_mutate_witness :
  (exists newImg w',
     processImageForFaces sampleGraphics 1%positive sampleDetectedFace MaskFaces
       worldWithImage = Some (newImg, w')
     /\ (newImg ∉ dom (heap worldWithImage)) /\ is_Some (heap w' !! newImg)
     /\ heap w' !! 1%positive = Some sampleImage
     /\ (forall l, l <> newImg -> heap w' !! l = heap worldWithImage !! l)
     /\ fileIDs w' = fileIDs worldWithImage)
  /\ (exists newImg classes w',
       processImageForProducts sampleGraphics 1%positive sampleDetectedProduct
         worldWithImage = Some (newImg, classes, w')
       /\ (newImg ∉ dom (heap worldWithImage)) /\ is_Some (heap w' !! newImg)
       /\ heap w' !! 1%positive = Some sampleImage
       /\ (forall l, l <> newImg -> heap w' !! l = heap worldWithImage !! l)
       /\ fileIDs w' = fileIDs worldWithImage)
  /\ (exists newImg w',
       processImageForPoses sampleGraphics 1%positive [samplePose]
         worldWithImage = Some (newImg, w')
       /\ (newImg ∉ dom (heap worldWithImage)) /\ is_Some (heap w' !! newImg)
       /\ heap w' !! 1%positive = Some sampleImage
       /\ (forall l, l <> newImg -> heap w' !! l = heap worldWithImage !! l)
       /\ fileIDs w' = fileIDs worldWithImage).
Proof.
  destruct (C8_rendering_does_not_mutate sampleGraphics 1%positive sampleImage
              worldWithImage (lookup_insert_eq (M := gmap loc) _ _ _))
    as [F [P S]].
  split; [apply F | split; [apply P | apply S]].
Defined.

(** ** The worker *)

Section WorkerFacts.

Variable b : Bot.
Variable env : Env.
Variable chatID : Z.

(** [processImage] around its [switch]: the typing notice and the
    download before, the deletion of the menu and the report of the
    error, if any, after. *)
Lemma processImage_run messageID url command imgBytes message w w1 :
  httpGet env url = inr imgBytes ->
  processCommand b env chatID imgBytes command
    (withEvents w [EvSendChatAction chatID ChatActionTyping; EvHTTPGet url])
  = Some (message, w1) ->
  processImage b env chatID messageID url command w
  = Some (tt,
          if String.eqb message ""
          then withEvents w1 [EvDeleteMessage chatID messageID]
          else withEvents w1 [EvDeleteMessage chatID messageID;
                              EvSendMessage chatID message None None;
                              EvLogError message]).
Proof.
  intros H P. unfold processImage, bind, SendChatAction, readBytes, bind.
  simpl. rewrite H.
  change {| fileIDs := fileIDs w; heap := heap w;
            trace := ((trace w ++ [EvSendChatAction chatID ChatActionTyping])
                      ++ [EvHTTPGet url])%list;
            pending := pending w |}
    with (withEvents (withEvents w [EvSendChatAction chatID ChatActionTyping])
                     [EvHTTPGet url]).
  rewrite withEvents_app. simpl List.app. rewrite P.
  unfold DeleteMessage. simpl.
  destruct (String.eqb message ""); simpl.
  - reflexivity.
  - unfold SendMessage, bind, logError, emit. simpl.
    unfold withEvents. simpl. rewrite <- !List.app_assoc. reflexivity.
Qed.

Lemma processImage_read_failure messageID url command err w :
  httpGet env url = inl err ->
  processImage b env chatID messageID url command w
  = Some (tt,
          withEvents w
            [EvSendChatAction chatID ChatActionTyping; EvHTTPGet url;
             EvDeleteMessage chatID messageID;
             EvSendMessage chatID ("Failed to read file from " ++ url ++ ": " ++ err)
                           None None;
             EvLogError ("Failed to read file from " ++ url ++ ": " ++ err)]).
Proof.
  intros H. unfold processImage, bind, SendChatAction, readBytes, bind.
  simpl. rewrite H. simpl. unfold SendMessage, bind, logError, emit. simpl.
  unfold withEvents. simpl. rewrite <- !List.app_assoc. reflexivity.
Qed.

Lemma processCommand_no_face imgBytes detected w :
  kakaoDetectFace (kakaoClient env) imgBytes threshold07 = inr detected ->
  Faces detected = [] ->
  processCommand b env chatID imgBytes DetectFaces w
  = Some ("No face detected on this image.",
          withEvents w [EvKakao (DetectFaceFromBytes imgBytes threshold07)]).
Proof.
  intros K F. unfold processCommand. simpl (String.eqb _ _ || _).
  unfold kakao, bind. simpl. rewrite K, F. reflexivity.
Qed.

Lemma processCommand_face_error imgBytes err w :
  kakaoDetectFace (kakaoClient env) imgBytes threshold07 = inl err ->
  processCommand b env chatID imgBytes DetectFaces w
  = Some ("Failed to detect faces: " ++ err,
          withEvents w [EvKakao (DetectFaceFromBytes imgBytes threshold07)]).
Proof.
  intros K. unfold processCommand. simpl (String.eqb _ _ || _).
  unfold kakao, bind. simpl. rewrite K. reflexivity.
Qed.

Lemma processCommand_no_product imgBytes detected w :
  kakaoDetectProduct (kakaoClient env) imgBytes threshold07 = inr detected ->
  Objects detected = [] ->
  processCommand b env chatID imgBytes DetectProducts w
  = Some ("No product detected on this image.",
          withEvents w [EvKakao (DetectProductFromBytes imgBytes threshold07)]).
Proof.
  intros K F. unfold processCommand. simpl (String.eqb _ _ || _).
  simpl (String.eqb _ _).
  unfold kakao, bind. simpl. rewrite K, F. reflexivity.
Qed.

Lemma processCommand_no_tag imgBytes generated w :
  kakaoGenerateTags (kakaoClient env) imgBytes = inr generated ->
  Labels generated = [] ->
  processCommand b env chatID imgBytes Tag w
  = Some ("Could not tag given image.",
          withEvents w [EvKakao (GenerateTagsFromBytes imgBytes)]).
Proof.
  intros K F. unfold processCommand. simpl (String.eqb _ _ || _).
  simpl (String.eqb _ _).
  unfold kakao, bind. simpl. rewrite K, F. reflexivity.
Qed.

(** No word recognized: the answer is sent all the same, with nothing
    after the heading. *)
Lemma processCommand_no_text imgBytes detected w :
  kakaoDetectText (kakaoClient env) imgBytes = inr detected ->
  List.concat (List.map RecognizedWords detected) = [] ->
  processCommand b env chatID imgBytes ExtractTexts w
  = Some (match botSendMessage b chatID
                  ("Process result of 'Extract Texts':" ++ newline ++ newline)
                  None None with
          | inr _ => ""
          | inl description => "Failed to send extracted texts: " ++ description
          end,
          withEvents w
            [EvKakao (DetectTextFromBytes imgBytes);
             EvSendMessage chatID
               ("Process result of 'Extract Texts':" ++ newline ++ newline
                ++ Strings.Join [] ", ")
               None None]).
Proof.
  intros K F. unfold processCommand. simpl (String.eqb _ _ || _).
  simpl (String.eqb _ _).
  unfold kakao, bind. simpl. rewrite K, F.
  unfold SendMessage, bind. simpl.
  destruct (botSendMessage b chatID _ None None); simpl;
    unfold withEvents; simpl; rewrite <- !List.app_assoc; reflexivity.
Qed.

End WorkerFacts.

(** No pose found: the picture is decoded, copied, and the copy is encoded
    and sent as it is; nothing is painted on it. *)
Lemma processCommand_no_pose b env chatID imgBytes im buf w :
  kakaoAnalyzePose (kakaoClient env) imgBytes = inr [] ->
  imageDecode env imgBytes = inr im ->
  jpegEncode env (copyOf (graphics env) im) = inr buf ->
  processCommand b env chatID imgBytes AnalyzePoses w
  = Some (match botSendPhoto b chatID buf "Process result of 'Analyze Poses'" with
          | inr _ => ""
          | inl description => "Failed to send image: " ++ description
          end,
          {| fileIDs := fileIDs w;
             heap := <[fresh (dom (<[fresh (dom (heap w)) := im]> (heap w)))
                       := copyOf (graphics env) im]>
                       (<[fresh (dom (heap w)) := im]> (heap w));
             trace :=
               List.app (trace w)
                 [EvKakao (AnalyzePoseFromBytes imgBytes);
                  EvGc (fresh (dom (<[fresh (dom (heap w)) := im]> (heap w))))
                       (SetLineWidth StrokeWidth);
                  EvGc (fresh (dom (<[fresh (dom (heap w)) := im]> (heap w))))
                       (SetFillColor Transparent);
                  EvGc (fresh (dom (<[fresh (dom (heap w)) := im]> (heap w)))) Save;
                  EvSendChatAction chatID ChatActionUploadPhoto;
                  EvSendPhoto chatID buf "Process result of 'Analyze Poses'"];
             pending := pending w |}).
Proof.
  intros K D E. unfold processCommand. simpl (String.eqb _ _ || _).
  simpl (String.eqb _ _).
  unfold kakao, bind, emit, ret. rewrite K.
  unfold image_Decode. rewrite D. unfold bind, alloc, ret.
  unfold processImageForPoses, bind. cbn [fileIDs heap trace pending].
  match goal with
  | |- context [copyToNewImage ?g ?img ?w0] =>
      destruct (copyToNewImage_run g img im w0) as [_ [_ C]];
      [apply lookup_insert_eq | rewrite C]
  end.
  cbn [fileIDs heap trace pending].
  unfold gcCall, NewGraphicContext, bind, emit, ret, forRange.
  cbn [fileIDs heap trace pending gcImage gcCalls].
  unfold sendRendered, bind, SendChatAction, load, SendPhoto, bind, emit, ret, deref.
  cbn [fileIDs heap trace pending].
  rewrite lookup_insert_eq. clear C. unfold ret. cbv beta iota. rewrite E.
  cbn [fileIDs heap trace pending gcImage].
  destruct (botSendPhoto b chatID buf _); simpl; rewrite <- !List.app_assoc;
    reflexivity.
Qed.

(** C5. A face-detect request whose download and remote call succeed with
    no face: [processImage] returns, sends exactly one text, "No face
    detected on this image.", and no photo, after exactly one call to the
    vision service. That text is not the one of a failed remote call
    ("Failed to detect faces: ..." with the error) nor the one of a failed
    download. *)
Theorem C5_no_face_detected b env chatID messageID url imgBytes detected w :
  httpGet env url = inr imgBytes ->
  kakaoDetectFace (kakaoClient env) imgBytes threshold07 = inr detected ->
  Faces detected = [] ->
  (exists w' evs,
     processImage b env chatID messageID url DetectFaces w = Some (tt, w')
     /\ trace w' = List.app (trace w) evs
     /\ sentTexts evs = ["No face detected on this image."]
     /\ sentPhotos evs = []
     /\ kakaoCalls evs = [DetectFaceFromBytes imgBytes threshold07])
  /\ (forall env' err w0,
        httpGet env' url = inr imgBytes ->
        kakaoDetectFace (kakaoClient env') imgBytes threshold07 = inl err ->
        exists w1 evs,
          processImage b env' chatID messageID url DetectFaces w0 = Some (tt, w1)
          /\ trace w1 = List.app (trace w0) evs
          /\ sentTexts evs = ["Failed to detect faces: " ++ err]
          /\ sentPhotos evs = []
          /\ "Failed to detect faces: " ++ err <> "No face detected on this image.")
  /\ (forall env' err w0,
        httpGet env' url = inl err ->
        exists w1 evs,
          processImage b env' chatID messageID url DetectFaces w0 = Some (tt, w1)
          /\ trace w1 = List.app (trace w0) evs
          /\ sentTexts evs = ["Failed to read file from " ++ url ++ ": " ++ err]
          /\ sentPhotos evs = []
          /\ "Failed to read file from " ++ url ++ ": " ++ err
             <> "No face detected on this image.").
Proof.
  intros H K F. split; [|split].
  - eexists _, _. split.
    { eapply processImage_run; [exact H|].
      eapply processCommand_no_face; eassumption. }
    split; [simpl; rewrite <- !List.app_assoc; reflexivity|].
    repeat split.
  - intros env' err w0 H' K'. eexists _, _. split.
    { eapply processImage_run; [exact H'|].
      eapply processCommand_face_error; eassumption. }
    split; [simpl; rewrite <- !List.app_assoc; reflexivity|].
    repeat split. discriminate.
  - intros env' err w0 H'. eexists _, _. split.
    { apply processImage_read_failure. exact H'. }
    split; [reflexivity|]. repeat split. discriminate.
Qed.

Lemma C5_no_face_detected_witness :
  exists w' evs,
    processImage sampleBot emptyResultsEnv 1111 42 "https://example.org/photo.jpg"
      DetectFaces initialWorld = Some (tt, w')
    /\ trace w' = List.app (trace initialWorld) evs
    /\ sentTexts evs = ["No face detected on this image."]
    /\ sentPhotos evs = []
    /\ kakaoCalls evs = [DetectFaceFromBytes [Byte.xff; Byte.xd8] threshold07].
Proof.
  apply (C5_no_face_detected sampleBot emptyResultsEnv 1111 42
           "https://example.org/photo.jpg" [Byte.xff; Byte.xd8]
           {| faceWidth := 4; faceHeight := 2; Faces := [] |} initialWorld);
    reflexivity.
Defined.

(** C10. After a successful download: a pose result with no pose still
    gives a photo reply, which is the encoded copy of the decoded picture
    with nothing painted on it (the only text sent, if any, reports that
    the transport refused the photo); a text result with no recognized word
    still gives a text reply, the heading followed by the empty join (and a
    second text only when the transport refused the first). For faces,
    products and tags an empty result gives no photo and the one text
    saying that nothing was found. *)
Theorem C10_empty_pose_and_text_are_answered
    b env chatID messageID url imgBytes w :
  httpGet env url = inr imgBytes ->
  (forall im buf,
     kakaoAnalyzePose (kakaoClient env) imgBytes = inr [] ->
     imageDecode env imgBytes = inr im ->
     jpegEncode env (copyOf (graphics env) im) = inr buf ->
     exists w' evs,
       processImage b env chatID messageID url AnalyzePoses w = Some (tt, w')
       /\ trace w' = List.app (trace w) evs
       /\ sentPhotos evs = [(buf, "Process result of 'Analyze Poses'")]
       /\ overlays evs = []
       /\ sentTexts evs
          = match botSendPhoto b chatID buf "Process result of 'Analyze Poses'" with
            | inr _ => []
            | inl description => ["Failed to send image: " ++ description]
            end)
  /\ (forall detected,
        kakaoDetectText (kakaoClient env) imgBytes = inr detected ->
        List.concat (List.map RecognizedWords detected) = [] ->
        exists w' evs,
          processImage b env chatID messageID url ExtractTexts w = Some (tt, w')
          /\ trace w' = List.app (trace w) evs
          /\ sentPhotos evs = []
          /\ sentTexts evs
             = ("Process result of 'Extract Texts':" ++ newline ++ newline
                ++ Strings.Join [] ", ")
               :: match botSendMessage b chatID
                          ("Process result of 'Extract Texts':" ++ newline ++ newline)
                          None None with
                  | inr _ => []
                  | inl description =>
                      ["Failed to send extracted texts: " ++ description]
                  end
          /\ Strings.Join [] ", " = "")
  /\ (forall detected,
        kakaoDetectFace (kakaoClient env) imgBytes threshold07 = inr detected ->
        Faces detected = [] ->
        exists w' evs,
          processImage b env chatID messageID url DetectFaces w = Some (tt, w')
          /\ trace w' = List.app (trace w) evs
          /\ sentPhotos evs = []
          /\ sentTexts evs = ["No face detected on this image."])
  /\ (forall detected,
        kakaoDetectProduct (kakaoClient env) imgBytes threshold07 = inr detected ->
        Objects detected = [] ->
        exists w' evs,
          processImage b env chatID messageID url DetectProducts w = Some (tt, w')
          /\ trace w' = List.app (trace w) evs
          /\ sentPhotos evs = []
          /\ sentTexts evs = ["No product detected on this image."])
  /\ (forall generated,
        kakaoGenerateTags (kakaoClient env) imgBytes = inr generated ->
        Labels generated = [] ->
        exists w' evs,
          processImage b env chatID messageID url Tag w = Some (tt, w')
          /\ trace w' = List.app (trace w) evs
          /\ sentPhotos evs = []
          /\ sentTexts evs = ["Could not tag given image."]).
Proof.
  intros H. split; [|split; [|split; [|split]]].
  - intros im buf K D E.
    pose proof (processImage_run b env chatID messageID url AnalyzePoses imgBytes
                  _ w _ H (processCommand_no_pose b env chatID imgBytes im buf _
                             K D E)) as R.
    destruct (botSendPhoto b chatID buf _) as [d|[]];
      cbn [String.eqb String.append] in R; eexists _, _; (split; [exact R|]);
      (split; [simpl; rewrite <- !List.app_assoc; reflexivity|]); repeat split.
  - intros detected K E.
    pose proof (processImage_run b env chatID messageID url ExtractTexts imgBytes
                  _ w _ H (processCommand_no_text b env chatID imgBytes detected _
                             K E)) as R.
    destruct (botSendMessage b chatID _ None None) as [d|[]];
      cbn [String.eqb String.append] in R; eexists _, _; (split; [exact R|]);
      (split; [simpl; rewrite <- !List.app_assoc; reflexivity|]); repeat split.
  - intros detected K E. eexists _, _. split.
    { eapply processImage_run; [exact H|].
      eapply processCommand_no_face; eassumption. }
    split; [simpl; rewrite <- !List.app_assoc; reflexivity|]. repeat split.
  - intros detected K E. eexists _, _. split.
    { eapply processImage_run; [exact H|].
      eapply processCommand_no_product; eassumption. }
    split; [simpl; rewrite <- !List.app_assoc; reflexivity|]. repeat split.
  - intros generated K E. eexists _, _. split.
    { eapply processImage_run; [exact H|].
      eapply processCommand_no_tag; eassumption. }
    split; [simpl; rewrite <- !List.app_assoc; reflexivity|]. repeat split.
Qed.

Lemma C10_empty_pose_and_text_are_answered_witness :
  (exists w' evs,
     processImage sampleBot emptyResultsEnv 1111 42 "https://example.org/photo.jpg"
       AnalyzePoses initialWorld = Some (tt, w')
     /\ trace w' = List.app (trace initialWorld) evs
     /\ sentPhotos evs
        = [(Pix (copyOf sampleGraphics sampleImage), "Process result of 'Analyze Poses'")]
     /\ overlays evs = []
     /\ sentTexts evs = [])
  /\ (exists w' evs,
        processImage sampleBot emptyResultsEnv 1111 42 "https://example.org/photo.jpg"
          ExtractTexts initialWorld = Some (tt, w')
        /\ trace w' = List.app (trace initialWorld) evs
        /\ sentPhotos evs = []
        /\ sentTexts evs
           = [ "Process result of 'Extract Texts':" ++ newline ++ newline ]
        /\ Strings.Join [] ", " = "")
  /\ (exists w' evs,
        processImage sampleBot emptyResultsEnv 1111 42 "https://example.org/photo.jpg"
          DetectFaces initialWorld = Some (tt, w')
        /\ trace w' = List.app (trace initialWorld) evs
        /\ sentPhotos evs = []
        /\ sentTexts evs = ["No face detected on this image."])
  /\ (exists w' evs,
        processImage sampleBot emptyResultsEnv 1111 42 "https://example.org/photo.jpg"
          DetectProducts initialWorld = Some (tt, w')
        /\ trace w' = List.app (trace initialWorld) evs
        /\ sentPhotos evs = []
        /\ sentTexts evs = ["No product detected on this image."])
  /\ (exists w' evs,
        processImage sampleBot emptyResultsEnv 1111 42 "https://example.org/photo.jpg"
          Tag initialWorld = Some (tt, w')
        /\ trace w' = List.app (trace initialWorld) evs
        /\ sentPhotos evs = []
        /\ sentTexts evs = ["Could not tag given image."]).
Proof.
  destruct (C10_empty_pose_and_text_are_answered sampleBot emptyResultsEnv 1111 42
              "https://example.org/photo.jpg" [Byte.xff; Byte.xd8] initialWorld
              eq_refl) as [P [T [F [O G]]]].
  split; [|split; [|split; [|split]]].
  - apply (P sampleImage (Pix (copyOf sampleGraphics sampleImage))); reflexivity.
  - apply (T []); reflexivity.
  - apply (F {| faceWidth := 4; faceHeight := 2; Faces := [] |}); reflexivity.
  - apply (O {| productWidth := 4; productHeight := 2; Objects := [] |}); reflexivity.
  - apply (G {| Labels := []; LabelsKorean := [] |}); reflexivity.
Defined.


(** * Further properties of the code *)

(** ** Colours *)

(** X1. [colorForIndex] never panics on an index that is not negative, and
    the colours come back every six indices. *)
Theorem colorForIndex_period (i : Z) :
  (0 <= i)%Z ->
  (exists c, colorForIndex i = Some c /\ List.In c colors)
  /\ colorForIndex (i + 6) = colorForIndex i.
Proof.
  intros H. unfold colorForIndex. simpl List.length.
  change (Z.of_nat 6) with 6%Z.
  rewrite !Z.rem_mod_nonneg by lia.
  replace ((i + 6) mod 6)%Z with (i mod 6)%Z
    by (rewrite <- (Z.mul_1_l 6) at 2; rewrite Z.mod_add by lia; reflexivity).
  pose proof (Z.mod_pos_bound i 6 ltac:(lia)) as Bd.
  destruct (Z.ltb_spec (i mod 6) 0) as [N|_]; [lia|].
  split; [|reflexivity].
  assert (L : Z.to_nat (i mod 6) < List.length colors) by (simpl; lia).
  apply List.nth_error_Some in L.
  destruct (List.nth_error colors (Z.to_nat (i mod 6))) as [c|] eqn:E;
    [|contradiction].
  exists c. split; [reflexivity|]. eapply List.nth_error_In. exact E.
Qed.

Lemma colorForIndex_period_witness :
  (exists c, colorForIndex 8 = Some c /\ List.In c colors)
  /\ colorForIndex (8 + 6) = colorForIndex 8.
Proof. apply (colorForIndex_period 8). lia. Defined.

(** ** The callback dispatcher, case by case *)

(** Whatever the callback, the first half of the dispatcher leaves the
    store and the pixel buffers alone, starts one goroutine at most, asks
    the transport for one file at most, and sends nothing. *)
Lemma callbackMessage_effects order b query message w w' :
  callbackMessage order b query w = Some (message, w') ->
  exists evs ts,
    w' = {| fileIDs := fileIDs w; heap := heap w;
            trace := List.app (trace w) evs;
            pending := List.app (pending w) ts |}
    /\ List.length ts <= 1 /\ List.length (fileRequests evs) <= 1
    /\ kakaoCalls evs = [] /\ sentTexts evs = [] /\ sentPhotos evs = []
    /\ editedTexts evs = [] /\ answeredCallbacks evs = []
    /\ (ts <> [] -> exists c, message = "Processing '" ++ c ++ "' on received image...").
Proof.
  unfold callbackMessage, bind, deref, lookupFileID, GetFile, bind, go, emit, ret,
    logError, emit, panic.
  destruct (Data query) as [data|]; [|discriminate].
  destruct (String.eqb data commandCancel).
  { intros H. injection H as <- <-. exists [], [].
    destruct w; simpl; rewrite !List.app_nil_r. repeat split; auto.
    intros N; contradiction. }
  destruct (parseCallbackData data) as [[command key]|].
  2:{ intros H. injection H as <- <-. eexists [_], []. simpl.
      rewrite List.app_nil_r. repeat split; auto. intros N; contradiction. }
  destruct (fileIDs w !! key) as [fileID|].
  2:{ intros H. injection H as <- <-. eexists [_], []. simpl.
      rewrite List.app_nil_r. repeat split; auto. intros N; contradiction. }
  simpl. destruct (botGetFile b fileID) as [d|file].
  { intros H. injection H as <- <-. eexists [_; _], []. simpl.
    rewrite List.app_nil_r, <- List.app_assoc. repeat split; auto.
    intros N; contradiction. }
  destruct (MessageText (QueryMessage query)) as [text|]; [|discriminate].
  destruct (Strings.Contains text "image").
  - intros H. injection H as <- <-. eexists [_; _], [_]. simpl.
    rewrite <- List.app_assoc. repeat split; auto.
    intros _. eexists. reflexivity.
  - intros H. injection H as <- <-. eexists [_], []. simpl.
    rewrite List.app_nil_r. repeat split; auto. intros N; contradiction.
Qed.

(** The second half, with its result. *)
Lemma processCallbackQuery_result order b env query message w w1 :
  callbackMessage order b query w = Some (message, w1) ->
  exists evs,
    processCallbackQuery order b env query w
    = Some (Ok (botAnswerCallbackQuery b (ID query))
            && Ok (botEditMessageText b message (ChatID (QueryMessage query))
                     (MessageID (QueryMessage query))),
            withEvents w1 evs)
    /\ answeredCallbacks evs = [ID query]
    /\ editedTexts evs
       = (if Ok (botAnswerCallbackQuery b (ID query)) then [message] else [])
    /\ kakaoCalls evs = [] /\ fileRequests evs = [] /\ sentTexts evs = []
    /\ sentPhotos evs = [].
Proof.
  intros C. unfold processCallbackQuery, bind. rewrite C.
  unfold AnswerCallbackQuery, bind. simpl.
  destruct (botAnswerCallbackQuery b (ID query)) as [d|[]]; simpl.
  - eexists [_; _]. split.
    { unfold withEvents. simpl. rewrite <- List.app_assoc. reflexivity. }
    repeat split; reflexivity.
  - unfold EditMessageText, bind. simpl.
    destruct (botEditMessageText b message _ _) as [d|[]]; simpl.
    + eexists [_; _; _]. split.
      { unfold withEvents. simpl. rewrite <- !List.app_assoc. reflexivity. }
      repeat split; reflexivity.
    + eexists [_; _]. split.
      { unfold withEvents. simpl. rewrite <- !List.app_assoc. reflexivity. }
      repeat split; reflexivity.
Qed.

(** X2. Whatever the callback, when [processCallbackQuery] returns: the
    file-reference store and the pixel buffers are as before; the callback
    was answered exactly once; one edit of the menu at most was asked for,
    one goroutine at most was started, one file at most was asked of the
    transport; nothing was sent and the vision service was not called. The
    result is [true] exactly when an edit was asked for and the transport
    accepted it. *)
Theorem processCallbackQuery_summary order b env query w r w' :
  processCallbackQuery order b env query w = Some (r, w') ->
  fileIDs w' = fileIDs w /\ heap w' = heap w
  /\ (exists ts, pending w' = List.app (pending w) ts /\ List.length ts <= 1)
  /\ exists evs,
       trace w' = List.app (trace w) evs
       /\ answeredCallbacks evs = [ID query]
       /\ List.length (editedTexts evs) <= 1
       /\ List.length (fileRequests evs) <= 1
       /\ kakaoCalls evs = [] /\ sentTexts evs = [] /\ sentPhotos evs = []
       /\ (r = true <->
           exists m, editedTexts evs = [m]
                     /\ Ok (botEditMessageText b m (ChatID (QueryMessage query))
                               (MessageID (QueryMessage query))) = true).
Proof.
  intros P.
  destruct (callbackMessage order b query w) as [[message w1]|] eqn:C.
  2:{ unfold processCallbackQuery, bind in P. rewrite C in P. discriminate. }
  destruct (callbackMessage_effects _ _ _ _ _ _ C)
    as [e1 [ts [E [Lt [Lf [K1 [S1 [P1 [E1 [A1 _]]]]]]]]]].
  destruct (processCallbackQuery_result order b env query _ _ _ C)
    as [e2 [R [A2 [E2 [K2 [F2 [S2 P2]]]]]]].
  rewrite R in P. injection P as <- <-. subst w1. simpl.
  split; [reflexivity|]. split; [reflexivity|].
  split; [exists ts; auto|].
  exists (List.app e1 e2). split; [symmetry; apply List.app_assoc|].
  unfold answeredCallbacks, editedTexts, fileRequests, kakaoCalls, sentTexts,
    sentPhotos in *.
  rewrite !List.flat_map_app, E1, K1, S1, P1, A1, A2, E2, K2, F2, S2, P2.
  rewrite List.app_nil_r. simpl.
  repeat split; auto.
  - destruct (Ok (botAnswerCallbackQuery b (ID query))); simpl; lia.
  - intros T. apply andb_prop in T. destruct T as [T1 T2].
    rewrite T1. exists message. auto.
  - intros [m [Em Om]].
    destruct (Ok (botAnswerCallbackQuery b (ID query))); [|discriminate].
    injection Em as ->. rewrite Om. reflexivity.
Qed.

Lemma processCallbackQuery_summary_witness :
  fileIDs storedWorld = fileIDs storedWorld /\ heap storedWorld = heap storedWorld
  /\ (exists ts, pending storedWorld = List.app (pending storedWorld) ts
                 /\ List.length ts <= 1)
  /\ exists evs,
       trace (withEvents storedWorld
                [EvAnswerCallbackQuery "4382bfdwdsb323b2d9";
                 EvEditMessageText messageCanceled 1111 42])
       = List.app (trace storedWorld) evs
       /\ answeredCallbacks evs = ["4382bfdwdsb323b2d9"]
       /\ List.length (editedTexts evs) <= 1
       /\ List.length (fileRequests evs) <= 1
       /\ kakaoCalls evs = [] /\ sentTexts evs = [] /\ sentPhotos evs = []
       /\ (true = true <->
           exists m, editedTexts evs = [m]
                     /\ Ok (botEditMessageText sampleBot m 1111 42) = true).
Proof.
  apply (processCallbackQuery_summary allCmds sampleBot offlineEnv
           (sampleQuery "cancel") storedWorld true
           (withEvents storedWorld
              [EvAnswerCallbackQuery "4382bfdwdsb323b2d9";
               EvEditMessageText messageCanceled 1111 42])).
  reflexivity.
Defined.

(** X3. From the menu to the worker. After [genImageInlineKeyboards] stored
    a file handle whose first 32 bytes have no ['/'], the payload of the
    button of any command [c], sent back as a callback on a message whose
    text has "image" in it, finds the whole handle again: the dispatcher
    asks the transport for that handle and, the transport having resolved
    it, starts exactly one goroutine, for [c] and the URL of that file, and
    answers "Processing 'c' on received image...". *)
Theorem menu_callback_round_trip order b fileID w kb w1 c tok query file text :
  Permutation order allCmds ->
  genImageInlineKeyboards order fileID w = Some (kb, w1) ->
  List.In (c, tok) allCmds ->
  Strings.lacks "/" (String.substring 0 32 fileID) = true ->
  Data query = Some (tok ++ "/" ++ String.substring 0 32 fileID) ->
  botGetFile b fileID = inr file ->
  MessageText (QueryMessage query) = Some text ->
  Strings.Contains text "image" = true ->
  List.In [ {| Text := c;
               CallbackData := Some (tok ++ "/" ++ String.substring 0 32 fileID) |} ] kb
  /\ callbackMessage order b query w1
     = Some ("Processing '" ++ c ++ "' on received image...",
             {| fileIDs := fileIDs w1; heap := heap w1;
                trace :=
                  List.app (trace w1)
                    [EvGetFile fileID;
                     EvLogRequest (match Username (From query) with
                                   | None => FirstName (From query)
                                   | Some u => u
                                   end)
                                  (botGetFileURL b file) c];
                pending :=
                  List.app (pending w1)
                    [ {| taskChatID := ChatID (QueryMessage query);
                         taskMessageID := MessageID (QueryMessage query);
                         taskFileURL := botGetFileURL b file;
                         taskCommand := c |} ] |}).
Proof.
  intros P G I K D F T C.
  rewrite genImageInlineKeyboards_unfold in G.
  destruct (String.length fileID <? 32)%nat; [discriminate|].
  injection G as <- <-. split.
  - apply keyboard_rows. left. exists c, tok. split; [|reflexivity].
    exact (Permutation_in _ (Permutation_sym P) I).
  - unfold callbackMessage, bind. rewrite D. simpl deref. unfold ret at 1.
    pose proof (allCmds_tokens_not_cancel c tok (String.substring 0 32 fileID) I)
      as NC.
    change (tok ++ String "/" (String.substring 0 32 fileID))
      with (tok ++ "/" ++ String.substring 0 32 fileID) in NC.
    rewrite NC.
    rewrite (parse_token_key_lacks tok _ (allCmds_tokens_lack_slash c tok I) K).
    unfold lookupFileID. cbn [fileIDs]. rewrite lookup_insert_eq.
    unfold GetFile, bind, emit, ret. rewrite F, T. simpl deref. unfold ret.
    rewrite C.
    destruct (visionCommandForCommand_any_order order c tok P I) as [-> _].
    unfold go, emit. cbn [fileIDs heap trace pending].
    rewrite <- List.app_assoc. reflexivity.
Qed.

Lemma menu_callback_round_trip_witness :
  exists kb,
    genImageInlineKeyboards allCmds sampleFileID initialWorld = Some (kb, storedWorld)
    /\ List.In [ {| Text := Tag;
                   CallbackData := Some "tag/AgACAgUAAxkBAAIBQ2ZmZXhhbXBsZUZp" |} ] kb
    /\ callbackMessage allCmds sampleBot
         (sampleQuery "tag/AgACAgUAAxkBAAIBQ2ZmZXhhbXBsZUZp") storedWorld
       = Some ("Processing 'Tag This Image' on received image...",
               {| fileIDs := fileIDs storedWorld; heap := heap storedWorld;
                  trace :=
                    [EvGetFile sampleFileID;
                     EvLogRequest "alice"
                       ("https://api.telegram.org/file/photos/" ++ sampleFileID) Tag];
                  pending :=
                    [ {| taskChatID := 1111; taskMessageID := 42;
                         taskFileURL :=
                           "https://api.telegram.org/file/photos/" ++ sampleFileID;
                         taskCommand := Tag |} ] |}).
Proof.
  pose proof (genImageInlineKeyboards_unfold allCmds sampleFileID initialWorld) as G.
  change (String.length sampleFileID <? 32)%nat with false in G. cbv iota in G.
  change (genImageInlineKeyboards allCmds sampleFileID initialWorld
          = Some (List.app
                    (NewInlineKeyboardButtonsAsRowsWithCallbackData
                       (List.map (fun kv => (fst kv, snd kv ++ "/"
                                             ++ String.substring 0 32 sampleFileID))
                                 allCmds))
                    [ [ {| Text := titleCancel; CallbackData := Some commandCancel |} ] ],
                  storedWorld)) in G.
  eexists. split; [exact G|].
  apply (menu_callback_round_trip allCmds sampleBot sampleFileID initialWorld _
           storedWorld Tag "tag"
           (sampleQuery "tag/AgACAgUAAxkBAAIBQ2ZmZXhhbXBsZUZp")
           ("photos/" ++ sampleFileID) messageActionImage
           (Permutation_refl _) G);
    try reflexivity.
  simpl. tauto.
Defined.



(** X5. A callback on a message whose text has no "image" in it, for a key
    that is in the store and a handle that the transport resolves: the
    answer is "Unprocessable message.", the transport was asked for the
    file, and no goroutine is started. When the message has no text at all,
    the dispatcher panics (a nil pointer is dereferenced). *)
Theorem callback_on_other_message order b env query data cmd key fileID file w :
  Data query = Some data -> String.eqb data commandCancel = false ->
  parseCallbackData data = Some (cmd, key) ->
  fileIDs w !! key = Some fileID -> botGetFile b fileID = inr file ->
  (forall text,
     MessageText (QueryMessage query) = Some text ->
     Strings.Contains text "image" = false ->
     callbackMessage order b query w
     = Some ("Unprocessable message.", withEvents w [EvGetFile fileID]))
  /\ (MessageText (QueryMessage query) = None ->
      processCallbackQuery order b env query w = None).
Proof.
  intros D C P L F. split.
  - intros text T N. unfold callbackMessage, bind. rewrite D. simpl.
    rewrite C, P. unfold lookupFileID. rewrite L. simpl.
    unfold GetFile, bind. simpl. rewrite F, T. simpl. rewrite N. reflexivity.
  - intros T. unfold processCallbackQuery, callbackMessage, bind. rewrite D. simpl.
    rewrite C, P. unfold lookupFileID. rewrite L. simpl.
    unfold GetFile, bind. simpl. rewrite F, T. reflexivity.
Qed.

Lemma callback_on_other_message_witness :
  callbackMessage allCmds sampleBot
    {| ID := "77"; From := {| Username := None; FirstName := "Bob" |};
       QueryMessage := {| ChatID := 5; MessageID := 6;
                          MessageText := Some "Pick one:" |};
       Data := Some "tag/AgACAgUAAxkBAAIBQ2ZmZXhhbXBsZUZp" |} storedWorld
  = Some ("Unprocessable message.", withEvents storedWorld [EvGetFile sampleFileID]).
Proof.
  apply (proj1 (callback_on_other_message allCmds sampleBot offlineEnv
                  {| ID := "77"; From := {| Username := None; FirstName := "Bob" |};
                     QueryMessage := {| ChatID := 5; MessageID := 6;
                                        MessageText := Some "Pick one:" |};
                     Data := Some "tag/AgACAgUAAxkBAAIBQ2ZmZXhhbXBsZUZp" |}
                  "tag/AgACAgUAAxkBAAIBQ2ZmZXhhbXBsZUZp" "tag"
                  "AgACAgUAAxkBAAIBQ2ZmZXhhbXBsZUZp" sampleFileID
                  ("photos/" ++ sampleFileID) storedWorld
                  eq_refl eq_refl eq_refl
                  (lookup_insert_eq (M := gmap string) _ _ _) eq_refl)
           "Pick one:"); reflexivity.
Defined.

(** ** Incoming messages *)

(** [processUpdate] after the choice of the answer. *)
Lemma processUpdate_send order b m w :
  processUpdate order b m w
  = match (match LargestPhoto m with
           | Some fileID =>
               let* kb := genImageInlineKeyboards order fileID in
               ret (Some kb, messageActionImage)
           | None =>
               match InDocument m with
               | Some d =>
                   let* mime := deref (MimeType d) in
                   if String.prefix "image/" mime then
                     let* kb := genImageInlineKeyboards order (DocumentFileID d) in
                     ret (Some kb, messageActionImage)
                   else ret (None, messageHelp)
               | None => ret (None, messageHelp)
               end
           end) w with
    | Some (choice, w1) =>
        Some (Ok (botSendMessage b (InChatID m) (snd choice) (Some (InMessageID m))
                    (fst choice)),
              withEvents w1
                (EvSendMessage (InChatID m) (snd choice) (Some (InMessageID m))
                               (fst choice)
                 :: match botSendMessage b (InChatID m) (snd choice)
                            (Some (InMessageID m)) (fst choice) with
                    | inr _ => []
                    | inl description =>
                        [EvLogError ("Failed to send message: " ++ description)]
                    end))
    | None => None
    end.
Proof.
  unfold processUpdate. unfold bind at 1.
  match goal with |- match ?c w with _ => _ end = _ => destruct (c w) as [[choice w1]|] end;
    [|reflexivity].
  unfold SendMessage, bind, emit, ret, logError, emit. simpl.
  destruct (botSendMessage b _ _ _ _); simpl; unfold withEvents; simpl;
    rewrite <- ?List.app_assoc; reflexivity.
Qed.

(** X6. A message with no photo and no image document (no document, or a
    document of another type) is answered with the help text, in reply to
    the message and without keyboard; the store is not touched, and the
    result tells whether the transport accepted the answer. *)
Theorem processUpdate_not_an_image order b m w :
  LargestPhoto m = None ->
  (InDocument m = None
   \/ exists d mime, InDocument m = Some d /\ MimeType d = Some mime
                     /\ String.prefix "image/" mime = false) ->
  exists w' evs,
    processUpdate order b m w
    = Some (Ok (botSendMessage b (InChatID m) messageHelp (Some (InMessageID m)) None),
            w')
    /\ trace w'
       = List.app (trace w)
           (EvSendMessage (InChatID m) messageHelp (Some (InMessageID m)) None :: evs)
    /\ sentTexts evs = []
    /\ fileIDs w' = fileIDs w /\ pending w' = pending w.
Proof.
  intros P D. rewrite processUpdate_send, P.
  assert (C : (match InDocument m with
               | Some d =>
                   let* mime := deref (MimeType d) in
                   if String.prefix "image/" mime then
                     let* kb := genImageInlineKeyboards order (DocumentFileID d) in
                     ret (Some kb, messageActionImage)
                   else ret (None, messageHelp)
               | None => ret (None, messageHelp)
               end) w = Some ((None, messageHelp), w)).
  { destruct D as [->|[d [mime [-> [Mi Pr]]]]]; [reflexivity|].
    unfold bind. rewrite Mi. simpl. rewrite Pr. reflexivity. }
  rewrite C. simpl.
  eexists _, _. split; [reflexivity|]. split; [reflexivity|].
  destruct (botSendMessage b _ _ _ _); repeat split.
Qed.

Lemma processUpdate_not_an_image_witness :
  exists w' evs,
    processUpdate allCmds sampleBot sampleTextMessage storedWorld = Some (true, w')
    /\ trace w'
       = List.app (trace storedWorld)
           (EvSendMessage 1111 messageHelp (Some 40%Z) None :: evs)
    /\ sentTexts evs = []
    /\ fileIDs w' = fileIDs storedWorld /\ pending w' = pending storedWorld.
Proof.
  apply (processUpdate_not_an_image allCmds sampleBot sampleTextMessage storedWorld).
  - reflexivity.
  - left. reflexivity.
Defined.

(** X7. A message with a photo: when the handle of the largest photo has
    32 bytes or more, the handle is stored under its first 32 bytes and the
    menu "Choose action for this image:" is sent in reply, with one row for
    each command and the cancel row; when the handle is shorter,
    [processUpdate] panics, and so it does on a document whose mime type is
    missing. *)
Theorem processUpdate_photo order b m fileID w :
  LargestPhoto m = Some fileID ->
  (String.length fileID < 32 -> processUpdate order b m w = None)
  /\ (32 <= String.length fileID ->
      exists kb w' evs,
        processUpdate order b m w
        = Some (Ok (botSendMessage b (InChatID m) messageActionImage
                      (Some (InMessageID m)) (Some kb)), w')
        /\ List.length kb = S (List.length order)
        /\ trace w'
           = List.app (trace w)
               (EvSendMessage (InChatID m) messageActionImage (Some (InMessageID m))
                              (Some kb) :: evs)
        /\ sentTexts evs = []
        /\ fileIDs w' = <[String.substring 0 32 fileID := fileID]> (fileIDs w))
  /\ (forall m' d,
        LargestPhoto m' = None -> InDocument m' = Some d -> MimeType d = None ->
        processUpdate order b m' w = None).
Proof.
  intros P. split; [|split].
  - intros L. rewrite processUpdate_send, P. unfold bind.
    rewrite genImageInlineKeyboards_unfold.
    apply Nat.ltb_lt in L. rewrite L. reflexivity.
  - intros L. rewrite processUpdate_send, P. unfold bind.
    rewrite genImageInlineKeyboards_unfold.
    apply Nat.ltb_ge in L. rewrite L. simpl.
    eexists _, _, _. split; [reflexivity|]. split.
    { unfold NewInlineKeyboardButtonsAsRowsWithCallbackData.
      rewrite List.length_app, !List.length_map. simpl. lia. }
    split; [reflexivity|].
    destruct (botSendMessage b _ _ _ _); repeat split.
  - intros m' d P' D Mi. rewrite processUpdate_send, P', D. unfold bind.
    rewrite Mi. reflexivity.
Qed.

Lemma processUpdate_photo_witness :
  exists kb w' evs,
    processUpdate allCmds sampleBot samplePhotoMessage initialWorld
    = Some (Ok (botSendMessage sampleBot 1111 messageActionImage (Some 41%Z) (Some kb)),
            w')
    /\ List.length kb = 8
    /\ trace w'
       = List.app (trace initialWorld)
           (EvSendMessage 1111 messageActionImage (Some 41%Z) (Some kb) :: evs)
    /\ sentTexts evs = []
    /\ fileIDs w' = <[String.substring 0 32 sampleFileID := sampleFileID]> ∅.
Proof.
  apply (proj1 (proj2 (processUpdate_photo allCmds sampleBot samplePhotoMessage
                         sampleFileID initialWorld eq_refl))).
  simpl. lia.
Defined.

(** ** The file-reference store over a run *)

Lemma genImageInlineKeyboards_wellFormed order fileID w kb w' :
  genImageInlineKeyboards order fileID w = Some (kb, w') ->
  storeWellFormed w -> storeWellFormed w'.
Proof.
  rewrite genImageInlineKeyboards_unfold.
  destruct (Nat.ltb_spec (String.length fileID) 32) as [L|L]; [discriminate|].
  intros G W. injection G as _ <-. intros key h. simpl.
  destruct (decide (String.substring 0 32 fileID = key)) as [<-|N].
  - rewrite lookup_insert_eq. intros E. injection E as <-. auto.
  - rewrite lookup_insert_ne by exact N. apply W.
Qed.

Lemma processUpdate_fileIDs order b m r w w' :
  processUpdate order b m w = Some (r, w') ->
  fileIDs w' = fileIDs w
  \/ exists fileID kb w1,
       genImageInlineKeyboards order fileID w = Some (kb, w1)
       /\ fileIDs w' = fileIDs w1.
Proof.
  rewrite processUpdate_send.
  destruct (LargestPhoto m) as [fileID|].
  - unfold bind.
    destruct (genImageInlineKeyboards order fileID w) as [[kb w1]|] eqn:G;
      [|discriminate].
    simpl. intros H. injection H as _ <-. right. eauto.
  - destruct (InDocument m) as [d|].
    + unfold bind. destruct (MimeType d) as [mime|]; [|discriminate]. simpl.
      destruct (String.prefix "image/" mime).
      * destruct (genImageInlineKeyboards order (DocumentFileID d) w)
          as [[kb w1]|] eqn:G; [|discriminate].
        simpl. intros H. injection H as _ <-. right. eauto.
      * simpl. intros H. injection H as _ <-. left. reflexivity.
    + simpl. intros H. injection H as _ <-. left. reflexivity.
Qed.

Lemma handleUpdate_wellFormed order b env update err w w' :
  handleUpdate order b env update err w = Some (tt, w') ->
  storeWellFormed w -> storeWellFormed w'.
Proof.
  unfold handleUpdate. destruct err as [e|].
  { intros H. injection H as <-. auto. }
  destruct (UpdateMessage update) as [m|].
  - unfold bind. destruct (processUpdate order b m w) as [[r w1]|] eqn:P;
      [|discriminate].
    intros H. injection H as <-. intros W.
    destruct (processUpdate_fileIDs _ _ _ _ _ _ P) as [E|[fileID [kb [w2 [G E]]]]].
    + unfold storeWellFormed. rewrite E. exact W.
    + pose proof (genImageInlineKeyboards_wellFormed _ _ _ _ _ G W) as W2.
      unfold storeWellFormed. rewrite E. exact W2.
  - destruct (UpdateCallbackQuery update) as [q|].
    + unfold bind.
      destruct (processCallbackQuery order b env q w) as [[r w1]|] eqn:P;
        [|discriminate].
      intros H. injection H as <-. intros W.
      destruct (callbackMessage order b q w) as [[message w2]|] eqn:C.
      2:{ unfold processCallbackQuery, bind in P. rewrite C in P. discriminate. }
      destruct (callbackMessage_effects _ _ _ _ _ _ C) as [e1 [ts [E _]]].
      destruct (processCallbackQuery_result order b env q _ _ _ C) as [e2 [R _]].
      rewrite R in P. injection P as _ <-. subst w2. exact W.
    + intros H. injection H as <-. auto.
Qed.

(** X8. Over a run of the receive loop, whatever the updates and the
    answers of the transport: when the loop has handled them without
    panic, every entry of the file-reference store is a file handle of 32
    bytes or more kept under its first 32 bytes. *)
Theorem store_stays_wellFormed order b env updates w w' :
  storeWellFormed w ->
  handleUpdates order b env updates w = Some (tt, w') ->
  storeWellFormed w'.
Proof.
  revert w. induction updates as [|u rest IH]; simpl; intros w W H.
  - injection H as <-. exact W.
  - unfold bind in H.
    destruct (handleUpdate order b env (fst u) (snd u) w) as [[[] w1]|] eqn:U;
      [|discriminate].
    apply (IH w1); [|exact H].
    eapply handleUpdate_wellFormed; eassumption.
Qed.

Lemma store_stays_wellFormed_witness :
  storeWellFormed
    (withEvents storedWorld
       [EvSendMessage 1111 messageActionImage (Some 41%Z)
          (Some (List.app
                   (NewInlineKeyboardButtonsAsRowsWithCallbackData
                      (List.map (fun kv => (fst kv, snd kv ++ "/"
                                            ++ String.substring 0 32 sampleFileID))
                                allCmds))
                   [ [ {| Text := titleCancel; CallbackData := Some commandCancel |} ] ]));
        EvLogError "Update not processable"]).
Proof.
  apply (store_stays_wellFormed allCmds sampleBot offlineEnv
           [ ({| UpdateMessage := Some samplePhotoMessage;
                 UpdateCallbackQuery := None |}, None);
             ({| UpdateMessage := None; UpdateCallbackQuery := None |}, None) ]
           initialWorld).
  - intros key h L. cbn [initialWorld fileIDs] in L.
    rewrite lookup_empty in L. discriminate L.
  - reflexivity.
Defined.

(** X9. Two file handles with the same first 32 bytes share one entry: once
    the second is stored, the key of the first gives the second handle, and
    the two menus carry the same payloads. Storing a handle never removes
    an entry. *)
Theorem store_prefix_collision order h1 h2 w kb1 w1 kb2 w2 :
  genImageInlineKeyboards order h1 w = Some (kb1, w1) ->
  genImageInlineKeyboards order h2 w1 = Some (kb2, w2) ->
  String.substring 0 32 h1 = String.substring 0 32 h2 ->
  fileIDs w1 !! String.substring 0 32 h1 = Some h1
  /\ fileIDs w2 !! String.substring 0 32 h1 = Some h2
  /\ kb1 = kb2
  /\ (forall key, is_Some (fileIDs w !! key) -> is_Some (fileIDs w2 !! key)).
Proof.
  rewrite !genImageInlineKeyboards_unfold.
  destruct (String.length h1 <? 32)%nat; [discriminate|].
  destruct (String.length h2 <? 32)%nat; [discriminate|].
  intros G1 G2 E. injection G1 as <- <-. injection G2 as <- <-. simpl.
  rewrite <- E. split; [apply lookup_insert_eq|].
  split; [apply lookup_insert_eq|]. split; [reflexivity|].
  intros key S.
  destruct (decide (String.substring 0 32 h1 = key)) as [<-|N].
  - rewrite lookup_insert_eq. eauto.
  - rewrite !lookup_insert_ne by exact N. exact S.
Qed.

Lemma store_prefix_collision_witness :
  exists kb1 w1 kb2 w2,
    genImageInlineKeyboards allCmds sampleFileID initialWorld = Some (kb1, w1)
    /\ genImageInlineKeyboards allCmds
         "AgACAgUAAxkBAAIBQ2ZmZXhhbXBsZUZpanotherPicture" w1 = Some (kb2, w2)
    /\ fileIDs w1 !! String.substring 0 32 sampleFileID = Some sampleFileID
    /\ fileIDs w2 !! String.substring 0 32 sampleFileID
       = Some "AgACAgUAAxkBAAIBQ2ZmZXhhbXBsZUZpanotherPicture"
    /\ kb1 = kb2.
Proof.
  pose proof (genImageInlineKeyboards_unfold allCmds sampleFileID initialWorld) as G1.
  change (String.length sampleFileID <? 32)%nat with false in G1. cbv iota in G1.
  eexists _, _. 
  pose proof (genImageInlineKeyboards_unfold allCmds
                "AgACAgUAAxkBAAIBQ2ZmZXhhbXBsZUZpanotherPicture"
                {| fileIDs := <[String.substring 0 32 sampleFileID := sampleFileID]>
                                (fileIDs initialWorld);
                   heap := heap initialWorld; trace := trace initialWorld;
                   pending := pending initialWorld |}) as G2.
  change (String.length "AgACAgUAAxkBAAIBQ2ZmZXhhbXBsZUZpanotherPicture" <? 32)%nat
    with false in G2. cbv iota in G2.
  eexists _, _. split; [exact G1|]. split; [exact G2|].
  destruct (store_prefix_collision _ _ _ _ _ _ _ _ G1 G2 eq_refl) as [A [B [C _]]].
  auto.
Defined.

(** ** Start-up *)

(** X10. [init] succeeds exactly when the configuration is read and parsed
    and the font is read and parsed; it panics otherwise. After it, the
    polling interval is at least 1 (an interval of 0 or less in the file is
    replaced by 1) and the other settings are those of the file. *)
Theorem init_outcome os :
  (init os = None <->
   ~ exists file parsed data f,
       ReadFile os (pathJoin os (osPwd os) configFilename) = inr file
       /\ jsonUnmarshal os file = inr parsed
       /\ ReadFile os (pathJoin os (osPwd os) fontFilepath) = inr data
       /\ truetypeParse os data = inr f)
  /\ (forall conf f,
        init os = Some (conf, f) ->
        (1 <= TelegramMonitorIntervalSeconds conf)%Z
        /\ exists file parsed data,
             ReadFile os (pathJoin os (osPwd os) configFilename) = inr file
             /\ jsonUnmarshal os file = inr parsed
             /\ ReadFile os (pathJoin os (osPwd os) fontFilepath) = inr data
             /\ truetypeParse os data = inr f
             /\ TelegramMonitorIntervalSeconds conf
                = Z.max 1 (TelegramMonitorIntervalSeconds parsed)
             /\ TelegramAPIToken conf = TelegramAPIToken parsed
             /\ KakaoAPIKey conf = KakaoAPIKey parsed
             /\ LogglyToken conf = LogglyToken parsed
             /\ IsVerbose conf = IsVerbose parsed).
Proof.
  unfold init.
  destruct (ReadFile os (pathJoin os (osPwd os) configFilename)) as [e1|file] eqn:R1.
  { split; [|discriminate]. split; [|reflexivity].
    intros _ [? [? [? [? [H _]]]]]. discriminate. }
  destruct (jsonUnmarshal os file) as [e2|parsed] eqn:J.
  { split; [|discriminate]. split; [|reflexivity].
    intros _ [? [? [? [? [H [H2 _]]]]]]. injection H as <-. congruence. }
  destruct (ReadFile os (pathJoin os (osPwd os) fontFilepath)) as [e3|data] eqn:R2.
  { split; [|discriminate]. split; [|reflexivity].
    intros _ [? [? [? [? [_ [_ [H _]]]]]]]. discriminate. }
  destruct (truetypeParse os data) as [e4|f] eqn:T.
  { split; [|discriminate]. split; [|reflexivity].
    intros _ [? [? [? [? [_ [_ [H H2]]]]]]]. injection H as <-. congruence. }
  split.
  - split; [discriminate|]. intros N. exfalso. apply N.
    exists file, parsed, data, f. auto.
  - intros conf f' H. injection H as <- <-.
    destruct (Z.leb_spec (TelegramMonitorIntervalSeconds parsed) 0) as [L|L]; simpl.
    + split; [lia|]. exists file, parsed, data. repeat split; auto. lia.
    + split; [lia|]. exists file, parsed, data. repeat split; auto. lia.
Qed.

Lemma init_outcome_witness :
  (1 <= 1)%Z
  /\ exists file parsed data,
       ReadFile sampleOS (pathJoin sampleOS (osPwd sampleOS) configFilename) = inr file
       /\ jsonUnmarshal sampleOS file = inr parsed
       /\ ReadFile sampleOS (pathJoin sampleOS (osPwd sampleOS) fontFilepath) = inr data
       /\ truetypeParse sampleOS data = inr {| fontData := [] |}
       /\ 1%Z = Z.max 1 (TelegramMonitorIntervalSeconds parsed)
       /\ "0123456789:AaBbCc" = TelegramAPIToken parsed
       /\ "abcdef" = KakaoAPIKey parsed
       /\ "" = LogglyToken parsed
       /\ false = IsVerbose parsed.
Proof.
  apply (proj2 (init_outcome sampleOS)
           {| TelegramAPIToken := "0123456789:AaBbCc";
              TelegramMonitorIntervalSeconds := 1;
              KakaoAPIKey := "abcdef"; LogglyToken := ""; IsVerbose := false |}
           {| fontData := [] |}).
  reflexivity.
Defined.

(** ** The worker, branch by branch *)

(** X11. When the remote call of "Detect Products" fails, [processImage]
    returns having sent nothing at all, neither a photo nor a text: the
    menu is deleted and the request stays without answer (the branch has
    no [else] for the error, unlike the one of faces). *)
Theorem product_error_is_silent b env chatID messageID url imgBytes err w :
  httpGet env url = inr imgBytes ->
  kakaoDetectProduct (kakaoClient env) imgBytes threshold07 = inl err ->
  processImage b env chatID messageID url DetectProducts w
  = Some (tt,
          withEvents w
            [EvSendChatAction chatID ChatActionTyping; EvHTTPGet url;
             EvKakao (DetectProductFromBytes imgBytes threshold07);
             EvDeleteMessage chatID messageID])
  /\ sentTexts [EvSendChatAction chatID ChatActionTyping; EvHTTPGet url;
                EvKakao (DetectProductFromBytes imgBytes threshold07);
                EvDeleteMessage chatID messageID] = []
  /\ sentPhotos [EvSendChatAction chatID ChatActionTyping; EvHTTPGet url;
                 EvKakao (DetectProductFromBytes imgBytes threshold07);
                 EvDeleteMessage chatID messageID] = [].
Proof.
  intros H K. split; [|split; reflexivity].
  erewrite processImage_run; [| exact H |].
  2:{ unfold processCommand. simpl (String.eqb _ _ || _). simpl (String.eqb _ _).
      unfold kakao, bind. simpl. rewrite K. reflexivity. }
  simpl. unfold withEvents. simpl. rewrite <- !List.app_assoc. reflexivity.
Qed.

Lemma product_error_is_silent_witness :
  processImage sampleBot
    {| httpGet := fun _ => inr [Byte.xff; Byte.xd8];
       imageDecode := imageDecode offlineEnv; jpegEncode := jpegEncode offlineEnv;
       kakaoClient := offlineKakao; graphics := sampleGraphics;
       fmt2f := fmt2f offlineEnv; fmtQuery := fmtQuery offlineEnv |}
    1111 42 "https://example.org/photo.jpg" DetectProducts initialWorld
  = Some (tt,
          withEvents initialWorld
            [EvSendChatAction 1111 ChatActionTyping;
             EvHTTPGet "https://example.org/photo.jpg";
             EvKakao (DetectProductFromBytes [Byte.xff; Byte.xd8] threshold07);
             EvDeleteMessage 1111 42]).
Proof.
  apply (proj1 (product_error_is_silent sampleBot
                  {| httpGet := fun _ => inr [Byte.xff; Byte.xd8];
                     imageDecode := imageDecode offlineEnv;
                     jpegEncode := jpegEncode offlineEnv;
                     kakaoClient := offlineKakao; graphics := sampleGraphics;
                     fmt2f := fmt2f offlineEnv; fmtQuery := fmtQuery offlineEnv |}
                  1111 42 "https://example.org/photo.jpg" [Byte.xff; Byte.xd8]
                  "offline" initialWorld eq_refl eq_refl)).
Defined.

Lemma skipn_nth_error {A} (l : list A) : forall i x,
  List.nth_error l i = Some x -> List.skipn i l = x :: List.skipn (S i) l.
Proof.
  induction l as [|y l IH]; intros [|i] x H; simpl in *; try discriminate.
  - injection H as <-. reflexivity.
  - apply IH. exact H.
Qed.

(** The loop over the labels: each label with the Korean label of the same
    index; it panics when the Korean labels run out. *)
Lemma tagLoop_run korean : forall labels i tags w,
  forRange (fun i label tags =>
              let* k := deref (List.nth_error korean i) in
              ret (List.app tags [label ++ " (" ++ k ++ ")"]))
           labels i tags w
  = match labels with
    | [] => Some (tags, w)
    | _ :: _ =>
        if (i + List.length labels <=? List.length korean)%nat
        then Some (List.app tags
                     (List.map (fun p => fst p ++ " (" ++ snd p ++ ")")
                               (List.combine labels (List.skipn i korean))), w)
        else None
    end.
Proof.
  induction labels as [|label labels IH]; intros i tags w; [reflexivity|].
  cbn [forRange]. unfold bind at 1. unfold bind at 1.
  destruct (List.nth_error korean i) as [k|] eqn:N.
  - simpl deref. unfold ret at 1. unfold ret at 1. rewrite IH.
    assert (Li : i < List.length korean)
      by (apply List.nth_error_Some; congruence).
    rewrite (skipn_nth_error _ _ _ N). cbn [List.combine List.map fst snd List.length].
    destruct labels as [|l2 labels].
    + cbn [List.length].
      assert (E : (i + 1 <=? List.length korean)%nat = true)
        by (apply Nat.leb_le; lia).
      rewrite E. reflexivity.
    + cbn [List.length].
      replace (i + S (S (List.length labels)))
        with (S i + S (List.length labels)) by lia.
      destruct (S i + S (List.length labels) <=? List.length korean)%nat;
        [|reflexivity].
      rewrite <- List.app_assoc. reflexivity.
  - simpl deref. apply List.nth_error_None in N.
    destruct (Nat.leb_spec (i + List.length (label :: labels)) (List.length korean))
      as [L|L]; [simpl in L; lia | reflexivity].
Qed.

(** X12. Tags. With one label at least and as many Korean labels as labels
    (or more), [processImage] sends one text: the heading, then one line
    "label (korean label)" for each label, in order. With fewer Korean
    labels than labels it panics (an index out of range). *)
Theorem tags_need_parallel_labels b env chatID messageID url imgBytes generated w :
  httpGet env url = inr imgBytes ->
  kakaoGenerateTags (kakaoClient env) imgBytes = inr generated ->
  Labels generated <> [] ->
  (List.length (Labels generated) <= List.length (LabelsKorean generated) ->
   exists w' evs,
     processImage b env chatID messageID url Tag w = Some (tt, w')
     /\ trace w' = List.app (trace w) evs
     /\ sentPhotos evs = []
     /\ kakaoCalls evs = [GenerateTagsFromBytes imgBytes]
     /\ exists rest,
          sentTexts evs
          = ("Process result of 'Tag This Image':" ++ newline ++ newline
             ++ Strings.Join
                  (List.map (fun p => fst p ++ " (" ++ snd p ++ ")")
                            (List.combine (Labels generated) (LabelsKorean generated)))
                  newline) :: rest
          /\ (rest = [] <-> exists u, botSendMessage b chatID
                 ("Process result of 'Tag This Image':" ++ newline ++ newline
                  ++ Strings.Join
                       (List.map (fun p => fst p ++ " (" ++ snd p ++ ")")
                          (List.combine (Labels generated) (LabelsKorean generated)))
                       newline) None None = inr u))
  /\ (List.length (LabelsKorean generated) < List.length (Labels generated) ->
      processImage b env chatID messageID url Tag w = None).
Proof.
  intros H K NE.
  assert (P : forall w0,
             processCommand b env chatID imgBytes Tag w0
             = match tagLines generated
                       (withEvents w0 [EvKakao (GenerateTagsFromBytes imgBytes)]) with
               | Some (tags, w1) =>
                   Some (match botSendMessage b chatID
                                 ("Process result of 'Tag This Image':" ++ newline
                                  ++ newline ++ Strings.Join tags newline) None None with
                         | inr _ => ""
                         | inl d => "Failed to send tags: " ++ d
                         end,
                         withEvents w1
                           [EvSendMessage chatID
                              ("Process result of 'Tag This Image':" ++ newline
                               ++ newline ++ Strings.Join tags newline) None None])
               | None => None
               end).
  { intros w0. unfold processCommand. simpl (String.eqb _ _ || _).
    simpl (String.eqb _ _). unfold kakao, bind, emit, ret. rewrite K.
    destruct (Labels generated) as [|l ls] eqn:EL; [contradiction|].
    cbn [List.length Nat.ltb Nat.leb].
    change {| fileIDs := fileIDs w0; heap := heap w0;
              trace := (trace w0 ++ [EvKakao (GenerateTagsFromBytes imgBytes)])%list;
              pending := pending w0 |}
      with (withEvents w0 [EvKakao (GenerateTagsFromBytes imgBytes)]).
    destruct (tagLines generated _) as [[tags w1]|]; [|reflexivity].
    unfold SendMessage, bind, emit, ret. cbn [fileIDs heap trace pending].
    destruct (botSendMessage b chatID _ None None); reflexivity. }
  unfold tagLines in P.
  split.
  - intros L.
    pose proof (P (withEvents w [EvSendChatAction chatID ChatActionTyping;
                                 EvHTTPGet url])) as P1.
    rewrite tagLoop_run in P1.
    destruct (Labels generated) as [|l ls] eqn:EL; [contradiction|].
    apply Nat.leb_le in L. cbn [Nat.add] in P1. rewrite L in P1.
    cbn [List.skipn List.app] in P1.
    pose proof (processImage_run b env chatID messageID url Tag imgBytes _ w _ H P1)
      as R.
    destruct (botSendMessage b chatID _ None None) as [d|u] eqn:S;
      cbn [String.eqb String.append] in R; eexists _, _; (split; [exact R|]);
      (split; [simpl; rewrite <- !List.app_assoc; reflexivity|]);
      (split; [reflexivity|]); (split; [reflexivity|]);
      eexists; (split; [reflexivity|]).
    + split; [discriminate | intros [u E]; discriminate].
    + split; [eauto | reflexivity].
  - intros L. unfold processImage, bind, SendChatAction, readBytes, bind.
    simpl. rewrite H.
    change {| fileIDs := fileIDs w; heap := heap w;
              trace := ((trace w ++ [EvSendChatAction chatID ChatActionTyping])
                        ++ [EvHTTPGet url])%list;
              pending := pending w |}
      with (withEvents (withEvents w [EvSendChatAction chatID ChatActionTyping])
                       [EvHTTPGet url]).
    rewrite P, tagLoop_run.
    destruct (Labels generated) as [|l ls] eqn:EL; [contradiction|].
    destruct (Nat.leb_spec (0 + List.length (l :: ls))
                (List.length (LabelsKorean generated))) as [L2|L2];
      [simpl in *; lia | reflexivity].
Qed.

Lemma tags_need_parallel_labels_witness :
  exists w' evs,
    processImage sampleBot taggingEnv 1111 42 "https://example.org/photo.jpg" Tag
      initialWorld = Some (tt, w')
    /\ trace w' = List.app (trace initialWorld) evs
    /\ sentPhotos evs = []
    /\ kakaoCalls evs = [GenerateTagsFromBytes [Byte.xff; Byte.xd8]]
    /\ exists rest,
         sentTexts evs
         = ("Process result of 'Tag This Image':" ++ newline ++ newline
            ++ Strings.Join ["cat (goyangi)"; "pet (aewan)"] newline) :: rest
         /\ (rest = [] <-> exists u, botSendMessage sampleBot 1111
                ("Process result of 'Tag This Image':" ++ newline ++ newline
                 ++ Strings.Join ["cat (goyangi)"; "pet (aewan)"] newline)
                None None = inr u).
Proof.
  apply (proj1 (tags_need_parallel_labels sampleBot taggingEnv 1111 42
                  "https://example.org/photo.jpg" [Byte.xff; Byte.xd8]
                  {| Labels := ["cat"; "pet"]; LabelsKorean := ["goyangi"; "aewan"] |}
                  initialWorld eq_refl eq_refl ltac:(discriminate))).
  simpl. lia.
Defined.




(** ** More rules for loops *)

Lemma spec_forRange_prefix {A St} new (body : nat -> A -> St -> M St)
    (Inv : list A -> St -> Prop) (R : nat -> A -> list Event -> Prop) :
  (forall done i x s, Inv done s ->
     spec new (body i x s) (fun s' evs => Inv (List.app done [x]) s' /\ R i x evs)) ->
  forall l done i s, Inv done s ->
    spec new (forRange body l i s)
         (fun s' evs => Inv (List.app done l) s' /\ loopEvents R l i evs).
Proof.
  intros Hbody. induction l as [|x l IH]; intros done i s Is; simpl.
  - apply spec_ret. rewrite List.app_nil_r. split; [exact Is | constructor].
  - eapply spec_bind; [apply (Hbody done); exact Is|].
    intros s' e1 [Is' R1]. eapply spec_weaken; [apply (IH (List.app done [x])); exact Is'|].
    intros s'' e2 [Is'' L]. rewrite <- List.app_assoc in Is''. split; [exact Is''|].
    constructor; assumption.
Qed.

(** What is read off the events of a loop, when each turn gives the one
    entry [F i x]. *)
Lemma loopEvents_numbered {A B} (obs : Event -> list B)
    (R : nat -> A -> list Event -> Prop) (F : nat -> A -> B) :
  (forall i x e, R i x e -> List.flat_map obs e = [F i x]) ->
  forall l i evs, loopEvents R l i evs ->
    List.flat_map obs evs = numbered F l i.
Proof.
  intros H l i evs L. induction L as [|i x rest e1 e2 R1 L IH]; [reflexivity|].
  rewrite List.flat_map_app. simpl. rewrite (H _ _ _ R1), IH. reflexivity.
Qed.

Lemma loopEvents_Forall {A} (P : Event -> Prop)
    (R : nat -> A -> list Event -> Prop) :
  (forall i x e, R i x e -> List.Forall P e) ->
  forall l i evs, loopEvents R l i evs -> List.Forall P evs.
Proof.
  intros H l i evs L. induction L as [|i x rest e1 e2 R1 L IH]; [constructor|].
  apply List.Forall_app. split; [eapply H; exact R1 | exact IH].
Qed.

Lemma loopEvents_weaken {A} (R1 R2 : nat -> A -> list Event -> Prop) :
  (forall i x e, R1 i x e -> R2 i x e) ->
  forall l i evs, loopEvents R1 l i evs -> loopEvents R2 l i evs.
Proof.
  intros H l i evs L. induction L; constructor; auto.
Qed.

Lemma flat_map_constant {A B} (c : list B) (l : list A) :
  List.flat_map (fun _ => c) l = List.concat (List.repeat c (List.length l)).
Proof.
  induction l as [|x l IH]; simpl; [reflexivity|]. rewrite IH. reflexivity.
Qed.

Lemma flat_map_singleton {A B} (f : A -> B) (l : list A) :
  List.flat_map (fun x => [f x]) l = List.map f l.
Proof. induction l as [|x l IH]; simpl; [reflexivity|]. rewrite IH. reflexivity. Qed.

Lemma flat_map_one {A B} (c : B) (l : list A) :
  List.flat_map (fun _ => [c]) l = List.repeat c (List.length l).
Proof. induction l as [|x l IH]; simpl; [reflexivity|]. rewrite IH. reflexivity. Qed.

Lemma spec_reportDrawError_events new err :
  spec new (reportDrawError err)
       (fun _ evs => evs = [] \/ exists e, evs = [EvLogError e]).
Proof.
  destruct err as [e|]; simpl.
  - eapply spec_weaken; [apply spec_emit|]. intros ? e1 ->. right. eauto.
  - apply spec_ret. left. reflexivity.
Qed.

Lemma spec_colorForIndex_value new i :
  spec new (deref (colorForIndex (Z.of_nat i)))
       (fun c evs => evs = [] /\ colorForIndex (Z.of_nat i) = Some c).
Proof.
  destruct (colorForIndex_total i) as [c E]. rewrite E.
  apply spec_deref. split; reflexivity.
Qed.

(** What one turn of the loop over products does. *)
Lemma spec_drawProduct_turn g new width height i o st done :
  gcImage (fst st) = new /\ snd st = List.map Class done ->
  spec new (drawProduct g new width height i o st)
       (fun st' evs =>
          (gcImage (fst st') = new /\ snd st' = List.map Class (List.app done [o]))
          /\ (draws evs (List.map (toPixels width height) (productOutline o))
                    [productAnchor g width height o] []
              /\ labelTexts evs = ["#" ++ pretty (Z.of_nat i + 1)%Z ++ ": " ++ Class o]
              /\ List.map Some (strokeColors evs) = [colorForIndex (Z.of_nat i)]
              /\ fillStrokes evs = [new]
              /\ drawingOnly evs)).
Proof.
  intros [G S]. unfold drawProduct.
  eapply spec_bind; [apply spec_colorForIndex_value|]. intros color e0 [-> Hc].
  eapply spec_bind; [apply spec_labelContext|]. intros fc e1 [-> [D P]].
  do 8 gc_step.
  eapply spec_bind; [apply spec_DrawString; exact D|]. intros err e2 ->.
  eapply spec_bind; [apply spec_reportDrawError_events|]. intros ? e3 E3.
  apply spec_ret. split.
  - split; [assumption|]. simpl. rewrite S, List.map_app. reflexivity.
  - rewrite P, Hc. unfold productAnchor, drawingOnly.
    destruct E3 as [->|[e ->]]; repeat split; repeat constructor.
Qed.

Lemma spec_drawProducts_full g new width height objects :
  spec new
    (let* gc := gcCall g (SetLineWidth StrokeWidth) (NewGraphicContext new) in
     let* gc := gcCall g (SetFillColor Transparent) gc in
     let* st := forRange (drawProduct g new width height) objects 0 (gc, []) in
     let* gc := gcCall g Save (fst st) in
     ret (new, snd st))
    (fun r evs =>
       r = (new, List.map Class objects)
       /\ pathPoints evs
          = List.flat_map (fun o => List.map (toPixels width height) (productOutline o))
                          objects
       /\ labelAnchors evs = List.map (productAnchor g width height) objects
       /\ labelTexts evs
          = numbered (fun i o => "#" ++ pretty (Z.of_nat i + 1)%Z ++ ": " ++ Class o)
                     objects 0
       /\ List.map Some (strokeColors evs)
          = numbered (fun i _ => colorForIndex (Z.of_nat i)) objects 0
       /\ fillStrokes evs = List.repeat new (List.length objects)
       /\ pixelatedRegions evs = []
       /\ drawingOnly evs).
Proof.
  eapply spec_bind; [apply spec_gcCall; reflexivity|]. intros gc0 e0 [G0 ->].
  gc_step.
  eapply spec_bind.
  { apply (spec_forRange_prefix new _
             (fun done st => gcImage (fst st) = new /\ snd st = List.map Class done)
             (fun i o evs =>
                draws evs (List.map (toPixels width height) (productOutline o))
                      [productAnchor g width height o] []
                /\ labelTexts evs
                   = ["#" ++ pretty (Z.of_nat i + 1)%Z ++ ": " ++ Class o]
                /\ List.map Some (strokeColors evs) = [colorForIndex (Z.of_nat i)]
                /\ fillStrokes evs = [new]
                /\ drawingOnly evs)) with (done := []).
    - intros done i o st I. apply spec_drawProduct_turn. exact I.
    - split; [assumption | reflexivity]. }
  intros st e1 [[G1 S1] L]. simpl in S1.
  gc_step. apply spec_ret.
  assert (LP : pathPoints e1
               = List.flat_map (fun o => List.map (toPixels width height)
                                                  (productOutline o)) objects).
  { eapply loopEvents_flat_map; [|exact L]. intros ? ? ? Hr. apply Hr. }
  assert (LA : labelAnchors e1 = List.map (productAnchor g width height) objects).
  { rewrite <- flat_map_singleton.
    eapply loopEvents_flat_map; [|exact L]. intros ? ? ? Hr. apply Hr. }
  assert (LM : pixelatedRegions e1 = []).
  { rewrite <- (flat_map_nothing objects).
    eapply loopEvents_flat_map; [|exact L]. intros ? ? ? Hr. apply Hr. }
  assert (LT : labelTexts e1
               = numbered (fun i o => "#" ++ pretty (Z.of_nat i + 1)%Z ++ ": "
                                      ++ Class o) objects 0).
  { eapply loopEvents_numbered; [|exact L]. intros ? ? ? Hr. apply Hr. }
  assert (LC : List.map Some (strokeColors e1)
               = numbered (fun i _ => colorForIndex (Z.of_nat i)) objects 0).
  { unfold strokeColors. rewrite map_flat_map.
    eapply loopEvents_numbered; [|exact L]. intros ? ? e Hr.
    destruct Hr as [_ [_ [Hc _]]]. unfold strokeColors in Hc.
    rewrite map_flat_map in Hc. exact Hc. }
  assert (LF : fillStrokes e1 = List.repeat new (List.length objects)).
  { rewrite <- flat_map_one.
    eapply loopEvents_flat_map; [|exact L]. intros ? ? ? Hr. apply Hr. }
  assert (LD : drawingOnly e1).
  { eapply loopEvents_Forall; [|exact L]. intros ? ? ? Hr. apply Hr. }
  split; [rewrite S1; reflexivity|].
  unfold pathPoints, labelAnchors, labelTexts, strokeColors, fillStrokes,
    pixelatedRegions, drawingOnly in *.
  rewrite !List.flat_map_app, !List.map_app, LP, LA, LT, LC, LF, LM. simpl.
  rewrite !List.app_nil_r. repeat split.
  repeat (apply List.Forall_cons; [exact I|]).
  apply List.Forall_app. split; [exact LD | repeat constructor].
Qed.

(** X14. Products. For every decoded image and every response,
    [processImageForProducts] returns, beside the new image, the classes of
    the objects in the order of the response; the corners given to the
    graphic context are the normalized corners of each object multiplied by
    the width and the height that the response declares; object number [i]
    (from 0) is labelled "#i+1: class", anchored at coordinates scaled the
    same way, and stroked in the colour [colorForIndex(i)]; each object is
    painted once, on the new image, and nothing is pixelated. *)
Theorem products_are_scaled_and_numbered g img im detected w :
  heap w !! img = Some im ->
  exists newImg classes w' evs,
    processImageForProducts g img detected w = Some (newImg, classes, w')
    /\ trace w' = List.app (trace w) evs
    /\ classes = List.map Class (Objects detected)
    /\ pathPoints evs
       = List.flat_map
           (fun o => List.map (toPixels (float64_of_int (productWidth detected))
                                        (float64_of_int (productHeight detected)))
                              (productOutline o))
           (Objects detected)
    /\ labelAnchors evs
       = List.map (productAnchor g (float64_of_int (productWidth detected))
                                 (float64_of_int (productHeight detected)))
                  (Objects detected)
    /\ labelTexts evs
       = numbered (fun i o => "#" ++ pretty (Z.of_nat i + 1)%Z ++ ": " ++ Class o)
                  (Objects detected) 0
    /\ List.map Some (strokeColors evs)
       = numbered (fun i _ => colorForIndex (Z.of_nat i)) (Objects detected) 0
    /\ fillStrokes evs = List.repeat newImg (List.length (Objects detected))
    /\ pixelatedRegions evs = [].
Proof.
  intros H. unfold processImageForProducts. cbv zeta.
  destruct (render_from_copy g img im _ _ w H
              (fun new => spec_drawProducts_full g new
                            (float64_of_int (productWidth detected))
                            (float64_of_int (productHeight detected))
                            (Objects detected)))
    as [[a cl] [evs [w' [R [T [[E [P [A [L [C [F [Mk _]]]]]]] _]]]]]].
  injection E as -> ->.
  eexists _, _, w', evs. split; [exact R|]. auto 10.
Qed.

Lemma products_are_scaled_and_numbered_witness :
  exists newImg classes w' evs,
    processImageForProducts sampleGraphics 1%positive sampleDetectedProduct
      worldWithImage = Some (newImg, classes, w')
    /\ trace w' = List.app (trace worldWithImage) evs
    /\ classes = ["shoes"]
    /\ pathPoints evs
       = List.flat_map
           (fun o => List.map (toPixels (float64_of_int 200) (float64_of_int 100))
                              (productOutline o))
           (Objects sampleDetectedProduct)
    /\ labelAnchors evs
       = List.map (productAnchor sampleGraphics (float64_of_int 200)
                                 (float64_of_int 100))
                  (Objects sampleDetectedProduct)
    /\ labelTexts evs = ["#1: shoes"]
    /\ List.map Some (strokeColors evs) = [colorForIndex 0]
    /\ fillStrokes evs = [newImg]
    /\ pixelatedRegions evs = [].
Proof.
  apply (products_are_scaled_and_numbered sampleGraphics 1%positive sampleImage
           sampleDetectedProduct worldWithImage).
  apply (lookup_insert_eq (M := gmap loc)).
Defined.

(** ** Faces: labels, colours and what "Mask Faces" leaves out *)

Lemma spec_markPoints_strokes g new width height ps gc :
  gcImage gc = new ->
  spec new (markPoints g width height ps gc)
       (fun gc' evs =>
          gcImage gc' = new
          /\ labelTexts evs = [] /\ strokeColors evs = []
          /\ fillStrokes evs = List.repeat new (List.length ps)
          /\ drawingOnly evs).
Proof.
  intros G. unfold markPoints.
  eapply spec_weaken.
  - apply (spec_forRange new _ (fun gc => gcImage gc = new)
             (fun _ (p : FacialPoint) e =>
                labelTexts e = [] /\ strokeColors e = []
                /\ fillStrokes e = [new] /\ drawingOnly e)).
    + intros i p gc0 G0. unfold markPoint.
      do 3 gc_step. gc_last. split; [assumption|].
      repeat split; repeat constructor.
    + exact G.
  - intros gc' evs [G' L]. split; [exact G'|].
    split; [|split; [|split]].
    + rewrite <- (flat_map_nothing ps).
      eapply loopEvents_flat_map; [|exact L]. intros ? ? ? Hr. apply Hr.
    + rewrite <- (flat_map_nothing ps).
      eapply loopEvents_flat_map; [|exact L]. intros ? ? ? Hr. apply Hr.
    + rewrite <- flat_map_one.
      eapply loopEvents_flat_map; [|exact L]. intros ? ? ? Hr. apply Hr.
    + eapply loopEvents_Forall; [|exact L]. intros ? ? ? Hr. apply Hr.
Qed.

Lemma spec_drawFace_detect g new width height i f gc :
  gcImage gc = new ->
  spec new (drawFace g new width height DetectFaces i f gc)
       (fun gc' evs =>
          gcImage gc' = new
          /\ (labelTexts evs = ["Face #" ++ pretty (Z.of_nat i + 1)%Z]
              /\ List.map Some (strokeColors evs) = [colorForIndex (Z.of_nat i)]
              /\ fillStrokes evs
                 = List.repeat new (1 + List.length (landmarksOf f))
              /\ drawingOnly evs)).
Proof.
  intros G. unfold drawFace. simpl String.eqb. cbv iota.
  eapply spec_bind; [apply spec_colorForIndex_value|]. intros color e0 [-> Hc].
  eapply spec_bind; [apply spec_labelContext|]. intros fc e1 [-> [D P]].
  do 8 gc_step.
  eapply spec_bind; [apply spec_DrawString; exact D|]. intros err e2 ->.
  eapply spec_bind; [apply spec_reportDrawError_events|]. intros ? e3 E3.
  eapply spec_bind; [apply spec_markPoints_strokes; assumption|].
  intros gc1 m1 [G1 [T1 [C1 [F1 O1]]]].
  eapply spec_bind; [apply spec_markPoints_strokes; assumption|].
  intros gc2 m2 [G2 [T2 [C2 [F2 O2]]]].
  eapply spec_bind; [apply spec_markPoints_strokes; assumption|].
  intros gc3 m3 [G3 [T3 [C3 [F3 O3]]]].
  eapply spec_weaken; [apply spec_markPoints_strokes; assumption|].
  intros gc4 m4 [G4 [T4 [C4 [F4 O4]]]].
  split; [exact G4|].
  assert (E3' : labelTexts e3 = [] /\ strokeColors e3 = [] /\ fillStrokes e3 = []
                /\ drawingOnly e3).
  { destruct E3 as [->|[e ->]]; repeat split; repeat constructor. }
  destruct E3' as [T0 [C0 [F0 O0]]].
  unfold labelTexts, strokeColors, fillStrokes, drawingOnly, landmarksOf in *.
  rewrite !List.flat_map_app, T0, T1, T2, T3, T4, C0, C1, C2, C3, C4,
    F0, F1, F2, F3, F4, Hc.
  rewrite !List.length_app, !List.repeat_app.
  repeat split.
  repeat (apply List.Forall_cons; [exact I|]).
  repeat (apply List.Forall_app; split); try assumption; repeat constructor.
Qed.

Lemma spec_drawFace_mask g new width height i f gc :
  gcImage gc = new ->
  spec new (drawFace g new width height MaskFaces i f gc)
       (fun gc' evs =>
          gcImage gc' = new
          /\ (pathPoints evs = [] /\ labelTexts evs = []
              /\ strokeColors evs = [] /\ fillStrokes evs = []
              /\ List.map (fun m => fst (fst m)) (pixelatedRegions evs)
                 = [int_of_float64 (width * faceW f / 8)]
              /\ drawingOnly evs)).
Proof.
  intros G. unfold drawFace. simpl String.eqb. cbv iota.
  eapply spec_bind; [apply spec_PixelateAt|]. intros ? e1 ->.
  apply spec_ret. split; [exact G|]. repeat split; repeat constructor.
Qed.

(** X15. Faces of "Detect Faces". For every decoded image and every
    response, [processImageForFaces] with the command "Detect Faces" labels
    face number [i] (from 0, in the order of the response) "Face #i+1",
    sets the stroke colour once for each face, to [colorForIndex(i)] (so the
    landmarks of a face are drawn in the colour of its outline), and paints
    the new image once for the outline and once for each landmark of the
    face. *)
Theorem detected_faces_are_numbered g img im detected w :
  heap w !! img = Some im ->
  exists newImg w' evs,
    processImageForFaces g img detected DetectFaces w = Some (newImg, w')
    /\ trace w' = List.app (trace w) evs
    /\ labelTexts evs
       = numbered (fun i _ => "Face #" ++ pretty (Z.of_nat i + 1)%Z)
                  (Faces detected) 0
    /\ List.map Some (strokeColors evs)
       = numbered (fun i _ => colorForIndex (Z.of_nat i)) (Faces detected) 0
    /\ fillStrokes evs
       = List.flat_map
           (fun f => List.repeat newImg (1 + List.length (landmarksOf f)))
           (Faces detected).
Proof.
  intros H. unfold processImageForFaces. cbv zeta.
  set (width := float64_of_int (faceWidth detected)).
  set (height := float64_of_int (faceHeight detected)).
  assert (S : forall new,
    spec new
      (let* gc := gcCall g (SetLineWidth StrokeWidth) (NewGraphicContext new) in
       let* gc := gcCall g (SetFillColor Transparent) gc in
       let* gc := forRange (drawFace g new width height DetectFaces)
                           (Faces detected) 0 gc in
       let* gc := gcCall g Save gc in
       ret new)
      (fun r evs =>
         r = new
         /\ labelTexts evs
            = numbered (fun i _ => "Face #" ++ pretty (Z.of_nat i + 1)%Z)
                       (Faces detected) 0
         /\ List.map Some (strokeColors evs)
            = numbered (fun i _ => colorForIndex (Z.of_nat i)) (Faces detected) 0
         /\ fillStrokes evs
            = List.flat_map
                (fun f => List.repeat new (1 + List.length (landmarksOf f)))
                (Faces detected))).
  { intros new.
    eapply spec_bind; [apply spec_gcCall; reflexivity|]. intros gc0 e0 [G0 ->].
    gc_step.
    eapply spec_bind.
    { apply (spec_forRange new _ (fun gc => gcImage gc = new)
               (fun i (f : Face) e =>
                  labelTexts e = ["Face #" ++ pretty (Z.of_nat i + 1)%Z]
                  /\ List.map Some (strokeColors e) = [colorForIndex (Z.of_nat i)]
                  /\ fillStrokes e
                     = List.repeat new (1 + List.length (landmarksOf f))
                  /\ drawingOnly e)).
      - intros i f gc G. apply spec_drawFace_detect. exact G.
      - assumption. }
    intros gc1 e1 [G1 L].
    gc_step. apply spec_ret. split; [reflexivity|].
    assert (LT : labelTexts e1
                 = numbered (fun i (_ : Face) => "Face #" ++ pretty (Z.of_nat i + 1)%Z)
                            (Faces detected) 0).
    { eapply loopEvents_numbered; [|exact L]. intros ? ? ? Hr. apply Hr. }
    assert (LC : List.map Some (strokeColors e1)
                 = numbered (fun i (_ : Face) => colorForIndex (Z.of_nat i))
                            (Faces detected) 0).
    { unfold strokeColors. rewrite map_flat_map.
      eapply loopEvents_numbered; [|exact L]. intros ? ? e Hr.
      destruct Hr as [_ [Hc _]]. unfold strokeColors in Hc.
      rewrite map_flat_map in Hc. exact Hc. }
    assert (LF : fillStrokes e1
                 = List.flat_map
                     (fun f => List.repeat new (1 + List.length (landmarksOf f)))
                     (Faces detected)).
    { eapply loopEvents_flat_map; [|exact L]. intros ? ? ? Hr. apply Hr. }
    unfold labelTexts, strokeColors, fillStrokes in *.
    rewrite !List.flat_map_app, !List.map_app, LT, LC, LF. simpl.
    rewrite !List.app_nil_r. repeat split. }
  destruct (render_from_copy g img im _ _ w H S)
    as [a [evs [w' [R [T [[E [LT [LC LF]]] _]]]]]].
  subst a. eexists _, w', evs.
  split; [exact R|]. split; [exact T|]. split; [exact LT|].
  split; [exact LC | exact LF].
Qed.

Lemma detected_faces_are_numbered_witness :
  exists newImg w' evs,
    processImageForFaces sampleGraphics 1%positive sampleDetectedFace DetectFaces
      worldWithImage = Some (newImg, w')
    /\ trace w' = List.app (trace worldWithImage) evs
    /\ labelTexts evs
       = numbered (fun i _ => "Face #" ++ pretty (Z.of_nat i + 1)%Z)
                  (Faces sampleDetectedFace) 0
    /\ List.map Some (strokeColors evs)
       = numbered (fun i _ => colorForIndex (Z.of_nat i))
                  (Faces sampleDetectedFace) 0
    /\ fillStrokes evs
       = List.flat_map
           (fun f => List.repeat newImg (1 + List.length (landmarksOf f)))
           (Faces sampleDetectedFace).
Proof.
  apply (detected_faces_are_numbered sampleGraphics 1%positive sampleImage
           sampleDetectedFace worldWithImage).
  apply (lookup_insert_eq (M := gmap loc)).
Defined.

(** X16. Faces of "Mask Faces". For every decoded image and every response,
    [processImageForFaces] with the command "Mask Faces" gives no coordinate
    to the graphic context, draws no label, sets no stroke colour and paints
    no path: it pixelates one region for each face of the response, in
    blocks of [int(width * w / 8)] pixels, [width] being the width that the
    response declares and [w] the normalized width of the face. *)
Theorem masked_faces_are_only_pixelated g img im detected w :
  heap w !! img = Some im ->
  exists newImg w' evs,
    processImageForFaces g img detected MaskFaces w = Some (newImg, w')
    /\ trace w' = List.app (trace w) evs
    /\ pathPoints evs = [] /\ labelTexts evs = []
    /\ strokeColors evs = [] /\ fillStrokes evs = []
    /\ List.map (fun m => fst (fst m)) (pixelatedRegions evs)
       = List.map (fun f => int_of_float64
                              (float64_of_int (faceWidth detected) * faceW f / 8)%float)
                  (Faces detected).
Proof.
  intros H. unfold processImageForFaces. cbv zeta.
  set (width := float64_of_int (faceWidth detected)).
  set (height := float64_of_int (faceHeight detected)).
  assert (S : forall new,
    spec new
      (let* gc := gcCall g (SetLineWidth StrokeWidth) (NewGraphicContext new) in
       let* gc := gcCall g (SetFillColor Transparent) gc in
       let* gc := forRange (drawFace g new width height MaskFaces)
                           (Faces detected) 0 gc in
       let* gc := gcCall g Save gc in
       ret new)
      (fun r evs =>
         r = new
         /\ pathPoints evs = [] /\ labelTexts evs = []
         /\ strokeColors evs = [] /\ fillStrokes evs = []
         /\ List.map (fun m => fst (fst m)) (pixelatedRegions evs)
            = List.map (fun f => int_of_float64 (width * faceW f / 8)%float)
                       (Faces detected))).
  { intros new.
    eapply spec_bind; [apply spec_gcCall; reflexivity|]. intros gc0 e0 [G0 ->].
    gc_step.
    eapply spec_bind.
    { apply (spec_forRange new _ (fun gc => gcImage gc = new)
               (fun (_ : nat) (f : Face) e =>
                  pathPoints e = [] /\ labelTexts e = []
                  /\ strokeColors e = [] /\ fillStrokes e = []
                  /\ List.map (fun m => fst (fst m)) (pixelatedRegions e)
                     = [int_of_float64 (width * faceW f / 8)%float]
                  /\ drawingOnly e)).
      - intros i f gc G. apply spec_drawFace_mask. exact G.
      - assumption. }
    intros gc1 e1 [G1 L].
    gc_step. apply spec_ret. split; [reflexivity|].
    assert (LP : pathPoints e1 = []).
    { rewrite <- (flat_map_nothing (Faces detected)).
      eapply loopEvents_flat_map; [|exact L]. intros ? ? ? Hr. apply Hr. }
    assert (LT : labelTexts e1 = []).
    { rewrite <- (flat_map_nothing (Faces detected)).
      eapply loopEvents_flat_map; [|exact L]. intros ? ? ? Hr. apply Hr. }
    assert (LC : strokeColors e1 = []).
    { rewrite <- (flat_map_nothing (Faces detected)).
      eapply loopEvents_flat_map; [|exact L]. intros ? ? ? Hr. apply Hr. }
    assert (LF : fillStrokes e1 = []).
    { rewrite <- (flat_map_nothing (Faces detected)).
      eapply loopEvents_flat_map; [|exact L]. intros ? ? ? Hr. apply Hr. }
    assert (LM : List.map (fun m => fst (fst m)) (pixelatedRegions e1)
                 = List.map (fun f => int_of_float64 (width * faceW f / 8)%float)
                            (Faces detected)).
    { unfold pixelatedRegions. rewrite map_flat_map, <- flat_map_singleton.
      eapply loopEvents_flat_map; [|exact L]. intros ? ? e Hr.
      destruct Hr as [_ [_ [_ [_ [Hm _]]]]]. unfold pixelatedRegions in Hm.
      rewrite map_flat_map in Hm. exact Hm. }
    unfold pathPoints, labelTexts, strokeColors, fillStrokes, pixelatedRegions in *.
    rewrite !List.flat_map_app, !List.map_app, LP, LT, LC, LF, LM. simpl.
    rewrite !List.app_nil_r. repeat split. }
  destruct (render_from_copy g img im _ _ w H S)
    as [a [evs [w' [R [T [[_ [LP [LT [LC [LF LM]]]]] _]]]]]].
  exists a, w', evs.
  split; [exact R|]. split; [exact T|]. split; [exact LP|]. split; [exact LT|].
  split; [exact LC|]. split; [exact LF | exact LM].
Qed.

Lemma masked_faces_are_only_pixelated_witness :
  exists newImg w' evs,
    processImageForFaces sampleGraphics 1%positive sampleDetectedFace MaskFaces
      worldWithImage = Some (newImg, w')
    /\ trace w' = List.app (trace worldWithImage) evs
    /\ pathPoints evs = [] /\ labelTexts evs = []
    /\ strokeColors evs = [] /\ fillStrokes evs = []
    /\ List.map (fun m => fst (fst m)) (pixelatedRegions evs)
       = List.map (fun f => int_of_float64
                              (float64_of_int (faceWidth sampleDetectedFace)
                               * faceW f / 8)%float)
                  (Faces sampleDetectedFace).
Proof.
  apply (masked_faces_are_only_pixelated sampleGraphics 1%positive sampleImage
           sampleDetectedFace worldWithImage).
  apply (lookup_insert_eq (M := gmap loc)).
Defined.

(** ** Poses: key points as they come, one colour for each pose *)

Lemma loopEvents_Forall_obs {A B} (obs : Event -> list B)
    (R : nat -> A -> list Event -> Prop) (P : A -> B -> Prop) :
  (forall i x e, R i x e -> List.Forall (P x) (List.flat_map obs e)) ->
  forall l i evs, loopEvents R l i evs ->
    List.Forall (fun b => exists x, List.In x l /\ P x b) (List.flat_map obs evs).
Proof.
  intros H l i evs L. induction L as [|i x rest e1 e2 R1 L IH]; [constructor|].
  rewrite List.flat_map_app. apply List.Forall_app. split.
  - eapply List.Forall_impl; [|exact (H _ _ _ R1)].
    intros b Pb. exists x. split; [left; reflexivity | exact Pb].
  - eapply List.Forall_impl; [|exact IH].
    intros b [y [Iy Pb]]. exists y. split; [right; exact Iy | exact Pb].
Qed.

Lemma loopEvents_length {A B} (obs : Event -> list B)
    (R : nat -> A -> list Event -> Prop) (n : nat) :
  (forall i x e, R i x e -> List.length (List.flat_map obs e) = n) ->
  forall l i evs, loopEvents R l i evs ->
    List.length (List.flat_map obs evs) = n * List.length l.
Proof.
  intros H l i evs L. induction L as [|i x rest e1 e2 R1 L IH]; [simpl; lia|].
  rewrite List.flat_map_app, List.length_app, (H _ _ _ R1), IH.
  cbn [List.length]. lia.
Qed.

Lemma flat_map_repeat {A B} (c : B) (n : nat) (l : list A) :
  List.flat_map (fun _ => List.repeat c n) l = List.repeat c (n * List.length l).
Proof.
  induction l as [|x l IH]; cbn [List.flat_map List.length].
  - rewrite Nat.mul_0_r. reflexivity.
  - rewrite IH, <- List.repeat_app. f_equal. lia.
Qed.

Lemma spec_posePoint_events g new xy gc :
  gcImage gc = new ->
  spec new (posePoint g xy gc)
       (fun gc' evs =>
          gcImage gc' = new
          /\ evs = [EvGc new (MoveTo (fst (fst xy)) (snd (fst xy)));
                    EvGc new (ArcTo (fst (fst xy)) (snd (fst xy))
                                    PosePointRadius PosePointRadius 0 fullTurn);
                    EvGc new Close; EvGc new FillStroke]).
Proof.
  intros G. unfold posePoint. cbv zeta. do 3 gc_step. gc_last.
  split; [assumption | reflexivity].
Qed.

Lemma spec_poseLine_events g new from to gc :
  gcImage gc = new ->
  spec new (poseLine g from to gc)
       (fun gc' evs =>
          gcImage gc' = new
          /\ evs = [EvGc new (MoveTo (fst (fst from)) (snd (fst from)));
                    EvGc new (LineTo (fst (fst to)) (snd (fst to)));
                    EvGc new Close; EvGc new FillStroke]).
Proof.
  intros G. unfold poseLine. do 3 gc_step. gc_last.
  split; [assumption | reflexivity].
Qed.

Ltac pose_events :=
  eapply spec_bind;
  [ lazymatch goal with
    | |- spec _ (posePoint _ _ _) _ => apply spec_posePoint_events
    | |- spec _ (poseLine _ _ _ _) _ => apply spec_poseLine_events
    end; assumption
  | intros ? ? [? ->] ].

Lemma spec_drawPose_turn g new i pose gc :
  gcImage gc = new ->
  spec new (drawPose g i pose gc)
       (fun gc' evs =>
          gcImage gc' = new
          /\ (List.Forall (fun p => exists k, p = keyPointXY pose k) (pathPoints evs)
              /\ List.length (pathPoints evs) = 58
              /\ List.map Some (strokeColors evs) = [colorForIndex (Z.of_nat i)]
              /\ fillStrokes evs = List.repeat new 29
              /\ labelTexts evs = []
              /\ pixelatedRegions evs = []
              /\ drawingOnly evs)).
Proof.
  intros G. unfold drawPose.
  eapply spec_bind; [apply spec_colorForIndex_value|]. intros color e0 [-> Hc].
  gc_step. cbv zeta.
  do 28 pose_events.
  eapply spec_weaken; [apply spec_poseLine_events; assumption|].
  intros ? ? [? ->]. split; [assumption|].
  rewrite Hc. unfold keyPointXY, drawingOnly.
  split; [|repeat split; repeat constructor].
  cbn [pathPoints List.flat_map List.app].
  repeat (apply List.Forall_cons; [eexists; reflexivity|]).
  apply List.Forall_nil.
Qed.

(** X17. Poses. For every decoded image and every analysis,
    [processImageForPoses] gives to the graphic context only coordinates
    that [KeyPointFor] returned for a pose of the analysis, as they are:
    unlike those of faces and products they are multiplied by nothing.
    Each pose gives 58 coordinates and is painted 29 times (17 key points
    and 12 strokes between them), whatever the scores of its key points, in
    the one colour [colorForIndex(i)] of its place [i] in the analysis; no
    label is drawn and nothing is pixelated. *)
Theorem poses_are_drawn_unscaled g img im analyzed w :
  heap w !! img = Some im ->
  exists newImg w' evs,
    processImageForPoses g img analyzed w = Some (newImg, w')
    /\ trace w' = List.app (trace w) evs
    /\ List.Forall
         (fun p => exists pose, List.In pose analyzed
                                /\ exists k, p = keyPointXY pose k)
         (pathPoints evs)
    /\ List.length (pathPoints evs) = 58 * List.length analyzed
    /\ List.map Some (strokeColors evs)
       = numbered (fun i _ => colorForIndex (Z.of_nat i)) analyzed 0
    /\ fillStrokes evs = List.repeat newImg (29 * List.length analyzed)
    /\ labelTexts evs = []
    /\ pixelatedRegions evs = [].
Proof.
  intros H. unfold processImageForPoses.
  assert (S : forall new,
    spec new
      (let* gc := gcCall g (SetLineWidth StrokeWidth) (NewGraphicContext new) in
       let* gc := gcCall g (SetFillColor Transparent) gc in
       let* gc := forRange (drawPose g) analyzed 0 gc in
       let* gc := gcCall g Save gc in
       ret new)
      (fun r evs =>
         r = new
         /\ List.Forall
              (fun p => exists pose, List.In pose analyzed
                                     /\ exists k, p = keyPointXY pose k)
              (pathPoints evs)
         /\ List.length (pathPoints evs) = 58 * List.length analyzed
         /\ List.map Some (strokeColors evs)
            = numbered (fun i _ => colorForIndex (Z.of_nat i)) analyzed 0
         /\ fillStrokes evs = List.repeat new (29 * List.length analyzed)
         /\ labelTexts evs = []
         /\ pixelatedRegions evs = [])).
  { intros new.
    eapply spec_bind; [apply spec_gcCall; reflexivity|]. intros gc0 e0 [G0 ->].
    gc_step.
    eapply spec_bind.
    { apply (spec_forRange new _ (fun gc => gcImage gc = new)
               (fun i (pose : AnalyzedPose) e =>
                  List.Forall (fun p => exists k, p = keyPointXY pose k)
                              (pathPoints e)
                  /\ List.length (pathPoints e) = 58
                  /\ List.map Some (strokeColors e) = [colorForIndex (Z.of_nat i)]
                  /\ fillStrokes e = List.repeat new 29
                  /\ labelTexts e = []
                  /\ pixelatedRegions e = []
                  /\ drawingOnly e)).
      - intros i pose gc G. apply spec_drawPose_turn. exact G.
      - assumption. }
    intros gc1 e1 [G1 L].
    gc_step. apply spec_ret. split; [reflexivity|].
    assert (LP : List.Forall
                   (fun p => exists pose, List.In pose analyzed
                                          /\ exists k, p = keyPointXY pose k)
                   (pathPoints e1)).
    { apply (loopEvents_Forall_obs _ _
               (fun pose p => exists k, p = keyPointXY pose k) ) with (i := 0) (2 := L).
      intros ? ? ? Hr. apply Hr. }
    assert (LN : List.length (pathPoints e1) = 58 * List.length analyzed).
    { eapply loopEvents_length; [|exact L]. intros ? ? ? Hr. apply Hr. }
    assert (LC : List.map Some (strokeColors e1)
                 = numbered (fun i (_ : AnalyzedPose) => colorForIndex (Z.of_nat i))
                            analyzed 0).
    { unfold strokeColors. rewrite map_flat_map.
      eapply loopEvents_numbered; [|exact L]. intros ? ? e Hr.
      destruct Hr as [_ [_ [Hc _]]]. unfold strokeColors in Hc.
      rewrite map_flat_map in Hc. exact Hc. }
    assert (LF : fillStrokes e1 = List.repeat new (29 * List.length analyzed)).
    { rewrite <- flat_map_repeat.
      eapply loopEvents_flat_map; [|exact L]. intros ? ? ? Hr. apply Hr. }
    assert (LT : labelTexts e1 = []).
    { rewrite <- (flat_map_nothing analyzed).
      eapply loopEvents_flat_map; [|exact L]. intros ? ? ? Hr. apply Hr. }
    assert (LM : pixelatedRegions e1 = []).
    { rewrite <- (flat_map_nothing analyzed).
      eapply loopEvents_flat_map; [|exact L]. intros ? ? ? Hr. apply Hr. }
    unfold pathPoints, labelTexts, strokeColors, fillStrokes, pixelatedRegions in *.
    rewrite !List.flat_map_app, !List.map_app, LC, LF, LT, LM. simpl.
    rewrite !List.app_nil_r. repeat split; assumption. }
  destruct (render_from_copy g img im _ _ w H S)
    as [a [evs [w' [R [T [[E [LP [LN [LC [LF [LT LM]]]]]] _]]]]]].
  subst a. eexists _, w', evs.
  split; [exact R|]. split; [exact T|]. split; [exact LP|]. split; [exact LN|].
  split; [exact LC|]. split; [exact LF|]. split; [exact LT | exact LM].
Qed.

Lemma poses_are_drawn_unscaled_witness :
  exists newImg w' evs,
    processImageForPoses sampleGraphics 1%positive [samplePose] worldWithImage
    = Some (newImg, w')
    /\ trace w' = List.app (trace worldWithImage) evs
    /\ List.Forall
         (fun p => exists pose, List.In pose [samplePose]
                                /\ exists k, p = keyPointXY pose k)
         (pathPoints evs)
    /\ List.length (pathPoints evs) = 58
    /\ List.map Some (strokeColors evs) = [colorForIndex 0]
    /\ fillStrokes evs = List.repeat newImg 29
    /\ labelTexts evs = []
    /\ pixelatedRegions evs = [].
Proof.
  apply (poses_are_drawn_unscaled sampleGraphics 1%positive sampleImage
           [samplePose] worldWithImage).
  apply (lookup_insert_eq (M := gmap loc)).
Defined.

(** ** Requests answered with a picture *)

Lemma drawingOnly_silent evs :
  drawingOnly evs ->
  sentTexts evs = [] /\ sentPhotos evs = [] /\ kakaoCalls evs = []
  /\ fileRequests evs = [] /\ editedTexts evs = [].
Proof.
  unfold drawingOnly. induction 1 as [|e evs He _ IH]; [repeat split|].
  destruct IH as [T [P [K [F E]]]].
  unfold sentTexts, sentPhotos, kakaoCalls, fileRequests, editedTexts in *.
  cbn [List.flat_map]. rewrite T, P, K, F, E.
  destruct e; try (exfalso; exact He); repeat split.
Qed.

Lemma bind_run {A B} (m : M A) (k : A -> M B) w a w1 r :
  m w = Some (a, w1) -> k a w1 = r -> bind m k w = r.
Proof. intros H1 H2. unfold bind. rewrite H1. exact H2. Qed.


Lemma spec_drawPose_quiet g new i pose gc :
  gcImage gc = new ->
  spec new (drawPose g i pose gc)
       (fun gc' evs => gcImage gc' = new /\ drawingOnly evs).
Proof.
  intros G. eapply spec_weaken; [apply spec_drawPose_turn; exact G|].
  intros gc' evs [G' R]. split; [exact G' | apply R].
Qed.

(** A loop of drawing between the calls that every renderer makes. *)
Lemma spec_quiet_loop {A} g new
    (body : nat -> A -> GraphicContext -> M GraphicContext) (l : list A) :
  (forall i x gc, gcImage gc = new ->
     spec new (body i x gc) (fun gc' evs => gcImage gc' = new /\ drawingOnly evs)) ->
  spec new
    (let* gc := gcCall g (SetLineWidth StrokeWidth) (NewGraphicContext new) in
     let* gc := gcCall g (SetFillColor Transparent) gc in
     let* gc := forRange body l 0 gc in
     let* gc := gcCall g Save gc in
     ret new)
    (fun r evs => r = new /\ drawingOnly evs).
Proof.
  intros Hbody.
  eapply spec_bind; [apply spec_gcCall; reflexivity|]. intros gc0 e0 [G0 ->].
  gc_step.
  eapply spec_bind.
  { apply (spec_forRange new _ (fun gc => gcImage gc = new)
             (fun _ _ e => drawingOnly e)).
    - intros i x gc G. apply Hbody. exact G.
    - assumption. }
  intros gc1 e1 [G1 L].
  gc_step. apply spec_ret. split; [reflexivity|].
  assert (LD : drawingOnly e1).
  { eapply loopEvents_Forall; [|exact L]. intros ? ? ? Hr. exact Hr. }
  unfold drawingOnly in *.
  repeat (apply List.Forall_cons; [exact I|]).
  apply List.Forall_app. split; [exact LD | repeat constructor].
Qed.


Lemma processImageForPoses_quiet g img im analyzed w :
  heap w !! img = Some im ->
  exists newImg w' evs,
    processImageForPoses g img analyzed w = Some (newImg, w')
    /\ trace w' = List.app (trace w) evs /\ drawingOnly evs
    /\ is_Some (heap w' !! newImg)
    /\ fileIDs w' = fileIDs w /\ pending w' = pending w.
Proof.
  intros H. unfold processImageForPoses.
  destruct (render_from_copy g img im _ _ w H
              (fun new => spec_quiet_loop g new _ analyzed
                 (fun i pose gc G => spec_drawPose_quiet g new i pose gc G)))
    as [a [evs [w' [R [T [[E D] [_ [N [_ [_ [FI PE]]]]]]]]]]].
  subst a. eexists _, w', evs.
  split; [exact R|]. split; [exact T|]. split; [exact D|].
  split; [exact N|]. split; [exact FI | exact PE].
Qed.

Lemma processImageForProducts_quiet g img im detected w :
  heap w !! img = Some im ->
  exists rendered w' evs,
    processImageForProducts g img detected w = Some (rendered, w')
    /\ trace w' = List.app (trace w) evs /\ drawingOnly evs
    /\ is_Some (heap w' !! fst rendered)
    /\ fileIDs w' = fileIDs w /\ pending w' = pending w
    /\ snd rendered = List.map Class (Objects detected).
Proof.
  intros H. unfold processImageForProducts. cbv zeta.
  destruct (render_from_copy g img im _ _ w H
              (fun new => spec_drawProducts_full g new
                            (float64_of_int (productWidth detected))
                            (float64_of_int (productHeight detected))
                            (Objects detected)))
    as [r [evs [w' [R [T [[E [_ [_ [_ [_ [_ [_ D]]]]]]] [_ [N [_ [_ [FI PE]]]]]]]]]]].
  subst r. eexists _, w', evs.
  split; [exact R|]. split; [exact T|]. split; [exact D|].
  split; [exact N|]. split; [exact FI|]. split; [exact PE | reflexivity].
Qed.

Section PictureAnswers.

Variable b : Bot.
Variable env : Env.
Variable chatID : Z.

(** Decoding, rendering and sending, when each step succeeds. *)
Lemma picture_branch {A} (render : loc -> M A) (pick : A -> loc)
    (cap : A -> string) (P : A -> Prop) imgBytes im (enc : Image -> bytes) w :
  imageDecode env imgBytes = inr im ->
  (forall im', jpegEncode env im' = inr (enc im')) ->
  (forall buf caption, botSendPhoto b chatID buf caption = inr tt) ->
  (forall img w0, heap w0 !! img = Some im ->
     exists a w1 evs,
       render img w0 = Some (a, w1)
       /\ trace w1 = List.app (trace w0) evs /\ drawingOnly evs
       /\ is_Some (heap w1 !! pick a)
       /\ fileIDs w1 = fileIDs w0 /\ pending w1 = pending w0 /\ P a) ->
  exists a w' drawn rendered,
    (let* decoded := image_Decode env imgBytes in
     match decoded with
     | inr img => let* r := render img in sendRendered b env chatID (pick r) (cap r)
     | inl err => ret ("Failed to decode image: " ++ err)
     end) w = Some ("", w')
    /\ trace w'
       = List.app (trace w)
           (List.app drawn
              [EvSendChatAction chatID ChatActionUploadPhoto;
               EvSendPhoto chatID (enc rendered) (cap a)])
    /\ drawingOnly drawn /\ P a
    /\ fileIDs w' = fileIDs w /\ pending w' = pending w.
Proof.
  intros D E S Hr.
  destruct (Hr (fresh (dom (heap w)))
               {| fileIDs := fileIDs w;
                  heap := <[fresh (dom (heap w)) := im]> (heap w);
                  trace := trace w; pending := pending w |})
    as [a [w1 [evs [R [T [Dr [[rendered N] [FI [PE Pa]]]]]]]]].
  { apply lookup_insert_eq. }
  cbn [fileIDs heap trace pending] in T, FI, PE.
  exists a,
    {| fileIDs := fileIDs w1; heap := heap w1;
       trace := List.app (trace w1)
                  [EvSendChatAction chatID ChatActionUploadPhoto;
                   EvSendPhoto chatID (enc rendered) (cap a)];
       pending := pending w1 |}, evs, rendered.
  split.
  - unfold image_Decode. rewrite D.
    eapply bind_run; [reflexivity|]. cbn beta iota.
    eapply bind_run; [exact R|].
    unfold sendRendered, bind, SendChatAction, load, SendPhoto, bind, emit, ret, deref.
    cbn [fileIDs heap trace pending]. rewrite N. unfold ret. cbv beta iota.
    rewrite E, S.
    cbn [fileIDs heap trace pending]. rewrite <- List.app_assoc. reflexivity.
  - cbn [fileIDs heap trace pending]. rewrite T, <- List.app_assoc.
    repeat split; assumption.
Qed.

(** The switch answered with a picture, inside [processImage]. *)
Lemma picture_request messageID url command imgBytes call drawn buf caption w w' :
  httpGet env url = inr imgBytes ->
  processCommand b env chatID imgBytes command
    (withEvents w [EvSendChatAction chatID ChatActionTyping; EvHTTPGet url])
  = Some ("", w') ->
  trace w'
  = List.app
      (trace (withEvents
                (withEvents w [EvSendChatAction chatID ChatActionTyping;
                               EvHTTPGet url])
                [EvKakao call]))
      (List.app drawn [EvSendChatAction chatID ChatActionUploadPhoto;
                       EvSendPhoto chatID buf caption]) ->
  drawingOnly drawn ->
  exists w2,
    processImage b env chatID messageID url command w = Some (tt, w2)
    /\ trace w2
       = List.app (trace w)
           (List.app
              [EvSendChatAction chatID ChatActionTyping; EvHTTPGet url; EvKakao call]
              (List.app drawn
                 [EvSendChatAction chatID ChatActionUploadPhoto;
                  EvSendPhoto chatID buf caption;
                  EvDeleteMessage chatID messageID]))
    /\ sentTexts (List.skipn (List.length (trace w)) (trace w2)) = []
    /\ sentPhotos (List.skipn (List.length (trace w)) (trace w2)) = [(buf, caption)]
    /\ fileIDs w2 = fileIDs w' /\ pending w2 = pending w'.
Proof.
  intros H PC T Dr.
  exists (withEvents w' [EvDeleteMessage chatID messageID]).
  assert (TT : trace (withEvents w' [EvDeleteMessage chatID messageID])
               = List.app (trace w)
                   (List.app
                      [EvSendChatAction chatID ChatActionTyping; EvHTTPGet url;
                       EvKakao call]
                      (List.app drawn
                         [EvSendChatAction chatID ChatActionUploadPhoto;
                          EvSendPhoto chatID buf caption;
                          EvDeleteMessage chatID messageID]))).
  { cbn [withEvents trace]. rewrite T. cbn [withEvents trace].
    rewrite <- !List.app_assoc. reflexivity. }
  destruct (drawingOnly_silent drawn Dr) as [ST [SP _]].
  split.
  - rewrite (processImage_run b env chatID messageID url command imgBytes "" w w' H PC).
    reflexivity.
  - split; [exact TT|].
    rewrite TT, List.skipn_app, List.skipn_all, Nat.sub_diag.
    cbn [List.skipn List.app].
    unfold sentTexts, sentPhotos in *. cbn [List.flat_map List.app].
    rewrite !List.flat_map_app, ST, SP. repeat split.
Qed.


(** X19. A product request that succeeds. When the download, the remote
    call (with at least one object), the decoding, the encoding and the
    upload all succeed, [processImage] with "Detect Products" sends one
    photo and no text; the caption of the photo lists the classes of the
    objects, in the order of the response, one on each line, after the
    line "Process result of 'Detect Products':" and an empty line. *)
Theorem product_request_gets_one_photo messageID url imgBytes detected im
    (enc : Image -> bytes) w :
  httpGet env url = inr imgBytes ->
  kakaoDetectProduct (kakaoClient env) imgBytes threshold07 = inr detected ->
  Objects detected <> [] ->
  imageDecode env imgBytes = inr im ->
  (forall im', jpegEncode env im' = inr (enc im')) ->
  (forall buf caption, botSendPhoto b chatID buf caption = inr tt) ->
  exists w' drawn rendered,
    processImage b env chatID messageID url DetectProducts w = Some (tt, w')
    /\ trace w'
       = List.app (trace w)
           (List.app
              [EvSendChatAction chatID ChatActionTyping; EvHTTPGet url;
               EvKakao (DetectProductFromBytes imgBytes threshold07)]
              (List.app drawn
                 [EvSendChatAction chatID ChatActionUploadPhoto;
                  EvSendPhoto chatID (enc rendered)
                    ("Process result of 'Detect Products':" ++ newline ++ newline
                     ++ Strings.Join (List.map Class (Objects detected)) newline);
                  EvDeleteMessage chatID messageID]))
    /\ drawingOnly drawn
    /\ sentTexts (List.skipn (List.length (trace w)) (trace w')) = []
    /\ sentPhotos (List.skipn (List.length (trace w)) (trace w'))
       = [(enc rendered,
           "Process result of 'Detect Products':" ++ newline ++ newline
           ++ Strings.Join (List.map Class (Objects detected)) newline)]
    /\ fileIDs w' = fileIDs w /\ pending w' = pending w.
Proof.
  intros H K F D E S.
  set (w0 := withEvents w [EvSendChatAction chatID ChatActionTyping; EvHTTPGet url]).
  destruct (picture_branch
              (fun img => processImageForProducts (graphics env) img detected)
              (fun rendered => fst rendered)
              (fun rendered =>
                 "Process result of '" ++ DetectProducts ++ "':" ++ newline ++ newline
                 ++ Strings.Join (snd rendered) newline)
              (fun rendered => snd rendered = List.map Class (Objects detected))
              imgBytes im enc
              (withEvents w0 [EvKakao (DetectProductFromBytes imgBytes threshold07)])
              D E S)
    as [a [w' [drawn [rendered [R [T [Dr [Pa [FI PE]]]]]]]]].
  { intros img w1 Hi.
    apply (processImageForProducts_quiet (graphics env) img im detected w1 Hi). }
  cbv beta in T. rewrite Pa in T.
  assert (PC : processCommand b env chatID imgBytes DetectProducts w0 = Some ("", w')).
  { unfold processCommand.
    change (String.eqb DetectProducts DetectFaces || String.eqb DetectProducts MaskFaces)
      with false.
    change (String.eqb DetectProducts DetectProducts) with true. cbv iota.
    eapply bind_run.
    { unfold kakao, bind, emit, ret. rewrite K. reflexivity. }
    cbn beta iota.
    assert (L : (0 <? List.length (Objects detected))%nat = true).
    { destruct (Objects detected); [contradiction | reflexivity]. }
    rewrite L. exact R. }
  destruct (picture_request messageID url DetectProducts imgBytes _ drawn _ _ w w'
              H PC T Dr)
    as [w2 [R2 [T2 [ST [SP [F2 P2]]]]]].
  exists w2, drawn, rendered.
  split; [exact R2|]. split; [exact T2|]. split; [exact Dr|].
  split; [exact ST|]. split; [exact SP|].
  split; [rewrite F2; exact FI | rewrite P2; exact PE].
Qed.

(** X20. A pose request that succeeds. When the download, the remote call,
    the decoding, the encoding and the upload all succeed, [processImage]
    with "Analyze Poses" sends one photo with the caption "Process result
    of 'Analyze Poses'" and no text, whatever the number of poses in the
    analysis: unlike the branches of faces and products, this one has no
    answer of its own for an analysis without pose. *)
Theorem pose_request_gets_one_photo messageID url imgBytes analyzed im
    (enc : Image -> bytes) w :
  httpGet env url = inr imgBytes ->
  kakaoAnalyzePose (kakaoClient env) imgBytes = inr analyzed ->
  imageDecode env imgBytes = inr im ->
  (forall im', jpegEncode env im' = inr (enc im')) ->
  (forall buf caption, botSendPhoto b chatID buf caption = inr tt) ->
  exists w' drawn rendered,
    processImage b env chatID messageID url AnalyzePoses w = Some (tt, w')
    /\ trace w'
       = List.app (trace w)
           (List.app
              [EvSendChatAction chatID ChatActionTyping; EvHTTPGet url;
               EvKakao (AnalyzePoseFromBytes imgBytes)]
              (List.app drawn
                 [EvSendChatAction chatID ChatActionUploadPhoto;
                  EvSendPhoto chatID (enc rendered)
                              "Process result of 'Analyze Poses'";
                  EvDeleteMessage chatID messageID]))
    /\ drawingOnly drawn
    /\ sentTexts (List.skipn (List.length (trace w)) (trace w')) = []
    /\ sentPhotos (List.skipn (List.length (trace w)) (trace w'))
       = [(enc rendered, "Process result of 'Analyze Poses'")]
    /\ fileIDs w' = fileIDs w /\ pending w' = pending w.
Proof.
  intros H K D E S.
  set (w0 := withEvents w [EvSendChatAction chatID ChatActionTyping; EvHTTPGet url]).
  destruct (picture_branch
              (fun img => processImageForPoses (graphics env) img analyzed)
              (fun newImg => newImg)
              (fun _ => "Process result of '" ++ AnalyzePoses ++ "'")
              (fun _ => True) imgBytes im enc
              (withEvents w0 [EvKakao (AnalyzePoseFromBytes imgBytes)])
              D E S)
    as [a [w' [drawn [rendered [R [T [Dr [_ [FI PE]]]]]]]]].
  { intros img w1 Hi.
    destruct (processImageForPoses_quiet (graphics env) img im analyzed w1 Hi)
      as [n [w2 [evs [R2 [T2 [D2 [N2 [F2 P2]]]]]]]].
    exists n, w2, evs. auto 10. }
  assert (PC : processCommand b env chatID imgBytes AnalyzePoses w0 = Some ("", w')).
  { unfold processCommand.
    change (String.eqb AnalyzePoses DetectFaces || String.eqb AnalyzePoses MaskFaces)
      with false.
    change (String.eqb AnalyzePoses DetectProducts) with false.
    change (String.eqb AnalyzePoses DetectNSFW) with false.
    change (String.eqb AnalyzePoses Tag) with false.
    change (String.eqb AnalyzePoses AnalyzePoses) with true. cbv iota.
    eapply bind_run.
    { unfold kakao, bind, emit, ret. rewrite K. reflexivity. }
    cbn beta iota. exact R. }
  destruct (picture_request messageID url AnalyzePoses imgBytes _ drawn _ _ w w'
              H PC T Dr)
    as [w2 [R2 [T2 [ST [SP [F2 P2]]]]]].
  exists w2, drawn, rendered.
  split; [exact R2|]. split; [exact T2|]. split; [exact Dr|].
  split; [exact ST|]. split; [exact SP|].
  split; [rewrite F2; exact FI | rewrite P2; exact PE].
Qed.

End PictureAnswers.


Lemma product_request_gets_one_photo_witness :
  exists w' drawn rendered,
    processImage sampleBot detectingEnv 1111 42 "https://example.org/photo.jpg"
      DetectProducts initialWorld = Some (tt, w')
    /\ trace w'
       = List.app (trace initialWorld)
           (List.app
              [EvSendChatAction 1111 ChatActionTyping;
               EvHTTPGet "https://example.org/photo.jpg";
               EvKakao (DetectProductFromBytes [Byte.xff; Byte.xd8] threshold07)]
              (List.app drawn
                 [EvSendChatAction 1111 ChatActionUploadPhoto;
                  EvSendPhoto 1111 (Pix rendered)
                    ("Process result of 'Detect Products':" ++ newline ++ newline
                     ++ "shoes");
                  EvDeleteMessage 1111 42]))
    /\ drawingOnly drawn
    /\ sentTexts (List.skipn (List.length (trace initialWorld)) (trace w')) = []
    /\ sentPhotos (List.skipn (List.length (trace initialWorld)) (trace w'))
       = [(Pix rendered,
           "Process result of 'Detect Products':" ++ newline ++ newline ++ "shoes")]
    /\ fileIDs w' = fileIDs initialWorld /\ pending w' = pending initialWorld.
Proof.
  apply (product_request_gets_one_photo sampleBot detectingEnv 1111 42
           "https://example.org/photo.jpg" [Byte.xff; Byte.xd8]
           sampleDetectedProduct sampleImage Pix initialWorld).
  - reflexivity.
  - reflexivity.
  - discriminate.
  - reflexivity.
  - reflexivity.
  - reflexivity.
Defined.

Lemma pose_request_gets_one_photo_witness :
  exists w' drawn rendered,
    processImage sampleBot detectingEnv 1111 42 "https://example.org/photo.jpg"
      AnalyzePoses initialWorld = Some (tt, w')
    /\ trace w'
       = List.app (trace initialWorld)
           (List.app
              [EvSendChatAction 1111 ChatActionTyping;
               EvHTTPGet "https://example.org/photo.jpg";
               EvKakao (AnalyzePoseFromBytes [Byte.xff; Byte.xd8])]
              (List.app drawn
                 [EvSendChatAction 1111 ChatActionUploadPhoto;
                  EvSendPhoto 1111 (Pix rendered) "Process result of 'Analyze Poses'";
                  EvDeleteMessage 1111 42]))
    /\ drawingOnly drawn
    /\ sentTexts (List.skipn (List.length (trace initialWorld)) (trace w')) = []
    /\ sentPhotos (List.skipn (List.length (trace initialWorld)) (trace w'))
       = [(Pix rendered, "Process result of 'Analyze Poses'")]
    /\ fileIDs w' = fileIDs initialWorld /\ pending w' = pending initialWorld.
Proof.
  apply (pose_request_gets_one_photo sampleBot detectingEnv 1111 42
           "https://example.org/photo.jpg" [Byte.xff; Byte.xd8]
           [samplePose] sampleImage Pix initialWorld).
  - reflexivity.
  - reflexivity.
  - reflexivity.
  - reflexivity.
  - reflexivity.
Defined.

(** ** From the callback to the worker *)

(** A payload whose key is in the store starts the work. *)
Lemma callbackMessage_hit order b query w c tok key fileID file text :
  Permutation order allCmds ->
  List.In (c, tok) allCmds ->
  Strings.lacks "/" key = true ->
  fileIDs w !! key = Some fileID ->
  Data query = Some (tok ++ "/" ++ key) ->
  botGetFile b fileID = inr file ->
  MessageText (QueryMessage query) = Some text ->
  Strings.Contains text "image" = true ->
  callbackMessage order b query w
  = Some ("Processing '" ++ c ++ "' on received image...",
          {| fileIDs := fileIDs w; heap := heap w;
             trace :=
               List.app (trace w)
                 [EvGetFile fileID;
                  EvLogRequest (match Username (From query) with
                                | None => FirstName (From query)
                                | Some u => u
                                end)
                               (botGetFileURL b file) c];
             pending :=
               List.app (pending w)
                 [ {| taskChatID := ChatID (QueryMessage query);
                      taskMessageID := MessageID (QueryMessage query);
                      taskFileURL := botGetFileURL b file;
                      taskCommand := c |} ] |}).
Proof.
  intros P I K S D F T C.
  unfold callbackMessage, bind. rewrite D. simpl deref. unfold ret at 1.
  pose proof (allCmds_tokens_not_cancel c tok key I) as NC.
  change (tok ++ String "/" key) with (tok ++ "/" ++ key) in NC.
  rewrite NC.
  rewrite (parse_token_key_lacks tok _ (allCmds_tokens_lack_slash c tok I) K).
  unfold lookupFileID. rewrite S.
  unfold GetFile, bind, emit, ret. rewrite F, T. simpl deref. unfold ret.
  rewrite C.
  destruct (visionCommandForCommand_any_order order c tok P I) as [-> _].
  unfold go, emit. cbn [fileIDs heap trace pending].
  rewrite <- List.app_assoc. reflexivity.
Qed.

(** X21. From the callback to the worker. When the key of the payload is in
    the store, the transport resolves the handle and the message of the
    menu has "image" in its text, serving the callback (the dispatcher,
    then the goroutine it started, no other being pending) is: one request
    for the file, one line of the request log, the answer to the callback
    and, when that went well, the edit of the menu into "Processing 'c' on
    received image...", and then [processImage] for the command [c] of the
    token, on the chat and the message of the menu and on the URL of the
    resolved file. The work is started before the callback is answered, so
    it runs even when the answer or the edit fails and the dispatcher
    returns [false]. *)
Theorem served_callback_runs_the_worker order b env query w c tok key fileID
    file text :
  Permutation order allCmds ->
  List.In (c, tok) allCmds ->
  Strings.lacks "/" key = true ->
  fileIDs w !! key = Some fileID ->
  pending w = [] ->
  Data query = Some (tok ++ "/" ++ key) ->
  botGetFile b fileID = inr file ->
  MessageText (QueryMessage query) = Some text ->
  Strings.Contains text "image" = true ->
  exists evs w1,
    trace w1
    = List.app (trace w)
        (EvGetFile fileID
         :: EvLogRequest (match Username (From query) with
                          | None => FirstName (From query)
                          | Some u => u
                          end) (botGetFileURL b file) c
         :: evs)
    /\ answeredCallbacks evs = [ID query]
    /\ editedTexts evs
       = (if Ok (botAnswerCallbackQuery b (ID query))
          then ["Processing '" ++ c ++ "' on received image..."] else [])
    /\ sentTexts evs = [] /\ sentPhotos evs = [] /\ kakaoCalls evs = []
    /\ fileIDs w1 = fileIDs w /\ heap w1 = heap w /\ pending w1 = []
    /\ serveCallbackQuery b env order query w
       = match processImage b env (ChatID (QueryMessage query))
                 (MessageID (QueryMessage query)) (botGetFileURL b file) c w1 with
         | Some (_, w2) =>
             Some (Ok (botAnswerCallbackQuery b (ID query))
                   && Ok (botEditMessageText b
                            ("Processing '" ++ c ++ "' on received image...")
                            (ChatID (QueryMessage query))
                            (MessageID (QueryMessage query))), w2)
         | None => None
         end.
Proof.
  intros P I K S E D F T C.
  pose proof (callbackMessage_hit order b query w c tok key fileID file text
                P I K S D F T C) as CM.
  destruct (processCallbackQuery_result order b env query _ w _ CM)
    as [evs [PQ [A [ED [KC [_ [ST SP]]]]]]].
  exists evs.
  eexists {| fileIDs := fileIDs w; heap := heap w; trace := _; pending := [] |}.
  split; [cbn [trace]; reflexivity|].
  split; [exact A|]. split; [exact ED|]. split; [exact ST|]. split; [exact SP|].
  split; [exact KC|]. split; [reflexivity|]. split; [reflexivity|].
  split; [reflexivity|].
  unfold serveCallbackQuery, bind. rewrite PQ.
  unfold takePending, withEvents. cbn [fileIDs heap trace pending].
  rewrite E. cbn [List.app runTasks taskChatID taskMessageID taskFileURL taskCommand].
  unfold bind. rewrite <- List.app_assoc. cbn [List.app].
  destruct (processImage b env _ _ _ c _) as [[[] w2]|]; reflexivity.
Qed.

Lemma served_callback_runs_the_worker_witness :
  exists evs w1,
    trace w1
    = List.app (trace storedWorld)
        (EvGetFile sampleFileID
         :: EvLogRequest "alice"
              ("https://api.telegram.org/file/photos/" ++ sampleFileID) AnalyzePoses
         :: evs)
    /\ answeredCallbacks evs = ["4382bfdwdsb323b2d9"]
    /\ editedTexts evs = ["Processing 'Analyze Poses' on received image..."]
    /\ sentTexts evs = [] /\ sentPhotos evs = [] /\ kakaoCalls evs = []
    /\ fileIDs w1 = fileIDs storedWorld /\ heap w1 = heap storedWorld
    /\ pending w1 = []
    /\ serveCallbackQuery sampleBot detectingEnv allCmds
         (sampleQuery "analyze_poses/AgACAgUAAxkBAAIBQ2ZmZXhhbXBsZUZp") storedWorld
       = match processImage sampleBot detectingEnv 1111 42
                 ("https://api.telegram.org/file/photos/" ++ sampleFileID)
                 AnalyzePoses w1 with
         | Some (_, w2) => Some (true, w2)
         | None => None
         end.
Proof.
  apply (served_callback_runs_the_worker allCmds sampleBot detectingEnv
           (sampleQuery "analyze_poses/AgACAgUAAxkBAAIBQ2ZmZXhhbXBsZUZp") storedWorld
           AnalyzePoses "analyze_poses" "AgACAgUAAxkBAAIBQ2ZmZXhhbXBsZUZp" sampleFileID
           ("photos/" ++ sampleFileID) messageActionImage).
  - apply Permutation_refl.
  - unfold allCmds. simpl. auto 10.
  - reflexivity.
  - apply (lookup_insert_eq (M := gmap string)).
  - reflexivity.
  - reflexivity.
  - reflexivity.
  - reflexivity.
  - reflexivity.
Defined.

(** ** Failures of the download and of the vision service *)

(** X22. When the download of the picture fails, [processImage] calls the
    vision service for no command: it deletes the menu, sends the one text
    "Failed to read file from <url>: <error>" and writes the same text to
    the log; no photo is sent and the store is as it was. *)
Theorem download_failure_is_reported b env chatID messageID url command err w :
  httpGet env url = inl err ->
  exists w' evs,
    processImage b env chatID messageID url command w = Some (tt, w')
    /\ trace w' = List.app (trace w) evs
    /\ kakaoCalls evs = []
    /\ sentTexts evs = ["Failed to read file from " ++ url ++ ": " ++ err]
    /\ sentPhotos evs = []
    /\ List.In (EvDeleteMessage chatID messageID) evs
    /\ List.In (EvLogError ("Failed to read file from " ++ url ++ ": " ++ err)) evs
    /\ fileIDs w' = fileIDs w /\ heap w' = heap w /\ pending w' = pending w.
Proof.
  intros H.
  rewrite (processImage_read_failure b env chatID messageID url command err w H).
  eexists _, _. split; [reflexivity|]. split; [reflexivity|].
  repeat split; simpl; auto 10.
Qed.

Lemma download_failure_is_reported_witness :
  exists w' evs,
    processImage sampleBot offlineEnv 1111 42 "https://example.org/photo.jpg"
      MaskFaces initialWorld = Some (tt, w')
    /\ trace w' = List.app (trace initialWorld) evs
    /\ kakaoCalls evs = []
    /\ sentTexts evs
       = ["Failed to read file from https://example.org/photo.jpg: unreachable"]
    /\ sentPhotos evs = []
    /\ List.In (EvDeleteMessage 1111 42) evs
    /\ List.In (EvLogError
                  "Failed to read file from https://example.org/photo.jpg: unreachable")
               evs
    /\ fileIDs w' = fileIDs initialWorld /\ heap w' = heap initialWorld
    /\ pending w' = pending initialWorld.
Proof.
  apply (download_failure_is_reported sampleBot offlineEnv 1111 42
           "https://example.org/photo.jpg" MaskFaces "unreachable" initialWorld).
  reflexivity.
Defined.

(** X23. When the vision service fails with [err] on the downloaded bytes,
    [processImage] makes the one call of its command, decodes and draws
    nothing, deletes the menu, and sends and logs one text: the error after
    "Failed to detect faces: " for "Detect Faces" and "Mask Faces" and also
    for "Analyze Poses", after "Failed to detect NSFW factors from image: "
    for "Detect NSFW", after "Failed to tag image: " for "Tag" and after
    "Failed to detect texts: " for "Extract Texts". *)
Theorem remote_failure_is_reported b env chatID messageID url imgBytes err w
    command call prefix :
  httpGet env url = inr imgBytes ->
  kakaoDetectFace (kakaoClient env) imgBytes threshold07 = inl err ->
  kakaoDetectNSFW (kakaoClient env) imgBytes = inl err ->
  kakaoGenerateTags (kakaoClient env) imgBytes = inl err ->
  kakaoAnalyzePose (kakaoClient env) imgBytes = inl err ->
  kakaoDetectText (kakaoClient env) imgBytes = inl err ->
  List.In (command, call, prefix)
    [ (DetectFaces, DetectFaceFromBytes imgBytes threshold07,
       "Failed to detect faces: ");
      (MaskFaces, DetectFaceFromBytes imgBytes threshold07,
       "Failed to detect faces: ");
      (DetectNSFW, DetectNSFWFromBytes imgBytes,
       "Failed to detect NSFW factors from image: ");
      (Tag, GenerateTagsFromBytes imgBytes, "Failed to tag image: ");
      (AnalyzePoses, AnalyzePoseFromBytes imgBytes, "Failed to detect faces: ");
      (ExtractTexts, DetectTextFromBytes imgBytes, "Failed to detect texts: ") ] ->
  processImage b env chatID messageID url command w
  = Some (tt,
          withEvents w
            [EvSendChatAction chatID ChatActionTyping; EvHTTPGet url;
             EvKakao call;
             EvDeleteMessage chatID messageID;
             EvSendMessage chatID (prefix ++ err) None None;
             EvLogError (prefix ++ err)]).
Proof.
  intros H KF KN KT KP KX I.
  assert (PC : processCommand b env chatID imgBytes command
                 (withEvents w [EvSendChatAction chatID ChatActionTyping;
                                EvHTTPGet url])
               = Some (prefix ++ err,
                       withEvents
                         (withEvents w [EvSendChatAction chatID ChatActionTyping;
                                        EvHTTPGet url])
                         [EvKakao call])).
  { simpl in I.
    repeat (destruct I as [I|I];
            [injection I as <- <- <-; unfold processCommand;
             simpl (String.eqb _ _ || _); repeat simpl (String.eqb _ _); cbv iota;
             unfold kakao, bind, emit, ret;
             rewrite ?KF, ?KN, ?KT, ?KP, ?KX; reflexivity|]).
    destruct I. }
  rewrite (processImage_run b env chatID messageID url command imgBytes _ w _ H PC).
  assert (N : String.eqb (prefix ++ err) "" = false).
  { simpl in I.
    repeat (destruct I as [I|I]; [injection I as <- <- <-; reflexivity|]).
    destruct I. }
  rewrite N, !withEvents_app. reflexivity.
Qed.

Lemma remote_failure_is_reported_witness :
  processImage sampleBot serviceDownEnv 1111 42 "https://example.org/photo.jpg"
    AnalyzePoses initialWorld
  = Some (tt,
          withEvents initialWorld
            [EvSendChatAction 1111 ChatActionTyping;
             EvHTTPGet "https://example.org/photo.jpg";
             EvKakao (AnalyzePoseFromBytes [Byte.xff; Byte.xd8]);
             EvDeleteMessage 1111 42;
             EvSendMessage 1111 "Failed to detect faces: offline" None None;
             EvLogError "Failed to detect faces: offline"]).
Proof.
  apply (remote_failure_is_reported sampleBot serviceDownEnv 1111 42
           "https://example.org/photo.jpg" [Byte.xff; Byte.xd8] "offline"
           initialWorld AnalyzePoses (AnalyzePoseFromBytes [Byte.xff; Byte.xd8])
           "Failed to detect faces: ").
  - reflexivity.
  - reflexivity.
  - reflexivity.
  - reflexivity.
  - reflexivity.
  - reflexivity.
  - simpl. auto 10.
Defined.

(** ** The older revision *)

(** What the loop of [init] leaves in the two maps. *)
Lemma legacy_tables t c :
  Legacy.registerCommands Legacy.allCmds Legacy.noTables = Some t ->
  List.In c Legacy.allCmds ->
  exists a rest,
    c = String a rest
    /\ Legacy.string_of_byte a = String a EmptyString
    /\ Ascii.eqb a "c" = false
    /\ Legacy.shortCmdsMap t !! c = Some (String a EmptyString)
    /\ Legacy.cmdsMap t !! String a EmptyString = Some c.
Proof.
  intros H I. cbn in H. injection H as <-.
  simpl in I.
  repeat (destruct I as [I|I];
          [subst c; eexists _, _; split; [reflexivity|];
           split; [reflexivity|]; split; [reflexivity|];
           split; vm_compute; reflexivity|]).
  destruct I.
Qed.

Lemma legacy_keyboardData t fileID c letter :
  List.In c Legacy.allCmds ->
  Legacy.shortCmdsMap t !! c = Some letter ->
  Legacy.keyboardData t fileID !! c = Some (letter ++ fileID).
Proof.
  intros I L. unfold Legacy.keyboardData. cbn [List.fold_left Legacy.allCmds].
  simpl in I.
  repeat (destruct I as [I|I];
          [subst c; repeat (rewrite lookup_insert; case_decide; try discriminate);
           try congruence; rewrite L; reflexivity|]).
  destruct I.
Qed.

(** X24. The older revision, from the menu to the worker. After the loop of
    [init], for every command [c] of the older command list and every file
    handle, of any length and with any bytes: the menu has a button for [c]
    whose payload is the first letter of [c] followed by the whole handle,
    and that payload, sent back as a callback on a message whose text has
    "image" in it, makes the dispatcher ask the transport for that very
    handle and, the transport having resolved it, start exactly one
    goroutine, for [c]. No store is read: the handle travels in the
    payload. *)
Theorem legacy_menu_callback_round_trip t toList b fileID c query file text w :
  Legacy.registerCommands Legacy.allCmds Legacy.noTables = Some t ->
  (forall m, Permutation (toList m) (map_to_list m)) ->
  List.In c Legacy.allCmds ->
  botGetFile b fileID = inr file ->
  MessageText (QueryMessage query) = Some text ->
  Strings.Contains text "image" = true ->
  exists letter rest,
    c = String letter rest
    /\ List.In [ {| Text := c; CallbackData := Some (String letter fileID) |} ]
               (Legacy.genImageInlineKeyboards t toList fileID)
    /\ (Data query = Some (String letter fileID) ->
        Legacy.callbackMessage t b query w
        = Some ("Processing '" ++ c ++ "' on received image...",
                {| fileIDs := fileIDs w; heap := heap w;
                   trace :=
                     List.app (trace w)
                       [EvGetFile fileID;
                        EvLogRequest (match Username (From query) with
                                      | None => FirstName (From query)
                                      | Some u => u
                                      end)
                                     (botGetFileURL b file) c];
                   pending :=
                     List.app (pending w)
                       [ {| taskChatID := ChatID (QueryMessage query);
                            taskMessageID := MessageID (QueryMessage query);
                            taskFileURL := botGetFileURL b file;
                            taskCommand := c |} ] |})).
Proof.
  intros R P I F T C.
  destruct (legacy_tables t c R I) as [a [rest [-> [SB [NC [S M]]]]]].
  exists a, rest. split; [reflexivity|]. split.
  - unfold Legacy.genImageInlineKeyboards.
    apply List.in_or_app. left.
    unfold NewInlineKeyboardButtonsAsRowsWithCallbackData.
    apply (List.in_map
             (fun kv => [ {| Text := fst kv; CallbackData := Some (snd kv) |} ])
             _ (String a rest, String a EmptyString ++ fileID)).
    apply (Permutation_in _ (Permutation_sym (P _))).
    refine (proj1 (list_elem_of_In _ _) _).
    refine (proj2 (elem_of_map_to_list _ _ _) _).
    apply legacy_keyboardData; assumption.
  - intros D. unfold Legacy.callbackMessage, bind. rewrite D. simpl deref.
    unfold ret at 1. cbn [String.eqb commandCancel]. rewrite NC.
    rewrite SB. unfold VisionCommand in *. rewrite M. cbn [default].
    unfold GetFile, bind, emit, ret. rewrite F, T. simpl deref. unfold ret.
    rewrite C. unfold go, emit. cbn [fileIDs heap trace pending].
    rewrite <- List.app_assoc. reflexivity.
Qed.

Lemma legacy_menu_callback_round_trip_witness :
  exists letter rest,
    Legacy.MaskFaces = String letter rest
    /\ List.In [ {| Text := Legacy.MaskFaces;
                   CallbackData := Some (String letter "short/id") |} ]
               (Legacy.genImageInlineKeyboards
                  Legacy.registered
                  map_to_list "short/id")
    /\ (Data (sampleQuery "Mshort/id") = Some (String letter "short/id") ->
        Legacy.callbackMessage
          Legacy.registered
          sampleBot (sampleQuery "Mshort/id") initialWorld
        = Some ("Processing 'Mask Faces' on received image...",
                {| fileIDs := fileIDs initialWorld; heap := heap initialWorld;
                   trace :=
                     List.app (trace initialWorld)
                       [EvGetFile "short/id";
                        EvLogRequest "alice"
                          (botGetFileURL sampleBot "photos/short/id")
                          Legacy.MaskFaces];
                   pending :=
                     List.app (pending initialWorld)
                       [ {| taskChatID := 1111; taskMessageID := 42;
                            taskFileURL := botGetFileURL sampleBot "photos/short/id";
                            taskCommand := Legacy.MaskFaces |} ] |})).
Proof.
  apply (legacy_menu_callback_round_trip Legacy.registered map_to_list sampleBot
           "short/id"
           Legacy.MaskFaces (sampleQuery "Mshort/id") "photos/short/id"
           messageActionImage initialWorld).
  - reflexivity.
  - intros m. apply Permutation_refl.
  - unfold Legacy.allCmds. simpl. auto 10.
  - reflexivity.
  - reflexivity.
  - reflexivity.
Defined.

Lemma legacy_unknown_letter t a :
  Legacy.registerCommands Legacy.allCmds Legacy.noTables = Some t ->
  ~ List.In a ["F"; "P"; "N"; "T"; "M"]%char ->
  Legacy.cmdsMap t !! Legacy.string_of_byte a = None.
Proof.
  intros H N.
  change (Legacy.registerCommands Legacy.allCmds Legacy.noTables)
    with (Some Legacy.registered) in H.
  injection H as <-. unfold Legacy.registered. cbn [Legacy.cmdsMap].
  unfold Legacy.string_of_byte.
  destruct (nat_of_ascii a <? 128)%nat.
  - repeat (rewrite lookup_insert; case_decide as E;
            [injection E as <-; exfalso; apply N; simpl; auto 10 | clear E]).
    apply lookup_empty.
  - repeat (rewrite lookup_insert; case_decide as E; [discriminate E | clear E]).
    apply lookup_empty.
Qed.

(** X25. The older revision, at the edges of the payload. After the loop of
    [init]: an empty payload makes the dispatcher panic (it indexes the
    first byte); a payload that is not "cancel" and whose first byte is
    none of the five first letters is not refused: the rest of the payload
    is sent to the transport as a file handle and, once resolved, a
    goroutine is started for the empty command. *)
Theorem legacy_payload_edges t b query w :
  Legacy.registerCommands Legacy.allCmds Legacy.noTables = Some t ->
  (Data query = Some "" -> Legacy.callbackMessage t b query w = None)
  /\ (forall a fileID file text,
        Data query = Some (String a fileID) ->
        String a fileID <> commandCancel ->
        ~ List.In a ["F"; "P"; "N"; "T"; "M"]%char ->
        botGetFile b fileID = inr file ->
        MessageText (QueryMessage query) = Some text ->
        Strings.Contains text "image" = true ->
        Legacy.callbackMessage t b query w
        = Some ("Processing '' on received image...",
                {| fileIDs := fileIDs w; heap := heap w;
                   trace :=
                     List.app (trace w)
                       [EvGetFile fileID;
                        EvLogRequest (match Username (From query) with
                                      | None => FirstName (From query)
                                      | Some u => u
                                      end)
                                     (botGetFileURL b file) ""];
                   pending :=
                     List.app (pending w)
                       [ {| taskChatID := ChatID (QueryMessage query);
                            taskMessageID := MessageID (QueryMessage query);
                            taskFileURL := botGetFileURL b file;
                            taskCommand := "" |} ] |})).
Proof.
  intros R. split.
  - intros D. unfold Legacy.callbackMessage, bind. rewrite D. reflexivity.
  - intros a fileID file text D NC NL F T C.
    unfold Legacy.callbackMessage, bind. rewrite D. simpl deref. unfold ret at 1.
    apply String.eqb_neq in NC. rewrite NC. cbv beta iota zeta.
    pose proof (legacy_unknown_letter t a R NL) as U.
    unfold VisionCommand in *. rewrite U. cbn [default].
    unfold GetFile, bind, emit, ret. rewrite F, T. simpl deref. unfold ret.
    rewrite C. unfold go, emit. cbn [fileIDs heap trace pending].
    rewrite <- List.app_assoc. reflexivity.
Qed.

Lemma legacy_payload_edges_witness :
  Legacy.callbackMessage Legacy.registered sampleBot (sampleQuery "") initialWorld
  = None.
Proof.
  apply (proj1 (legacy_payload_edges Legacy.registered sampleBot (sampleQuery "")
                  initialWorld eq_refl)).
  reflexivity.
Defined.
